(** * tmux_bridge: a shallow embedding of [scripts/tmux_bridge.py]

    The module under study lets an agent drive a tmux pane: it sends keys,
    captures the pane, strips terminal control sequences and runs commands
    synchronously between two echoed markers.

    Python [str] values are sequences of Unicode code points; they are
    modelled as lists of code points ([N]).  The functions of the Python
    standard library that the module calls ([str.strip], [str.splitlines],
    [str.rfind], slicing, [re.sub] with the module's own patterns) are
    written out with their Python behaviour. *)

From Stdlib Require Import String Ascii.
From Stdlib Require Import List NArith ZArith Bool Lia DecimalString.
Import ListNotations.

Set Implicit Arguments.

(** ** Python strings *)

Definition char := N.
Definition str := list char.

(** An ASCII literal as a Python string. *)
Definition u (s : string) : str := map N_of_ascii (list_ascii_of_string s).

Definition LF : char := 10%N.
Definition CR : char := 13%N.
Definition ESC : char := 27%N.
Definition BEL : char := 7%N.
Definition SPACE : char := 32%N.

Fixpoint str_eqb (a b : str) : bool :=
  match a, b with
  | [], [] => true
  | x :: a', y :: b' => N.eqb x y && str_eqb a' b'
  | _, _ => false
  end.

Definition mem (c : char) (l : list char) : bool := existsb (N.eqb c) l.

(** [str.isspace] on one code point (Py_UNICODE_ISSPACE). *)
Definition isspace (c : char) : bool :=
  ((9 <=? c) && (c <=? 13) || (28 <=? c) && (c <=? 32)
   || mem c [133; 160; 5760; 8232; 8233; 8239; 8287; 12288]
   || (8192 <=? c) && (c <=? 8202))%N.

(** The line boundaries of [str.splitlines]. *)
Definition is_linebreak (c : char) : bool :=
  mem c [10; 11; 12; 13; 28; 29; 30; 133; 8232; 8233]%N.

Fixpoint dropwhile (p : char -> bool) (s : str) : str :=
  match s with
  | [] => []
  | c :: rest => if p c then dropwhile p rest else s
  end.

Fixpoint takewhile (p : char -> bool) (s : str) : str :=
  match s with
  | [] => []
  | c :: rest => if p c then c :: takewhile p rest else []
  end.

Definition lstrip (s : str) : str := dropwhile isspace s.
Definition rstrip (s : str) : str := rev (dropwhile isspace (rev s)).
(** [s.strip()] *)
Definition strip (s : str) : str := rstrip (lstrip s).

(** [s.startswith(prefix)] *)
Fixpoint startswith (s prefix : str) {struct prefix} : bool :=
  match prefix, s with
  | [], _ => true
  | p :: prefix', c :: s' => N.eqb p c && startswith s' prefix'
  | _ :: _, [] => false
  end.

(** [sub in s] *)
Fixpoint contains (s sub : str) : bool :=
  startswith s sub ||
  match s with
  | [] => false
  | _ :: rest => contains rest sub
  end.

(** [s.rfind(sub)]: the highest index at which [sub] starts, or -1.
    [i] is the index of the head of [s] in the whole string. *)
Fixpoint rfind_from (i : Z) (s sub : str) : Z :=
  match s with
  | [] => if startswith [] sub then i else (-1)%Z
  | _ :: rest =>
      let r := rfind_from (i + 1) rest sub in
      if (r =? -1)%Z then (if startswith s sub then i else (-1)%Z) else r
  end.

Definition rfind (s sub : str) : Z := rfind_from 0 s sub.

(** [len(s)] as a Python int. *)
Definition len {A} (s : list A) : Z := Z.of_nat (length s).

(** Slice indices: a negative index counts from the end, and the result is
    clamped to [0, len]. *)
Definition slice_index (n i : Z) : Z :=
  let j := if (i <? 0)%Z then (i + n)%Z else i in
  Z.max 0 (Z.min n j).

(** [s[lo:hi]] with either bound optional. *)
Definition slice {A} (lo hi : option Z) (s : list A) : list A :=
  let n := len s in
  let a := match lo with Some i => slice_index n i | None => 0%Z end in
  let b := match hi with Some i => slice_index n i | None => n end in
  firstn (Z.to_nat (b - a)) (skipn (Z.to_nat a) s).

(** [sep.join(parts)] *)
Fixpoint join (sep : str) (parts : list str) : str :=
  match parts with
  | [] => []
  | [p] => p
  | p :: rest => p ++ sep ++ join sep rest
  end.

(** [s.splitlines()]: [cur] holds the current line, reversed.  A line break
    ends the current line, CR LF counts as one break, and no empty last line
    is produced after a final break. *)
Fixpoint splitlines_from (cur : str) (s : str) : list str :=
  match s with
  | [] => match cur with [] => [] | _ => [rev cur] end
  | c :: rest =>
      if is_linebreak c then
        rev cur ::
        (if N.eqb c CR then
           match rest with
           | c' :: rest' =>
               if N.eqb c' LF then splitlines_from [] rest'
               else splitlines_from [] rest
           | [] => splitlines_from [] rest
           end
         else splitlines_from [] rest)
      else splitlines_from (c :: cur) rest
  end.

Definition splitlines (s : str) : list str := splitlines_from [] s.

(** ** The ANSI escape pattern [_ANSI_RE] *)

Definition is_digit (c : char) : bool := ((48 <=? c) && (c <=? 57))%N.
Definition is_alpha (c : char) : bool :=
  ((65 <=? c) && (c <=? 90) || (97 <=? c) && (c <=? 122))%N.
(** [[0-9;?]] *)
Definition is_csi_param (c : char) : bool :=
  is_digit c || N.eqb c 59 || N.eqb c 63.

(** The OSC payload [.*?] followed by BEL or ESC-backslash: the number of
    characters up to and including the first terminator; [.] does not
    match a line feed. *)
Fixpoint osc_tail (s : str) : option nat :=
  match s with
  | [] => None
  | c :: rest =>
      if N.eqb c BEL then Some 1%nat
      else if N.eqb c ESC && match rest with c' :: _ => N.eqb c' 92 | [] => false end
      then Some 2%nat
      else if N.eqb c LF then None
      else option_map S (osc_tail rest)
  end.

(** [_ANSI_RE.match] at the head of [s]: the length of the match. *)
Definition ansi_match (s : str) : option nat :=
  match s with
  | e :: k :: rest =>
      if N.eqb e ESC then
        if N.eqb k 91 then                       (* CSI *)
          match dropwhile is_csi_param rest with
          | f :: _ =>
              if is_alpha f
              then Some (3 + length (takewhile is_csi_param rest))%nat
              else None
          | [] => None
          end
        else if N.eqb k 93 then                  (* OSC *)
          option_map (fun n => (2 + n)%nat) (osc_tail rest)
        else if N.eqb k 40 || N.eqb k 41 then    (* character set selection *)
          match rest with
          | d :: _ => if mem d [65; 66; 48; 49; 50]%N then Some 3%nat else None
          | [] => None
          end
        else if N.eqb k 62 || N.eqb k 61 then    (* keypad mode *)
          Some 2%nat
        else if N.eqb k 35 then                  (* DEC line attrs *)
          match rest with
          | d :: _ => if is_digit d then Some 3%nat else None
          | [] => None
          end
        else None
      else None
  | _ => None
  end.

(** [_ANSI_RE.sub(empty, s)]: the scan goes left to right; where the pattern
    matches, the matched characters are skipped, elsewhere the character is
    copied.  [skip] counts the characters of the current match still to be
    dropped. *)
Fixpoint ansi_sub (skip : nat) (s : str) : str :=
  match s with
  | [] => []
  | c :: rest =>
      match skip with
      | S k => ansi_sub k rest
      | O =>
          match ansi_match (c :: rest) with
          | Some (S k) => ansi_sub k rest
          | _ => c :: ansi_sub 0 rest
          end
      end
  end.

Definition strip_ansi (text : str) : str := ansi_sub 0 text.

(** ** [uuid.uuid4().hex] *)

Definition hexdigit (d : N) : char := (if d <? 10 then 48 + d else 87 + d)%N.

(** The [n] low hexadecimal digits of [x], most significant first. *)
Fixpoint hex_digits (n : nat) (x : N) : str :=
  match n with
  | O => []
  | S k => hex_digits k (x / 16) ++ [hexdigit (x mod 16)]
  end.

(** ['%032x' % int] for a 128-bit UUID value. *)
Definition uuid_hex (x : N) : str := hex_digits 32 x.

(** [str(n)] for a Python int. *)
Definition int_str (n : Z) : str := u (NilZero.string_of_int (Z.to_int n)).

(** ** The host: what the module takes from the Python runtime

    Times are Python floats; the module only adds them and compares them, so
    they are kept abstract together with the two operations.  [re_search p s]
    stands for [re.compile(p, re.MULTILINE).search(s)] on a caller-supplied
    pattern [p]. *)
Class Host := {
  time : Type;
  time_add : time -> time -> time;
  time_lt : time -> time -> bool;
  marker_pause : time;                  (* the literal 0.05 *)
  re_search : str -> str -> bool
}.

(** ** Exceptions *)

(** The exception classes that the module defines. *)
Inductive BridgeError := TmuxError | SessionNotFoundError | CommandTimeoutError.

(** The class of a raised exception: one of the module's, or a class of the
    Python library, known by its name ([PermissionError], [ValueError],
    [UnicodeDecodeError], ...). *)
Inductive ExnClass :=
| Bridge (c : BridgeError)
| LibraryError (name : str).

Coercion Bridge : BridgeError >-> ExnClass.

(** [issubclass(c, base)] for a base class of the module, which is what
    every [except] clause of the repository names: both other classes derive
    from [TmuxError], and no class of the library derives from one of the
    module. *)
Definition issubclass (c : ExnClass) (base : BridgeError) : bool :=
  match c with
  | Bridge c' =>
      match base, c' with
      | TmuxError, _ => true
      | SessionNotFoundError, SessionNotFoundError => true
      | CommandTimeoutError, CommandTimeoutError => true
      | _, _ => false
      end
  | LibraryError _ => false
  end.

(** The argument of an exception: plain text, or the f-string
    [f"{head}{timeout}s: {command!r}"] kept as its three parts. *)
Inductive Message `{Host} :=
| Msg (text : str)
| MsgTimeout (head : str) (timeout : time) (command : str).

Record Exn `{Host} := Exception { exn_class : ExnClass; exn_args : Message }.

(** ** The world outside the process *)

(** What [subprocess.run(cmd, capture_output=True, text=True, timeout=10)]
    does: it returns a completed process, or it raises.  [_run_tmux] has a
    clause for [FileNotFoundError] and one for [TimeoutExpired]; any other
    exception ([PermissionError] for a tmux that may not be executed,
    [UnicodeDecodeError] for output that is not text, [ValueError] for a NUL
    in an argument, ...) is [OtherException], with the name of its class and
    its text. *)
Inductive RunResult :=
| FileNotFoundError
| TimeoutExpired
| CompletedProcess (returncode : Z) (stdout stderr : str)
| OtherException (name text : str).

(** The answers of the world: the [k]-th subprocess call, the [k]-th reading
    of the monotonic clock, the value of the UUID drawn. *)
Record World `{Host} := {
  subprocess_run_at : nat -> list str -> RunResult;
  monotonic_at : nat -> time;
  uuid4_int : N
}.

Inductive Event `{Host} :=
| EvRun (cmd : list str)
| EvSleep (d : time)
| EvMonotonic (t : time)
| EvUuid4.

Record State `{Host} := {
  n_runs : nat;
  n_ticks : nat;
  trace : list Event
}.

Inductive Res `{Host} (A : Type) :=
| Ok (a : A)
| Raise (e : Exn)
| Diverge.                              (* the loop budget ran out *)
Arguments Ok {_ A} a.
Arguments Raise {_ A} e.
Arguments Diverge {_ A}.

Section Monad.
Context `{Host}.

Definition M (A : Type) : Type := World -> State -> Res A * State.

Definition ret {A} (a : A) : M A := fun _ st => (Ok a, st).

Definition bind {A B} (c : M A) (k : A -> M B) : M B :=
  fun w st =>
    match c w st with
    | (Ok a, st') => k a w st'
    | (Raise e, st') => (Raise e, st')
    | (Diverge, st') => (Diverge, st')
    end.

Definition raise {A} (e : Exn) : M A := fun _ st => (Raise e, st).

Definition diverge {A} : M A := fun _ st => (Diverge, st).

(** [try: c  except base: handler] *)
Definition try_except {A} (c : M A) (base : BridgeError) (handler : M A) : M A :=
  fun w st =>
    match c w st with
    | (Raise e, st') =>
        if issubclass (exn_class e) base then handler w st' else (Raise e, st')
    | r => r
    end.

Definition log (e : Event) (st : State) : State :=
  {| n_runs := n_runs st; n_ticks := n_ticks st; trace := trace st ++ [e] |}.

Definition subprocess_run (cmd : list str) : M RunResult :=
  fun w st =>
    (Ok (subprocess_run_at w (n_runs st) cmd),
     {| n_runs := S (n_runs st); n_ticks := n_ticks st;
        trace := trace st ++ [EvRun cmd] |}).

Definition time_monotonic : M time :=
  fun w st =>
    let t := monotonic_at w (n_ticks st) in
    (Ok t,
     {| n_runs := n_runs st; n_ticks := S (n_ticks st);
        trace := trace st ++ [EvMonotonic t] |}).

Definition time_sleep (d : time) : M unit :=
  fun _ st => (Ok tt, log (EvSleep d) st).

Definition uuid4_hex : M str :=
  fun w st => (Ok (uuid_hex (uuid4_int w)), log EvUuid4 st).

End Monad.

Notation "x <- c ;; k" := (bind c (fun x => k))
  (at level 61, c at next level, right associativity).
Notation "c ;; k" := (bind c (fun _ => k))
  (at level 61, right associativity).

(** ** TmuxController *)

Record TmuxController `{Host} := {
  session_name : str;
  prompt_pattern : str;
  default_timeout : time;
  poll_interval : time;
  _target : str
}.

Section Controller.
Context `{Host}.

(** [while time.monotonic() < deadline: body], followed by [after]; a
    [return] inside the body is the [Some] answer of [body]. *)
Fixpoint while_before {A} (fuel : nat) (deadline : time)
    (body : M (option A)) (after : M A) : M A :=
  match fuel with
  | O => diverge
  | S fuel' =>
      now <- time_monotonic ;;
      if time_lt now deadline then
        r <- body ;;
        match r with
        | Some a => ret a
        | None => while_before fuel' deadline body after
        end
      else after
  end.

Definition _run_tmux (args : list str) : M str :=
  let cmd := u "tmux" :: args in
  r <- subprocess_run cmd ;;
  match r with
  | FileNotFoundError =>
      raise (Exception TmuxError
               (Msg (u "tmux is not installed or not in PATH")))
  | TimeoutExpired =>
      raise (Exception TmuxError
               (Msg (u "tmux command timed out: " ++ join (u " ") cmd)))
  | CompletedProcess returncode stdout stderr =>
      if negb (returncode =? 0)%Z then
        raise (Exception TmuxError
                 (Msg (u "tmux command failed (rc=" ++ int_str returncode
                       ++ u "): " ++ join (u " ") cmd ++ [LF]
                       ++ u "stderr: " ++ strip stderr)))
      else ret stdout
  | OtherException name text =>     (* no clause for it: it passes through *)
      raise (Exception (LibraryError name) (Msg text))
  end.

Definition send_keys (self : TmuxController) (text : str) (enter : bool)
  : M unit :=
  let args := [u "send-keys"; u "-t"; _target self; text] in
  let args := if enter then args ++ [u "Enter"] else args in
  _run_tmux args ;; ret tt.

Definition read_buffer (self : TmuxController) (lines : option Z)
    (history : bool) : M str :=
  let args := [u "capture-pane"; u "-t"; _target self; u "-p"] in
  let args := if history then args ++ [u "-S"; u "-"] else args in
  raw <- _run_tmux args ;;
  let cleaned := strip_ansi raw in
  let cleaned :=
    match lines with
    | Some n => join [LF] (slice (Some (- n)%Z) None (splitlines cleaned))
    | None => cleaned
    end in
  ret cleaned.

Definition nonempty {A} (l : list A) : bool :=
  match l with [] => false | _ => true end.

Definition list_sessions : M (list str) :=
  try_except
    (out <- _run_tmux [u "list-sessions"; u "-F"; u "#{session_name}"] ;;
     ret (filter (fun s => nonempty (strip s)) (splitlines out)))
    TmuxError
    (ret []).


(** [prompt_prefix_re.sub(empty, s)] for [^[\$#>]\s*]: the pattern can only
    match at the start of the string. *)
Definition is_prompt_char (c : char) : bool := mem c [36; 35; 62]%N.

Definition prompt_prefix_sub (s : str) : str :=
  match s with
  | c :: rest => if is_prompt_char c then dropwhile isspace rest else s
  | [] => []
  end.

(** The three [continue] tests of the loop of [_clean_marker_output]. *)
Definition keep_line (cmd_stripped line : str) : bool :=
  let stripped := strip line in
  let without_prompt := prompt_prefix_sub stripped in
  if startswith without_prompt (u "echo '__TMUX_BRIDGE_") then false
  else if str_eqb without_prompt cmd_stripped then false
  else if contains stripped (u "__TMUX_BRIDGE_") then false
  else true.

Definition _clean_marker_output (raw command : str) : str :=
  let lines := splitlines raw in
  let cmd_stripped := strip command in
  let cleaned := filter (keep_line cmd_stripped) lines in
  strip (join [LF] cleaned).

(** One look at the buffer in the polling loop of [_execute_with_markers]:
    the text between the markers, when both are there in order. *)
Definition between_markers (buf start_marker end_marker : str) : option str :=
  let start_idx := rfind buf start_marker in
  let end_idx := rfind buf end_marker in
  if negb (start_idx =? -1)%Z && negb (end_idx =? -1)%Z
     && (end_idx >? start_idx)%Z
  then Some (slice (Some (start_idx + len start_marker)%Z) (Some end_idx) buf)
  else None.

Definition start_marker_of (uid : str) : str :=
  u "__TMUX_BRIDGE_START_" ++ uid ++ u "__".
Definition end_marker_of (uid : str) : str :=
  u "__TMUX_BRIDGE_END_" ++ uid ++ u "__".

(** The body of the polling loop of [_execute_with_markers]. *)
Definition _markers_poll (self : TmuxController) (command : str)
    (start_marker end_marker : str) (interval : time) : M (option str) :=
  buf <- read_buffer self None true ;;
  match between_markers buf start_marker end_marker with
  | Some output => ret (Some (_clean_marker_output output command))
  | None => time_sleep interval ;; ret None
  end.

Definition _execute_with_markers (self : TmuxController) (command : str)
    (timeout interval : time) (fuel : nat) : M str :=
  hex <- uuid4_hex ;;
  let uid := slice None (Some 12%Z) hex in
  let start_marker := start_marker_of uid in
  let end_marker := end_marker_of uid in
  send_keys self (u "echo '" ++ start_marker ++ u "'") true ;;
  time_sleep marker_pause ;;
  send_keys self command true ;;
  send_keys self (u "echo '" ++ end_marker ++ u "'") true ;;
  t0 <- time_monotonic ;;
  let deadline := time_add t0 timeout in
  while_before fuel deadline
    (_markers_poll self command start_marker end_marker interval)
    (raise (Exception CommandTimeoutError
              (MsgTimeout (u "Command did not complete within ")
                          timeout command))).

(** The body of the polling loop of [_execute_with_prompt]. *)
Definition _prompt_poll (self : TmuxController) (pre_buffer : str)
    (interval : time) : M (option str) :=
  let prompt_re := re_search (prompt_pattern self) in
  time_sleep interval ;;
  buf <- read_buffer self None true ;;
  let new_content := slice (Some (len pre_buffer)) None buf in
  let lines := splitlines new_content in
  if nonempty lines && prompt_re (last lines []) then
    let output_lines :=
      if (len lines >? 1)%Z then slice (Some 1%Z) (Some (-1)%Z) lines
      else [] in
    ret (Some (join [LF] output_lines))
  else
    visible <- read_buffer self (Some 1%Z) false ;;
    if prompt_re visible then
      let output_lines := splitlines new_content in
      let output_lines :=
        if nonempty output_lines then slice (Some 1%Z) None output_lines
        else output_lines in
      let output_lines :=
        if nonempty output_lines && prompt_re (last output_lines [])
        then slice None (Some (-1)%Z) output_lines
        else output_lines in
      ret (Some (join [LF] output_lines))
    else ret None.

Definition _execute_with_prompt (self : TmuxController) (command : str)
    (timeout interval : time) (fuel : nat) : M str :=
  pre_buffer <- read_buffer self None true ;;
  send_keys self command true ;;
  t0 <- time_monotonic ;;
  let deadline := time_add t0 timeout in
  while_before fuel deadline
    (_prompt_poll self pre_buffer interval)
    (raise (Exception CommandTimeoutError
              (MsgTimeout (u "Prompt not detected within ")
                          timeout command))).

Definition execute_and_wait (self : TmuxController) (command : str)
    (timeout poll_interval_arg : option time) (use_markers : bool)
    (fuel : nat) : M str :=
  let timeout :=
    match timeout with Some t => t | None => default_timeout self end in
  let interval :=
    match poll_interval_arg with
    | Some i => i
    | None => poll_interval self
    end in
  if use_markers then _execute_with_markers self command timeout interval fuel
  else _execute_with_prompt self command timeout interval fuel.

End Controller.

(** A host for running the model: times as integers (milliseconds), and a
    pattern engine that knows the default pattern [[\$#>] $] only as
    "some line ends with a prompt character and a space". *)
Definition ends_with_prompt (line : str) : bool :=
  match rev line with
  | sp :: c :: _ => N.eqb sp SPACE && is_prompt_char c
  | _ => false
  end.

#[local] Instance Z_host : Host := {|
  time := Z;
  time_add := Z.add;
  time_lt := Z.ltb;
  marker_pause := 50%Z;
  re_search := fun _ s => existsb ends_with_prompt (splitlines s)
|}.

(** ** Vocabulary of the statements *)

(** [sub] occurs in [s] at index [i]. *)
Definition occurs_at (sub s : str) (i : Z) : Prop :=
  exists p q, s = p ++ sub ++ q /\ len p = i.

(** [i] is the index of the last occurrence of [sub] in [s]. *)
Definition last_occurrence (sub s : str) (i : Z) : Prop :=
  occurs_at sub s i /\ forall j, occurs_at sub s j -> (j <= i)%Z.

(** [out] is the text of [s] from index [a] up to index [b]; nothing when
    [b] comes before [a]. *)
Definition text_between (s : str) (a b : Z) (out : str) : Prop :=
  ((a <= b)%Z /\ exists p q, s = p ++ out ++ q /\ len p = a /\ len (p ++ out) = b)
  \/ ((b < a)%Z /\ out = []).

(** A lower-case hexadecimal digit. *)
Definition is_lower_hex (c : char) : bool :=
  is_digit c || ((97 <=? c) && (c <=? 102))%N.

(** The ways an invocation of the gateway can fail: the three that
    [_run_tmux] reports, and the exceptions of the subprocess call that it
    has no clause for. *)
Inductive FailureKind := NotLaunched | TimedOut | ExitedNonZero | Uncaught.

Definition failure_kind (r : RunResult) : option FailureKind :=
  match r with
  | FileNotFoundError => Some NotLaunched
  | TimeoutExpired => Some TimedOut
  | CompletedProcess rc _ _ => if (rc =? 0)%Z then None else Some ExitedNonZero
  | OtherException _ _ => Some Uncaught
  end.

(** An exception as the gateway raises them: a plain [TmuxError], or an
    exception of the library that went through it. *)
Definition from_gateway `{Host} (e : Exn) : Prop :=
  match exn_class e with
  | Bridge TmuxError | LibraryError _ => True
  | _ => False
  end.

(** The command lines that [send_keys] and [read_buffer] hand to tmux. *)
Definition send_cmd `{Host} (self : TmuxController) (text : str) : list str :=
  [u "tmux"; u "send-keys"; u "-t"; _target self; text; u "Enter"].

Definition capture_cmd `{Host} (self : TmuxController) (history : bool)
  : list str :=
  [u "tmux"; u "capture-pane"; u "-t"; _target self; u "-p"]
  ++ (if history then [u "-S"; u "-"] else []).

Definition list_cmd : list str :=
  [u "tmux"; u "list-sessions"; u "-F"; u "#{session_name}"].

(** The tmux command lines of a trace, in the order they were run. *)
Fixpoint runs_of `{Host} (tr : list Event) : list (list str) :=
  match tr with
  | [] => []
  | EvRun cmd :: tr' => cmd :: runs_of tr'
  | _ :: tr' => runs_of tr'
  end.

(** The [k]-th invocation of the world, made with [cmd], exits with status
    0; it does so showing [text], once sanitized, on its output. *)
Definition accepted `{Host} (w : World) (k : nat) (cmd : list str) : Prop :=
  exists out err, subprocess_run_at w k cmd = CompletedProcess 0 out err.

Definition shows `{Host} (w : World) (k : nat) (cmd : list str) (text : str)
  : Prop :=
  exists raw err,
    subprocess_run_at w k cmd = CompletedProcess 0 raw err
    /\ strip_ansi raw = text.

(** The completion test of one poll of [_execute_with_prompt] (lines 292 to
    301): the prompt pattern is found on the last of the lines that the
    capture [buf] has beyond [pre], or else on the last line [visible] of
    the pane. *)
Definition prompt_detected `{Host} (self : TmuxController)
    (pre buf visible : str) : bool :=
  let lines := splitlines (slice (Some (len pre)) None buf) in
  (nonempty lines && re_search (prompt_pattern self) (last lines []))
  || re_search (prompt_pattern self) visible.

(** The last line of a text, as [read_buffer(lines=1)] returns it. *)
Definition last_line (text : str) : str :=
  join [LF] (slice (Some (- 1)%Z) None (splitlines text)).

(** Every invocation of tmux exits with status 0 in this world. *)
Definition gateway_succeeds `{Host} (w : World) : Prop :=
  forall k cmd, exists out err,
    subprocess_run_at w k cmd = CompletedProcess 0 out err.

(** Worlds and a controller on which the model is run. *)
Definition world_of (run : nat -> list str -> RunResult) : World :=
  {| subprocess_run_at := run;
     monotonic_at := fun k => (Z.of_nat k * 100)%Z;
     uuid4_int := (0xab12cd34ef56 * 2 ^ 80 + 5)%N |}.

Definition st0 : State := {| n_runs := 0; n_ticks := 0; trace := [] |}.

Definition ctl : TmuxController :=
  {| session_name := u "main"; prompt_pattern := u "[\$#>] $";
     default_timeout := 1000%Z; poll_interval := 300%Z;
     _target := u "main" |}.

Definition w_missing : World := world_of (fun _ _ => FileNotFoundError).
Definition w_hung : World := world_of (fun _ _ => TimeoutExpired).
Definition w_failing : World :=
  world_of (fun _ _ => CompletedProcess 1 [] (u "no server running" ++ [LF])).
Definition w_two_lines : World :=
  world_of (fun _ _ => CompletedProcess 0 (u "a" ++ [LF] ++ u "b" ++ [LF]) []).
Definition w_silent : World :=
  world_of (fun _ _ => CompletedProcess 0 [] []).

(** The state after one more tmux command line has been run. *)
Definition ran `{Host} (cmd : list str) (st : State) : State :=
  {| n_runs := S (n_runs st); n_ticks := n_ticks st;
     trace := trace st ++ [EvRun cmd] |}.

(** The tmux command lines run by the computation [c] started in [st]. *)
Definition issued `{Host} {A} (c : M A) (w : World) (st : State)
  : list (list str) :=
  skipn (length (runs_of (trace st))) (runs_of (trace (snd (c w st)))).

(** A computation that reads no clock and fails through the gateway only. *)
Definition gateway_only `{Host} {A} (c : M A) : Prop :=
  forall w st,
    n_ticks (snd (c w st)) = n_ticks st
    /\ match fst (c w st) with
       | Ok _ => True
       | Raise e => from_gateway e
       | Diverge => False
       end.

(** A conventional shell prompt in front of an echoed line: nothing, or one
    of [$], [#], [>], alone or followed by one space. *)
Definition is_prompt_prefix (p : str) : bool :=
  match p with
  | [] => true
  | [c] => is_prompt_char c
  | [c; s] => is_prompt_char c && N.eqb s SPACE
  | _ => false
  end.

(** The text holds no line boundary: it is one line. *)
Definition one_line (s : str) : bool :=
  forallb (fun c => negb (is_linebreak c)) s.

(** The text starts (ends) with a character that is not whitespace. *)
Definition starts_clean (s : str) : bool :=
  match s with c :: _ => negb (isspace c) | [] => false end.
Definition ends_clean (s : str) : bool := starts_clean (rev s).

(** The text is blank: it holds nothing but whitespace. *)
Definition blank (s : str) : bool := forallb isspace s.

(** A genuine output line, as opposed to one that the cleaning would take
    for an echo: it does not hold the marker prefix, and its trimmed form,
    with or without a prompt in front, is not the trimmed command. *)
Definition genuine (command line : str) : bool :=
  one_line line
  && negb (contains line (u "__TMUX_BRIDGE_"))
  && negb (str_eqb (prompt_prefix_sub (strip line)) (strip command)).

Definition starts_with_prompt (s : str) : bool :=
  match s with c :: _ => is_prompt_char c | [] => false end.

Definition w_hello : World :=
  world_of (fun _ _ =>
    CompletedProcess 0
      (join [LF]
         [u "$ echo '__TMUX_BRIDGE_START_ab12cd34ef56__'";
          u "__TMUX_BRIDGE_START_ab12cd34ef56__";
          u "$ echo hello";
          u "hello";
          u "$ echo '__TMUX_BRIDGE_END_ab12cd34ef56__'";
          u "__TMUX_BRIDGE_END_ab12cd34ef56__";
          u "$ "])
      []).


(** [names] are the lines of [lines] that are not blank, in their order. *)
Inductive nonblank_of : list str -> list str -> Prop :=
| nonblank_nil : nonblank_of [] []
| nonblank_skip l ls ns :
    strip l = [] -> nonblank_of ls ns -> nonblank_of (l :: ls) ns
| nonblank_keep l ls ns :
    strip l <> [] -> nonblank_of ls ns -> nonblank_of (l :: ls) (l :: ns).

(** A tmux that is found but may not be executed. *)
Definition w_denied : World :=
  world_of (fun _ _ =>
    OtherException (u "PermissionError")
      (u "[Errno 13] Permission denied: 'tmux'")).

(** A server that takes the first command and is gone at the second. *)
Definition w_dies : World :=
  world_of (fun k _ =>
    if Nat.eqb k 0 then CompletedProcess 0 [] []
    else CompletedProcess 1 [] (u "no server running" ++ [LF])).

(** A pane that stays empty for the first twenty commands and shows the
    finished [echo hello] from then on. *)
Definition w_late : World :=
  world_of (fun k cmd =>
    if (k <? 20)%nat then CompletedProcess 0 [] []
    else subprocess_run_at w_hello k cmd).
(** ** The rest of the module: construction, and the two scripts next to it *)

(** What the scripts take from the Python runtime besides the host: the two
    float defaults of the dataclass, [str.lower], and [repr] of a string and
    of a list of strings (used in messages only). *)
Class Builtins `{Host} := {
  float_30 : time;                      (* the literal 30.0 *)
  float_0_3 : time;                     (* the literal 0.3 *)
  str_lower : str -> str;
  str_repr : str -> str;
  list_repr : list str -> str
}.

Section Construction.
Context `{Builtins}.

Definition _session_exists (self : TmuxController) : M bool :=
  try_except
    (_run_tmux [u "has-session"; u "-t"; _target self] ;; ret true)
    TmuxError
    (ret false).

(** The dataclass constructor: the generated [__init__] stores the four
    fields and calls [__post_init__], which sets [_target] and validates. *)
Definition __post_init__ (session_name prompt_pattern : str)
    (default_timeout poll_interval : time) : M TmuxController :=
  let target :=
    if contains session_name (u ":") || contains session_name (u ".")
    then session_name
    else session_name in
  let self :=
    {| session_name := session_name; prompt_pattern := prompt_pattern;
       default_timeout := default_timeout; poll_interval := poll_interval;
       _target := target |} in
  ok <- _session_exists self ;;
  if negb ok then
    sessions <- list_sessions ;;
    raise (Exception SessionNotFoundError
             (Msg (u "tmux session '" ++ session_name
                   ++ u "' does not exist. Available sessions: "
                   ++ list_repr sessions)))
  else ret self.

(** [TmuxController(session)] and [TmuxController(session, default_timeout=t)]
    with the defaults of the other fields. *)
Definition TmuxController_of (session : str) (timeout : option time)
  : M TmuxController :=
  __post_init__ session (u "[\$#>] $")
    match timeout with Some t => t | None => float_30 end
    float_0_3.

(** *** Scripts: what a run prints and the status it exits with *)

Inductive Printed :=
| Stdout (text : str)                     (* print(text) *)
| Stderr (text : str)                     (* print(text, file=sys.stderr) *)
| StderrExn (prefix : str) (e : Exn)      (* print(f"{prefix}{e}", file=sys.stderr) *)
| Usage (message : str).                  (* parser.error(message) *)

Record Exit := { exit_code : Z; printed : list Printed }.

(** [try: c  except cls as e: h] *)
Definition try_except_as {A} (c : M A) (cls : BridgeError) (h : Exn -> M A)
  : M A :=
  fun w st =>
    match c w st with
    | (Raise e, st') =>
        if issubclass (exn_class e) cls then h e w st' else (Raise e, st')
    | r => r
    end.

(** [read_buffer.py] *)
Record ReadBufferArgs := {
  rb_session : str;
  rb_lines : option Z;
  rb_history : bool
}.

Definition read_buffer_main (args : ReadBufferArgs) : M Exit :=
  try_except_as
    (ctrl <- TmuxController_of (rb_session args) None ;;
     output <- read_buffer ctrl (rb_lines args) (rb_history args) ;;
     ret {| exit_code := 0; printed := [Stdout output] |})
    TmuxError
    (fun e => ret {| exit_code := 1; printed := [StderrExn (u "ERROR: ") e] |}).

(** [send_keys.py]: [_CTRL_MAP.get(key)] for the map of the 26 lower-case
    letters to [C-<letter>] and of [[] to [Escape]. *)
Definition _CTRL_MAP_get (key : str) : option str :=
  match key with
  | [c] =>
      if ((97 <=? c) && (c <=? 122))%N then Some (u "C-" ++ [c])
      else if N.eqb c 91 then Some (u "Escape")
      else None
  | _ => None
  end.

Record SendKeysArgs := {
  sk_session : str;
  sk_text : option str;
  sk_no_enter : bool;
  sk_ctrl : option str
}.

Definition send_keys_main (args : SendKeysArgs) : M Exit :=
  match sk_text args, sk_ctrl args with
  | None, None =>
      ret {| exit_code := 2;
             printed := [Usage (u "Provide either text or --ctrl KEY")] |}
  | _, _ =>
      try_except_as
        (ctrl <- TmuxController_of (sk_session args) None ;;
         early <-
           (match sk_ctrl args with
            | Some k =>
                match _CTRL_MAP_get (str_lower k) with
                | None =>
                    ret (Some {| exit_code := 1;
                                 printed :=
                                   [Stderr (u "ERROR: Unknown ctrl key: "
                                            ++ str_repr k)] |})
                | Some tmux_key => (send_keys ctrl tmux_key false ;; ret None)
                end
            | None => ret None
            end) ;;
         match early with
         | Some exit => ret exit
         | None =>
             match sk_text args with
             | Some text =>
                 (send_keys ctrl text (negb (sk_no_enter args)) ;;
                  ret {| exit_code := 0; printed := [] |})
             | None => ret {| exit_code := 0; printed := [] |}
             end
         end)
        TmuxError
        (fun e => ret {| exit_code := 1; printed := [StderrExn (u "ERROR: ") e] |})
  end.

End Construction.

(** A character that can stand in the payload of an OSC sequence without
    ending it or breaking it: not BEL, not ESC, not a line feed. *)
Definition osc_payload_char (c : char) : bool :=
  negb (N.eqb c BEL) && negb (N.eqb c ESC) && negb (N.eqb c LF).

(** The command line of the existence check, and of [send_keys] with
    [enter] either way. *)
Definition has_session_cmd (target : str) : list str :=
  [u "tmux"; u "has-session"; u "-t"; target].

Definition send_argv `{Host} (self : TmuxController) (text : str)
    (enter : bool) : list str :=
  [u "tmux"; u "send-keys"; u "-t"; _target self; text]
  ++ (if enter then [u "Enter"] else []).

(** The session names that an outcome of the listing command yields. *)
Definition listed (r : RunResult) : list str :=
  match r with
  | CompletedProcess rc out _ =>
      if (rc =? 0)%Z then filter (fun s => nonempty (strip s)) (splitlines out)
      else []
  | _ => []
  end.

(** The exception that goes through [_run_tmux] unchanged, when the outcome
    of the subprocess call is one that it has no clause for. *)
Definition escaped `{Host} (r : RunResult) : option Exn :=
  match r with
  | OtherException name text => Some (Exception (LibraryError name) (Msg text))
  | _ => None
  end.

(** Builtins for running the model: ASCII lower-casing, and quotes and
    brackets for [repr]. *)
#[local] Instance Z_builtins : Builtins := {|
  float_30 := 30000%Z;
  float_0_3 := 300%Z;
  str_lower :=
    map (fun c => if ((65 <=? c) && (c <=? 90))%N then (c + 32)%N else c);
  str_repr := fun s => u "'" ++ s ++ u "'";
  list_repr := fun l =>
    u "[" ++ join (u ", ") (map (fun s => u "'" ++ s ++ u "'") l) ++ u "]"
|}.

(** A pane that shows a prompt, and after the first capture the echo of
    [ls], one line of output and the prompt again. *)
Definition w_prompt : World :=
  world_of (fun k _ =>
    if Nat.eqb k 0 then CompletedProcess 0 (u "$ ") []
    else CompletedProcess 0 (u "$ " ++ join [LF] [u "ls"; u "a.txt"; u "$ "]) []).

(** Arguments on which the scripts are run. *)
Definition args_bad_key : SendKeysArgs :=
  {| sk_session := u "main"; sk_text := Some (u "hello");
     sk_no_enter := false; sk_ctrl := Some (u "1") |}.

Definition args_tail : ReadBufferArgs :=
  {| rb_session := u "main"; rb_lines := Some 1%Z; rb_history := false |}.

Definition args_nothing : SendKeysArgs :=
  {| sk_session := u "main"; sk_text := None;
     sk_no_enter := false; sk_ctrl := None |}.

Definition args_interrupt : SendKeysArgs :=
  {| sk_session := u "main"; sk_text := Some (u "q");
     sk_no_enter := true; sk_ctrl := Some (u "C") |}.

(** * Properties *)

Example strip_ansi_sgr :
  strip_ansi ([ESC] ++ u "[1;31mred" ++ [ESC] ++ u "[0m!") = u "red!".
Proof. reflexivity. Qed.

Example strip_ansi_osc :
  strip_ansi (u "a" ++ [ESC] ++ u "]0;title" ++ [BEL] ++ u "b" ++ [ESC] ++ u "(B") = u "ab".
Proof. reflexivity. Qed.

Example splitlines_ex :
  splitlines (u "a" ++ [CR; LF] ++ u "b" ++ [LF; LF] ++ u "c" ++ [LF])
  = [u "a"; u "b"; []; u "c"].
Proof. reflexivity. Qed.

Example rfind_ex : rfind (u "abcabc") (u "bc") = 4%Z /\ rfind (u "abc") (u "x") = (-1)%Z.
Proof. split; reflexivity. Qed.

Example slice_ex :
  slice (Some (-2)%Z) None [1; 2; 3; 4]%nat = [3; 4]%nat
  /\ slice (Some 0%Z) None [1; 2; 3]%nat = [1; 2; 3]%nat
  /\ slice (Some 1%Z) (Some (-1)%Z) [1; 2; 3]%nat = [2]%nat
  /\ slice (Some 3%Z) (Some 1%Z) [1; 2; 3; 4]%nat = [].
Proof. repeat split; reflexivity. Qed.

(** ** Strings *)

Lemma startswith_spec (s p : str) :
  startswith s p = true <-> exists q, s = p ++ q.
Proof.
  revert s; induction p as [|c p IH]; intros s; simpl.
  - split; [intros _; now exists s | reflexivity].
  - destruct s as [|d s].
    + split; [discriminate | intros [q Hq]; discriminate].
    + rewrite andb_true_iff, N.eqb_eq, IH. split.
      * intros [-> [q ->]]. now exists q.
      * intros [q Hq]. injection Hq as -> ->. split; [reflexivity | now exists q].
Qed.

Lemma contains_spec (s sub : str) :
  contains s sub = true <-> exists p q, s = p ++ sub ++ q.
Proof.
  induction s as [|c s IH].
  - simpl. rewrite orb_false_r, startswith_spec. split.
    + intros [q Hq]. now exists [], q.
    + intros (p & q & Hpq). destruct p; [now exists q | discriminate].
  - change (contains (c :: s) sub)
      with (startswith (c :: s) sub || contains s sub).
    rewrite orb_true_iff, startswith_spec, IH. split.
    + intros [[q Hq] | (p & q & Hpq)].
      * now exists [], q.
      * exists (c :: p), q. simpl. now rewrite Hpq.
    + intros (p & q & Hpq). destruct p as [|d p].
      * left. now exists q.
      * right. injection Hpq as _ Hpq. now exists p, q.
Qed.

Lemma len_nonneg {A} (l : list A) : (0 <= len l)%Z.
Proof. unfold len. lia. Qed.

Lemma len_app {A} (l1 l2 : list A) : len (l1 ++ l2) = (len l1 + len l2)%Z.
Proof. unfold len. rewrite length_app. lia. Qed.

Lemma len_cons {A} (a : A) (l : list A) : len (a :: l) = (len l + 1)%Z.
Proof. unfold len. simpl length. lia. Qed.

Lemma occurs_at_nonneg sub s i : occurs_at sub s i -> (0 <= i)%Z.
Proof. intros (p & q & _ & <-). apply len_nonneg. Qed.

Lemma occurs_at_cons sub c s i :
  occurs_at sub (c :: s) i ->
  (i = 0%Z /\ startswith (c :: s) sub = true) \/ occurs_at sub s (i - 1).
Proof.
  intros (p & q & Heq & Hlen). destruct p as [|d p].
  - left. split; [now rewrite <- Hlen |]. apply startswith_spec. now exists q.
  - right. injection Heq as _ Heq. exists p, q. split; [assumption |].
    rewrite len_cons in Hlen. lia.
Qed.

(** [rfind_from] returns -1 exactly when there is no occurrence, and the
    index of the last one otherwise. *)
Lemma rfind_from_spec (sub s : str) (i : Z) :
  (0 <= i)%Z ->
  (rfind_from i s sub = (-1)%Z /\ forall j, ~ occurs_at sub s j)
  \/ ((i <= rfind_from i s sub)%Z
      /\ last_occurrence sub s (rfind_from i s sub - i)).
Proof.
  revert i; induction s as [|c s IH]; intros i Hi.
  - simpl. destruct sub as [|d sub]; simpl.
    + right. split; [lia |]. split.
      * exists [], []. split; [reflexivity | unfold len; simpl; lia].
      * intros j (p & q & Heq & <-). destruct p; [unfold len; simpl; lia | discriminate].
    + left. split; [reflexivity |]. intros j (p & q & Heq & _).
      destruct p; discriminate.
  - change (rfind_from i (c :: s) sub) with
      (let r := rfind_from (i + 1) s sub in
       if (r =? -1)%Z then (if startswith (c :: s) sub then i else (-1)%Z) else r).
    cbv zeta. destruct (IH (i + 1)%Z ltac:(lia)) as [[Hr Hno] | [Hle [Hocc Hmax]]].
    + rewrite Hr. simpl Z.eqb. cbv iota.
      destruct (startswith (c :: s) sub) eqn:Hsw.
      * right. split; [lia |]. replace (i - i)%Z with 0%Z by lia. split.
        -- apply startswith_spec in Hsw as [q Hq]. exists [], q. now split.
        -- intros j Hj. apply occurs_at_cons in Hj as [[-> _] | Hj]; [lia |].
           now apply Hno in Hj.
      * left. split; [reflexivity |]. intros j Hj.
        apply occurs_at_cons in Hj as [[_ Hj] | Hj]; [congruence |].
        now apply Hno in Hj.
    + destruct (Z.eqb_spec (rfind_from (i + 1) s sub) (-1)) as [E | _]; [lia |].
      right. split; [lia |]. split.
      * destruct Hocc as (p & q & Heq & Hlen). exists (c :: p), q. split.
        -- simpl. now rewrite Heq.
        -- rewrite len_cons. lia.
      * intros j Hj. pose proof (occurs_at_nonneg Hj).
        apply occurs_at_cons in Hj as [[-> _] | Hj]; [lia |].
        apply Hmax in Hj. lia.
Qed.

Lemma rfind_spec (sub s : str) :
  (rfind s sub = (-1)%Z /\ forall j, ~ occurs_at sub s j)
  \/ ((0 <= rfind s sub)%Z /\ last_occurrence sub s (rfind s sub)).
Proof.
  unfold rfind. destruct (rfind_from_spec sub s (i := 0) ltac:(lia)) as [H | [H1 H2]].
  - now left.
  - right. split; [assumption |]. now rewrite Z.sub_0_r in H2.
Qed.

Lemma last_occurrence_unique sub s i j :
  last_occurrence sub s i -> last_occurrence sub s j -> i = j.
Proof.
  intros [Hi Mi] [Hj Mj]. apply Mi in Hj. apply Mj in Hi. lia.
Qed.

Lemma rfind_last sub s i : last_occurrence sub s i -> rfind s sub = i.
Proof.
  intros Hl. destruct (rfind_spec sub s) as [[_ Hno] | [_ Hr]].
  - destruct Hl as [Ho _]. now apply Hno in Ho.
  - eapply last_occurrence_unique; eassumption.
Qed.

(** ** Slices *)

Lemma slice_between {A} (p out q : list A) :
  slice (Some (len p)) (Some (len (p ++ out))) (p ++ out ++ q) = out.
Proof.
  unfold slice, slice_index. rewrite !len_app.
  pose proof (len_nonneg p); pose proof (len_nonneg out); pose proof (len_nonneg q).
  destruct (Z.ltb_spec (len p) 0); [lia |].
  destruct (Z.ltb_spec (len p + len out) 0); [lia |].
  replace (Z.max 0 (Z.min (len p + (len out + len q)) (len p))) with (len p) by lia.
  replace (Z.max 0 (Z.min (len p + (len out + len q)) (len p + len out)))
    with (len p + len out)%Z by lia.
  replace (len p + len out - len p)%Z with (len out) by lia.
  unfold len. rewrite !Nat2Z.id.
  rewrite skipn_app, skipn_all, Nat.sub_diag. simpl.
  rewrite firstn_app, firstn_all, Nat.sub_diag. simpl. apply app_nil_r.
Qed.

Lemma slice_backwards {A} (a b : Z) (s : list A) :
  (0 <= b < a)%Z -> slice (Some a) (Some b) s = [].
Proof.
  intros H. unfold slice, slice_index. pose proof (len_nonneg s).
  destruct (Z.ltb_spec a 0); [lia |]. destruct (Z.ltb_spec b 0); [lia |].
  replace (Z.to_nat _) with 0%nat by lia. reflexivity.
Qed.

Lemma slice_decompose {A} (a b : Z) (s : list A) :
  (0 <= a <= b)%Z -> (b <= len s)%Z ->
  exists p q, s = p ++ slice (Some a) (Some b) s ++ q
              /\ len p = a /\ len (p ++ slice (Some a) (Some b) s) = b.
Proof.
  intros Hab Hb.
  exists (firstn (Z.to_nat a) s), (skipn (Z.to_nat b) s).
  assert (Hs : slice (Some a) (Some b) s
               = firstn (Z.to_nat (b - a)) (skipn (Z.to_nat a) s)).
  { unfold slice, slice_index.
    destruct (Z.ltb_spec a 0); [lia |]. destruct (Z.ltb_spec b 0); [lia |].
    replace (Z.max 0 (Z.min (len s) a)) with a by lia.
    replace (Z.max 0 (Z.min (len s) b)) with b by lia. reflexivity. }
  rewrite Hs. unfold len in *.
  assert (Hl1 : length (firstn (Z.to_nat a) s) = Z.to_nat a)
    by (rewrite length_firstn; lia).
  assert (Hl2 : length (firstn (Z.to_nat (b - a)) (skipn (Z.to_nat a) s))
                = Z.to_nat (b - a))
    by (rewrite length_firstn, length_skipn; lia).
  repeat split.
  - replace (skipn (Z.to_nat b) s)
      with (skipn (Z.to_nat (b - a)) (skipn (Z.to_nat a) s)).
    + now rewrite firstn_skipn, firstn_skipn.
    + rewrite skipn_skipn. f_equal. lia.
  - lia.
  - rewrite length_app. lia.
Qed.

Lemma text_between_slice (s : str) (a b : Z) (out : str) :
  (0 <= a <= len s)%Z -> (0 <= b <= len s)%Z ->
  (text_between s a b out <-> out = slice (Some a) (Some b) s).
Proof.
  intros Ha Hb. split.
  - intros [[Hab (p & q & Hs & Hp & Hpo)] | [Hba ->]].
    + subst a b. rewrite Hs at 1. now rewrite slice_between.
    + now rewrite slice_backwards by lia.
  - intros ->. destruct (Z.le_gt_cases a b) as [Hab | Hba].
    + left. split; [assumption |].
      destruct (slice_decompose (a := a) (b := b) s) as (p & q & H1 & H2 & H3);
        [lia | lia |]. now exists p, q.
    + right. split; [lia |]. apply slice_backwards. lia.
Qed.

Lemma occurs_at_bound sub s i :
  occurs_at sub s i -> (0 <= i /\ i + len sub <= len s)%Z.
Proof.
  intros (p & q & -> & <-). rewrite !len_app.
  pose proof (len_nonneg p); pose proof (len_nonneg q). lia.
Qed.

Lemma occurs_at_app_inv sub p x k :
  occurs_at sub (p ++ x) k -> (len p <= k)%Z -> occurs_at sub x (k - len p).
Proof.
  intros (p' & q' & Heq & Hk) Hle.
  apply app_eq_app in Heq as [l [[Hp Hx] | [Hp Hx]]].
  - assert (l = []) as ->.
    { destruct l as [|a l]; [reflexivity |]. exfalso.
      rewrite Hp, len_app, len_cons in Hle. pose proof (len_nonneg l). lia. }
    rewrite app_nil_r in Hp. subst p'. exists [], q'. simpl in *.
    split; [now symmetry | unfold len at 1; simpl; lia].
  - exists l, q'. split; [assumption |]. subst p'. rewrite len_app in Hk. lia.
Qed.

(** ** Marker extraction *)

(** C1.  One look at the captured buffer yields raw output exactly when the
    last occurrence of the start marker and the last occurrence of the end
    marker both exist and the end one lies after the start one; the output is
    then the text from the end of that start marker to the beginning of that
    end marker.  In a buffer [pre ++ start ++ payload ++ end ++ suf] whose
    markers do not occur again further right, the output is [payload]
    whatever [pre] holds, stale copies of both markers included. *)
Theorem between_markers_last_occurrences (buf start_marker end_marker : str) :
  (forall out,
      between_markers buf start_marker end_marker = Some out <->
      exists i j,
        last_occurrence start_marker buf i /\ last_occurrence end_marker buf j
        /\ (i < j)%Z /\ text_between buf (i + len start_marker) j out)
  /\ (forall pre payload suf,
        buf = pre ++ start_marker ++ payload ++ end_marker ++ suf ->
        start_marker <> [] ->
        (forall k, occurs_at start_marker
                     (start_marker ++ payload ++ end_marker ++ suf) k -> k = 0%Z) ->
        (forall k, occurs_at end_marker (end_marker ++ suf) k -> k = 0%Z) ->
        between_markers buf start_marker end_marker = Some payload).
Proof.
  assert (Hiff : forall out,
      between_markers buf start_marker end_marker = Some out <->
      exists i j,
        last_occurrence start_marker buf i /\ last_occurrence end_marker buf j
        /\ (i < j)%Z /\ text_between buf (i + len start_marker) j out).
  { intros out. unfold between_markers. split.
    - destruct (rfind_spec start_marker buf) as [[Hs _] | [Hs0 Hs]];
        [rewrite Hs; discriminate |].
      destruct (rfind_spec end_marker buf) as [[He _] | [He0 He]];
        [rewrite He; rewrite andb_false_r; discriminate |].
      destruct (Z.gtb_spec (rfind buf end_marker) (rfind buf start_marker)) as [Hlt | Hge];
        [| rewrite andb_false_r; discriminate].
      destruct (Z.eqb_spec (rfind buf start_marker) (-1)); [lia |].
      destruct (Z.eqb_spec (rfind buf end_marker) (-1)); [lia |].
      simpl. intros [= <-].
      exists (rfind buf start_marker), (rfind buf end_marker).
      repeat split; try apply Hs; try apply He; try lia.
      pose proof (occurs_at_bound (proj1 Hs)). pose proof (occurs_at_bound (proj1 He)).
      pose proof (len_nonneg start_marker). pose proof (len_nonneg end_marker).
      apply text_between_slice; [lia | lia | reflexivity].
    - intros (i & j & Hi & Hj & Hij & Hout).
      pose proof (occurs_at_bound (proj1 Hi)). pose proof (occurs_at_bound (proj1 Hj)).
      pose proof (len_nonneg start_marker). pose proof (len_nonneg end_marker).
      rewrite (rfind_last Hi), (rfind_last Hj).
      destruct (Z.eqb_spec i (-1)); [lia |]. destruct (Z.eqb_spec j (-1)); [lia |].
      destruct (Z.gtb_spec j i); [| lia]. simpl. f_equal. symmetry.
      apply text_between_slice; [lia | lia | assumption]. }
  split; [exact Hiff |].
  intros pre payload suf Hbuf Hne Hstart Hend. apply Hiff.
  exists (len pre), (len (pre ++ start_marker ++ payload)). repeat split.
  - exists pre, (payload ++ end_marker ++ suf). now split.
  - intros k Hk. destruct (Z.le_gt_cases k (len pre)) as [|Hgt]; [assumption |].
    rewrite Hbuf in Hk. apply occurs_at_app_inv in Hk; [| lia].
    apply Hstart in Hk. lia.
  - exists (pre ++ start_marker ++ payload), suf. split; [| reflexivity].
    rewrite Hbuf. now rewrite <- !app_assoc.
  - intros k Hk.
    destruct (Z.le_gt_cases k (len (pre ++ start_marker ++ payload))) as [|Hgt];
      [assumption |].
    rewrite Hbuf in Hk.
    replace (pre ++ start_marker ++ payload ++ end_marker ++ suf)
      with ((pre ++ start_marker ++ payload) ++ end_marker ++ suf) in Hk
      by now rewrite <- !app_assoc.
    apply occurs_at_app_inv in Hk; [| lia]. apply Hend in Hk. lia.
  - rewrite !len_app. pose proof (len_nonneg payload).
    destruct start_marker; [congruence |]. rewrite len_cons.
    pose proof (len_nonneg start_marker). lia.
  - left. rewrite !len_app. pose proof (len_nonneg payload).
    pose proof (len_nonneg start_marker). split; [lia |].
    exists (pre ++ start_marker), (end_marker ++ suf). repeat split.
    + rewrite Hbuf. now rewrite <- !app_assoc.
    + now rewrite len_app.
    + rewrite !len_app. lia.
Qed.

Lemma occurs_only_at_zero sub s :
  rfind s sub = 0%Z -> forall k, occurs_at sub s k -> k = 0%Z.
Proof.
  intros Hr k Hk. pose proof (occurs_at_nonneg Hk).
  destruct (rfind_spec sub s) as [[E _] | [_ [_ Hmax]]]; [congruence |].
  apply Hmax in Hk. lia.
Qed.

Lemma between_markers_last_occurrences_witness :
  let sm := start_marker_of (u "ab12cd34ef56") in
  let em := end_marker_of (u "ab12cd34ef56") in
  let stale := sm ++ u "old output" ++ em ++ [LF] in
  between_markers (stale ++ sm ++ u "hello" ++ em ++ [LF]) sm em
  = Some (u "hello").
Proof.
  intros sm em stale.
  apply (proj2 (between_markers_last_occurrences
                  (stale ++ sm ++ u "hello" ++ em ++ [LF]) sm em)
               stale (u "hello") [LF]).
  - reflexivity.
  - discriminate.
  - apply occurs_only_at_zero. vm_compute. reflexivity.
  - apply occurs_only_at_zero. vm_compute. reflexivity.
Defined.

(** ** The sanitizer *)

Lemma ansi_match_plain (c : char) (rest : str) :
  c <> ESC -> ansi_match (c :: rest) = None.
Proof.
  intros Hc. unfold ansi_match. destruct rest as [|k rest]; [reflexivity |].
  destruct (N.eqb_spec c ESC); [contradiction | reflexivity].
Qed.

(** C6.  On a text without any escape character the sanitizer is the
    identity. *)
Theorem strip_ansi_plain (text : str) :
  ~ In ESC text -> strip_ansi text = text.
Proof.
  unfold strip_ansi. induction text as [|c text IH]; intros Hno; [reflexivity |].
  change (ansi_sub 0 (c :: text)) with
    (match ansi_match (c :: text) with
     | Some (S k) => ansi_sub k text
     | _ => c :: ansi_sub 0 text
     end).
  rewrite ansi_match_plain by (intros ->; apply Hno; now left).
  f_equal. apply IH. intros Hin. apply Hno. now right.
Qed.

Lemma strip_ansi_plain_witness :
  strip_ansi (u "total 0  $ ls [a] (B)") = u "total 0  $ ls [a] (B)".
Proof.
  apply strip_ansi_plain. vm_compute.
  intros H; repeat (destruct H as [H | H]; [discriminate H |]); exact H.
Defined.

(** ** Marker tokens *)

Lemma hexdigit_is_hex (d : N) : (d < 16)%N -> is_lower_hex (hexdigit d) = true.
Proof.
  intros Hd. unfold is_lower_hex, hexdigit, is_digit.
  destruct (N.ltb_spec d 10).
  - apply orb_true_iff. left. apply andb_true_iff. split; apply N.leb_le; lia.
  - apply orb_true_iff. right. apply andb_true_iff. split; apply N.leb_le; lia.
Qed.

Lemma hex_digits_length n x : length (hex_digits n x) = n.
Proof.
  revert x; induction n as [|n IH]; intros x; simpl; [reflexivity |].
  rewrite length_app, IH. simpl. lia.
Qed.

Lemma hex_digits_hex n x : forallb is_lower_hex (hex_digits n x) = true.
Proof.
  revert x; induction n as [|n IH]; intros x; simpl; [reflexivity |].
  rewrite forallb_app, IH. simpl. rewrite hexdigit_is_hex; [reflexivity |].
  apply N.mod_lt. discriminate.
Qed.

(** The first [n] of [n + m] digits are the digits of the value shifted
    right by [m] hexadecimal places. *)
Lemma hex_digits_firstn n m x :
  firstn n (hex_digits (n + m) x) = hex_digits n (x / 16 ^ N.of_nat m).
Proof.
  revert x; induction m as [|m IH]; intros x.
  - rewrite Nat.add_0_r. simpl N.of_nat. rewrite N.pow_0_r, N.div_1_r.
    rewrite <- (hex_digits_length n x) at 1. apply firstn_all.
  - rewrite Nat2N.inj_succ, N.pow_succ_r', <- N.Div0.div_div, <- IH.
    rewrite Nat.add_succ_r.
    change (hex_digits (S (n + m)) x)
      with (hex_digits (n + m) (x / 16) ++ [hexdigit (x mod 16)]).
    rewrite firstn_app, hex_digits_length.
    replace (n - (n + m))%nat with 0%nat by lia.
    change (firstn 0 [hexdigit (x mod 16)]) with (@nil char).
    apply app_nil_r.
Qed.

Lemma uid_of_uuid (x : N) :
  slice None (Some 12%Z) (uuid_hex x) = hex_digits 12 (x / 16 ^ 20).
Proof.
  unfold slice, slice_index, uuid_hex, len. rewrite hex_digits_length.
  change (firstn 12 (hex_digits (12 + 20) x) = hex_digits 12 (x / 16 ^ N.of_nat 20)).
  apply hex_digits_firstn.
Qed.

(** ** The gateway [_run_tmux] *)

Section Gateway.
Context `{Host}.

Lemma run_tmux_state (args : list str) (w : World) (st : State) :
  snd (_run_tmux args w st) = ran (u "tmux" :: args) st.
Proof.
  unfold _run_tmux, bind, subprocess_run, ran. simpl.
  destruct (subprocess_run_at w (n_runs st) (u "tmux" :: args))
    as [| |rc out err|name text]; try reflexivity.
  destruct (negb (rc =? 0)%Z); reflexivity.
Qed.

Lemma run_tmux_ok (args : list str) (w : World) (st : State) out err :
  subprocess_run_at w (n_runs st) (u "tmux" :: args) = CompletedProcess 0 out err ->
  _run_tmux args w st = (Ok out, ran (u "tmux" :: args) st).
Proof.
  intros Hr. unfold _run_tmux, bind, subprocess_run, ran. simpl. now rewrite Hr.
Qed.

Lemma run_tmux_result (args : list str) (w : World) (st : State) :
  match subprocess_run_at w (n_runs st) (u "tmux" :: args),
        fst (_run_tmux args w st) with
  | CompletedProcess rc out _, Ok out' => rc = 0%Z /\ out' = out
  | FileNotFoundError, Raise e =>
      exn_class e = TmuxError
      /\ exn_args e = Msg (u "tmux is not installed or not in PATH")
  | TimeoutExpired, Raise e =>
      exn_class e = TmuxError
      /\ exn_args e = Msg (u "tmux command timed out: "
                           ++ join (u " ") (u "tmux" :: args))
  | CompletedProcess rc _ err, Raise e =>
      rc <> 0%Z /\ exn_class e = TmuxError
      /\ exn_args e = Msg (u "tmux command failed (rc=" ++ int_str rc
                           ++ u "): " ++ join (u " ") (u "tmux" :: args)
                           ++ [LF] ++ u "stderr: " ++ strip err)
  | OtherException name text, Raise e =>
      e = Exception (LibraryError name) (Msg text)
  | _, _ => False
  end.
Proof.
  unfold _run_tmux, bind, subprocess_run. simpl.
  destruct (subprocess_run_at w (n_runs st) (u "tmux" :: args))
    as [| |rc out err|name text];
    simpl; try (split; reflexivity); try reflexivity.
  destruct (Z.eqb_spec rc 0) as [-> | Hrc]; simpl.
  - now split.
  - repeat split. assumption.
Qed.

(** Whatever [_run_tmux] raises is a plain [TmuxError] or an exception of
    the library; it never diverges. *)
Lemma run_tmux_raises (args : list str) (w : World) (st : State) :
  match fst (_run_tmux args w st) with
  | Ok _ => True
  | Raise e => from_gateway e
  | Diverge => False
  end.
Proof.
  pose proof (run_tmux_result args w st) as Hr. unfold from_gateway.
  destruct (subprocess_run_at w (n_runs st) (u "tmux" :: args));
    destruct (fst (_run_tmux args w st)) as [o | e |];
    try contradiction; try exact I.
  - destruct Hr as [Hc _]. now rewrite Hc.
  - destruct Hr as [Hc _]. now rewrite Hc.
  - destruct Hr as (_ & Hc & _). now rewrite Hc.
  - now subst e.
Qed.

(** [_run_tmux] returns exactly when the invocation exits with status 0. *)
Lemma run_tmux_accepted (args : list str) (w : World) (st : State) :
  (exists out, fst (_run_tmux args w st) = Ok out)
  <-> accepted w (n_runs st) (u "tmux" :: args).
Proof.
  pose proof (run_tmux_result args w st) as Hr. unfold accepted. split.
  - intros [o Ho]. rewrite Ho in Hr.
    destruct (subprocess_run_at w (n_runs st) (u "tmux" :: args))
      as [| |rc out err|name text]; try contradiction.
    destruct Hr as [-> _]. now exists out, err.
  - intros (out & err & Ho). exists out. now rewrite (run_tmux_ok _ _ _ Ho).
Qed.

(** C5 (as amended).  An invocation that fails in one of the three ways the
    gateway has a clause for (tool not found, tool timed out, non-zero exit)
    raises the one class [TmuxError]; the three are told apart by the message
    only, whose texts are pairwise different, and the message of a non-zero
    exit carries the exit code and the trimmed error stream.  An invocation
    on which the subprocess call raises anything else (a tool that is found
    but may not be executed, say) fails with that exception, unchanged, which
    is not a [TmuxError]. *)
Theorem gateway_failure_kinds (args : list str) (w : World) (st : State) :
  (match failure_kind (subprocess_run_at w (n_runs st) (u "tmux" :: args)),
         fst (_run_tmux args w st) with
   | None, Ok _ => True
   | Some Uncaught, Raise e => issubclass (exn_class e) TmuxError = false
   | Some _, Raise e => exn_class e = TmuxError
   | _, _ => False
   end)
  /\ (forall name text,
        subprocess_run_at w (n_runs st) (u "tmux" :: args)
        = OtherException name text ->
        fst (_run_tmux args w st)
        = Raise (Exception (LibraryError name) (Msg text)))
  /\ (forall rc out err,
        subprocess_run_at w (n_runs st) (u "tmux" :: args)
        = CompletedProcess rc out err ->
        rc <> 0%Z ->
        exists e mid,
          fst (_run_tmux args w st) = Raise e
          /\ exn_args e = Msg (u "tmux command failed (rc=" ++ int_str rc
                               ++ u ")" ++ mid ++ u "stderr: " ++ strip err))
  /\ (forall args' w' st' e e',
        fst (_run_tmux args w st) = Raise e ->
        fst (_run_tmux args' w' st') = Raise e' ->
        exn_class e = TmuxError -> exn_class e' = TmuxError ->
        failure_kind (subprocess_run_at w (n_runs st) (u "tmux" :: args))
        <> failure_kind (subprocess_run_at w' (n_runs st') (u "tmux" :: args')) ->
        exn_args e <> exn_args e').
Proof.
  split; [| split; [| split]].
  - pose proof (run_tmux_result args w st) as Hr. unfold failure_kind.
    destruct (subprocess_run_at w (n_runs st) (u "tmux" :: args))
      as [| |rc out err|name text];
      destruct (fst (_run_tmux args w st)); try contradiction; try tauto.
    + destruct Hr as [-> _]. exact I.
    + destruct Hr as [Hrc [Hc _]]. destruct (Z.eqb_spec rc 0); [contradiction | assumption].
    + now subst e.
  - intros name text Hr.
    pose proof (run_tmux_result args w st) as Hres. rewrite Hr in Hres.
    destruct (fst (_run_tmux args w st)) as [o | e |]; try contradiction.
    now subst e.
  - intros rc out err Hr Hrc.
    pose proof (run_tmux_result args w st) as Hres. rewrite Hr in Hres.
    destruct (fst (_run_tmux args w st)) as [o | e |]; try contradiction.
    + destruct Hres as [Hres _]. contradiction.
    + destruct Hres as (_ & _ & Hm). exists e.
      exists (u ": " ++ join (u " ") (u "tmux" :: args) ++ [LF]).
      split; [reflexivity |]. rewrite Hm. f_equal.
      change (u "): ") with (u ")" ++ u ": ").
      now rewrite <- !app_assoc.
  - intros args' w' st' e e' He He' Hc Hc' Hk.
    pose proof (run_tmux_result args w st) as Hr.
    pose proof (run_tmux_result args' w' st') as Hr'.
    rewrite He in Hr. rewrite He' in Hr'. unfold failure_kind in Hk.
    destruct (subprocess_run_at w (n_runs st) (u "tmux" :: args))
      as [| |rc out err|name text];
      destruct (subprocess_run_at w' (n_runs st') (u "tmux" :: args'))
        as [| |rc' out' err'|name' text'];
      try (exfalso; apply Hk; reflexivity);
      try (subst e; discriminate Hc); try (subst e'; discriminate Hc');
      repeat match goal with
             | Hx : _ /\ _ |- _ => destruct Hx
             end;
      repeat match goal with
             | Hx : exn_args _ = _ |- _ => rewrite Hx; clear Hx
             end;
      try (intros Heq; vm_compute in Heq; discriminate Heq).
    destruct (Z.eqb_spec rc 0); destruct (Z.eqb_spec rc' 0); contradiction.
Qed.

End Gateway.

Lemma gateway_failure_kinds_witness :
  (exists e e' mid,
     fst (_run_tmux [u "has-session"] w_failing st0) = Raise e
     /\ fst (_run_tmux [u "has-session"] w_missing st0) = Raise e'
     /\ exn_args e = Msg (u "tmux command failed (rc=1)" ++ mid
                          ++ u "stderr: no server running")
     /\ exn_args e <> exn_args e')
  /\ fst (_run_tmux [u "has-session"] w_denied st0)
     = Raise (Exception (LibraryError (u "PermissionError"))
                (Msg (u "[Errno 13] Permission denied: 'tmux'"))).
Proof.
  split.
  - destruct (proj1 (proj2 (proj2 (gateway_failure_kinds [u "has-session"] w_failing st0)))
                1%Z [] (u "no server running" ++ [LF]) eq_refl ltac:(discriminate))
      as (e & mid & He & Hm).
    exists e, (Exception TmuxError (Msg (u "tmux is not installed or not in PATH"))), mid.
    repeat split.
    + exact He.
    + exact Hm.
    + apply (proj2 (proj2 (proj2 (gateway_failure_kinds [u "has-session"] w_failing st0)))
               [u "has-session"] w_missing st0).
      * exact He.
      * reflexivity.
      * vm_compute in He. injection He as <-. reflexivity.
      * reflexivity.
      * vm_compute. discriminate.
  - exact (proj1 (proj2 (gateway_failure_kinds [u "has-session"] w_denied st0))
             _ _ eq_refl).
Defined.

(** C5 (as stated) fails.  A tmux that is found but may not be executed makes
    the invocation fail with [PermissionError]: that is none of the three
    errors of the claim, and no [TmuxError] at all.  And a missing tool and a
    hung tool, two of the three kinds, are raised as the same class, so that
    the type of the error does not tell them apart. *)
Lemma gateway_failure_not_classified :
  (exists e,
     fst (_run_tmux [u "has-session"] w_denied st0) = Raise e
     /\ exn_class e = LibraryError (u "PermissionError")
     /\ issubclass (exn_class e) TmuxError = false)
  /\ exists e1 e2,
       fst (_run_tmux [u "has-session"] w_missing st0) = Raise e1
       /\ fst (_run_tmux [u "has-session"] w_hung st0) = Raise e2
       /\ failure_kind (subprocess_run_at w_missing 0 [u "tmux"; u "has-session"])
          <> failure_kind (subprocess_run_at w_hung 0 [u "tmux"; u "has-session"])
       /\ exn_class e1 = exn_class e2.
Proof.
  split.
  - eexists. repeat split; reflexivity.
  - eexists; eexists. repeat split; try reflexivity. vm_compute. discriminate.
Qed.

(** ** [list_sessions] *)

Lemma filter_nonblank (ls : list str) :
  nonblank_of ls (filter (fun s => nonempty (strip s)) ls).
Proof.
  induction ls as [|l ls IH]; [constructor |]. simpl.
  destruct (strip l) eqn:E; simpl.
  - now apply nonblank_skip.
  - apply nonblank_keep; [| exact IH]. rewrite E. discriminate.
Qed.

Lemma nonblank_of_filter (ls ns : list str) :
  nonblank_of ls ns -> ns = filter (fun s => nonempty (strip s)) ls.
Proof.
  induction 1 as [| l ls ns Hl _ IH | l ls ns Hl _ IH]; simpl.
  - reflexivity.
  - now rewrite Hl.
  - destruct (strip l); [congruence |]. simpl. now rewrite IH.
Qed.

Section ListSessions.
Context `{Host}.

Lemma list_sessions_run w st :
  list_sessions w st
  = (match subprocess_run_at w (n_runs st) list_cmd with
     | OtherException name text =>
         Raise (Exception (LibraryError name) (Msg text))
     | r => Ok (listed r)
     end,
     ran list_cmd st).
Proof.
  unfold list_sessions, try_except, bind, ret.
  pose proof (run_tmux_result [u "list-sessions"; u "-F"; u "#{session_name}"] w st) as Hr.
  pose proof (run_tmux_state [u "list-sessions"; u "-F"; u "#{session_name}"] w st) as Hs.
  change (u "tmux" :: [u "list-sessions"; u "-F"; u "#{session_name}"])
    with list_cmd in *.
  unfold listed.
  destruct (_run_tmux [u "list-sessions"; u "-F"; u "#{session_name}"] w st)
    as [[out | e |] st1]; simpl in Hs; subst st1;
    destruct (subprocess_run_at w (n_runs st) list_cmd)
      as [| |rc out' err|name text];
    simpl fst in Hr; try contradiction.
  - destruct Hr as [-> ->]. reflexivity.
  - destruct Hr as [-> _]. reflexivity.
  - destruct Hr as [-> _]. reflexivity.
  - destruct Hr as (Hrc & -> & _). simpl.
    destruct (Z.eqb_spec rc 0); [contradiction | reflexivity].
  - cbv beta iota in Hr. subst e. reflexivity.
Qed.

(** C7 (as amended).  On every outcome of the listing invocation that the
    gateway has a clause for, [list_sessions] returns a list and does not
    raise: the non-blank lines of the listing, in order, when tmux exits
    with status 0, and the empty list when tmux is not found, times out or
    exits with another status.  An exception of the subprocess call that the
    gateway lets through is raised by [list_sessions] too. *)
Theorem list_sessions_degrades (w : World) (st : State) :
  let r := subprocess_run_at w (n_runs st) list_cmd in
  (failure_kind r <> Some Uncaught ->
   exists names,
     fst (list_sessions w st) = Ok names
     /\ (failure_kind r <> None -> names = [])
     /\ (forall out err,
           r = CompletedProcess 0 out err -> nonblank_of (splitlines out) names))
  /\ (forall name text,
        r = OtherException name text ->
        fst (list_sessions w st)
        = Raise (Exception (LibraryError name) (Msg text))).
Proof.
  intros r. rewrite list_sessions_run. fold r. clearbody r. split.
  - intros Hk. exists (listed r). split; [| split].
    + destruct r; try reflexivity. now contradiction Hk.
    + unfold failure_kind, listed. destruct r as [| |rc out err|name text];
        try reflexivity.
      destruct (rc =? 0)%Z; [congruence | reflexivity].
    + intros out err ->. apply filter_nonblank.
  - intros name text ->. reflexivity.
Qed.

End ListSessions.

Lemma list_sessions_degrades_witness :
  (exists names,
     fst (list_sessions w_two_lines st0) = Ok names
     /\ nonblank_of [u "a"; u "b"] names)
  /\ fst (list_sessions w_missing st0) = Ok [].
Proof.
  split.
  - destruct (proj1 (@list_sessions_degrades _ w_two_lines st0)
                ltac:(discriminate)) as (names & Hn & _ & Hl).
    exists names. split; [exact Hn |].
    exact (Hl (u "a" ++ [LF] ++ u "b" ++ [LF]) [] eq_refl).
  - destruct (proj1 (@list_sessions_degrades _ w_missing st0)
                ltac:(discriminate)) as (names & Hn & He & _).
    rewrite Hn. f_equal. apply He. discriminate.
Defined.

(** C7 (as stated) fails: when tmux is found but may not be executed, the
    listing invocation fails with [PermissionError], and [list_sessions]
    raises it instead of returning the empty list. *)
Lemma list_sessions_raises :
  failure_kind (subprocess_run_at w_denied 0 list_cmd) <> None
  /\ fst (list_sessions w_denied st0)
     = Raise (Exception (LibraryError (u "PermissionError"))
                (Msg (u "[Errno 13] Permission denied: 'tmux'")))
  /\ fst (list_sessions w_denied st0) <> Ok [].
Proof. repeat split; discriminate. Qed.

(** ** [read_buffer] *)

Lemma slice_last_all {A} (l : list A) : slice (Some (- 0)%Z) None l = l.
Proof.
  unfold slice, slice_index. simpl Z.opp. pose proof (len_nonneg l).
  destruct (Z.ltb_spec 0 0); [lia |].
  replace (Z.max 0 (Z.min (len l) 0)) with 0%Z by lia.
  rewrite Z.sub_0_r. unfold len. rewrite Nat2Z.id. simpl. apply firstn_all.
Qed.

Lemma slice_last_n {A} (n : Z) (l : list A) :
  (0 < n)%Z ->
  slice (Some (- n)%Z) None l = skipn (length l - Z.to_nat n) l.
Proof.
  intros Hn. unfold slice, slice_index. pose proof (len_nonneg l).
  destruct (Z.ltb_spec (- n) 0); [| lia].
  set (a := Z.max 0 (Z.min (len l) (- n + len l))).
  assert (Ha : Z.to_nat a = (length l - Z.to_nat n)%nat) by (unfold a, len in *; lia).
  rewrite Ha. apply firstn_all2. rewrite length_skipn. unfold a, len in *. lia.
Qed.

Section ReadBuffer.
Context `{Host}.

Lemma read_buffer_ok (self : TmuxController) (lines : option Z)
    (history : bool) (w : World) (st : State) raw err :
  subprocess_run_at w (n_runs st) (capture_cmd self history)
  = CompletedProcess 0 raw err ->
  read_buffer self lines history w st
  = (Ok match lines with
        | Some n => join [LF] (slice (Some (- n)%Z) None (splitlines (strip_ansi raw)))
        | None => strip_ansi raw
        end,
     ran (capture_cmd self history) st).
Proof.
  intros Hr. unfold read_buffer, bind.
  assert (Hc : u "tmux" :: (if history
                then [u "capture-pane"; u "-t"; _target self; u "-p"] ++ [u "-S"; u "-"]
                else [u "capture-pane"; u "-t"; _target self; u "-p"])
               = capture_cmd self history)
    by (unfold capture_cmd; destruct history; reflexivity).
  rewrite (@run_tmux_ok _ _ w st raw err); rewrite Hc; [reflexivity | exact Hr].
Qed.

End ReadBuffer.

(** ** Running the monad *)

Section Exec.
Context `{Host}.

Lemma bind_ok {A B} (c : M A) (k : A -> M B) w st a st' :
  c w st = (Ok a, st') -> bind c k w st = k a w st'.
Proof. intros Hc. unfold bind. now rewrite Hc. Qed.

Lemma bind_raise {A B} (c : M A) (k : A -> M B) w st e st' :
  c w st = (Raise e, st') -> bind c k w st = (Raise e, st').
Proof. intros Hc. unfold bind. now rewrite Hc. Qed.

Lemma runs_of_app (t1 t2 : list Event) :
  runs_of (t1 ++ t2) = runs_of t1 ++ runs_of t2.
Proof.
  induction t1 as [|e t1 IH]; [reflexivity |].
  destruct e; simpl; now rewrite IH.
Qed.

Lemma gateway_only_ret {A} (a : A) : gateway_only (ret a).
Proof. intros w st. now split. Qed.

Lemma gateway_only_bind {A B} (c : M A) (k : A -> M B) :
  gateway_only c -> (forall a, gateway_only (k a)) -> gateway_only (bind c k).
Proof.
  intros Hc Hk w st. specialize (Hc w st). unfold bind.
  destruct (c w st) as [[a | e |] st1]; simpl in Hc; destruct Hc as [Ht Hr].
  - destruct (Hk a w st1) as [Ht' Hr']. split; [congruence | assumption].
  - now split.
  - contradiction.
Qed.

Lemma gateway_only_run_tmux (args : list str) : gateway_only (_run_tmux args).
Proof.
  intros w st. split.
  - now rewrite run_tmux_state.
  - apply run_tmux_raises.
Qed.

Lemma gateway_only_sleep (d : time) : gateway_only (time_sleep d).
Proof. intros w st. now split. Qed.

Lemma gateway_only_send_keys self text enter :
  gateway_only (send_keys self text enter).
Proof.
  unfold send_keys. apply gateway_only_bind.
  - apply gateway_only_run_tmux.
  - intros _. apply gateway_only_ret.
Qed.

Lemma gateway_only_read_buffer self lines history :
  gateway_only (read_buffer self lines history).
Proof.
  unfold read_buffer. apply gateway_only_bind.
  - apply gateway_only_run_tmux.
  - intros raw. apply gateway_only_ret.
Qed.

Lemma gateway_only_markers_poll self command sm em interval :
  gateway_only (_markers_poll self command sm em interval).
Proof.
  unfold _markers_poll. apply gateway_only_bind.
  - apply gateway_only_read_buffer.
  - intros buf. destruct (between_markers buf sm em).
    + apply gateway_only_ret.
    + apply gateway_only_bind; [apply gateway_only_sleep |].
      intros _. apply gateway_only_ret.
Qed.

Lemma gateway_only_prompt_poll self pre interval :
  gateway_only (_prompt_poll self pre interval).
Proof.
  unfold _prompt_poll. apply gateway_only_bind; [apply gateway_only_sleep |].
  intros _. apply gateway_only_bind; [apply gateway_only_read_buffer |].
  intros buf. cbv zeta.
  destruct (nonempty _ && _); [apply gateway_only_ret |].
  apply gateway_only_bind; [apply gateway_only_read_buffer |].
  intros visible. destruct (re_search _ visible); apply gateway_only_ret.
Qed.

Lemma send_keys_state self text w st :
  snd (send_keys self text true w st) = ran (send_cmd self text) st.
Proof.
  unfold send_keys, bind.
  pose proof (run_tmux_state
                ([u "send-keys"; u "-t"; _target self; text] ++ [u "Enter"]) w st) as Hs.
  destruct (_run_tmux _ w st) as [[out | e |] st1]; simpl in *; exact Hs.
Qed.

Lemma read_buffer_state self lines history w st :
  snd (read_buffer self lines history w st) = ran (capture_cmd self history) st.
Proof.
  unfold read_buffer, bind.
  assert (Hs : forall args, u "tmux" :: args = capture_cmd self history ->
               snd (_run_tmux args w st) = ran (capture_cmd self history) st)
    by (intros args <-; apply run_tmux_state).
  specialize (Hs (if history
                  then [u "capture-pane"; u "-t"; _target self; u "-p"] ++ [u "-S"; u "-"]
                  else [u "capture-pane"; u "-t"; _target self; u "-p"])).
  destruct (_run_tmux _ w st) as [[out | e |] st1]; simpl in *;
    apply Hs; unfold capture_cmd; destruct history; reflexivity.
Qed.

Lemma runs_of_ran cmd st : runs_of (trace (ran cmd st)) = runs_of (trace st) ++ [cmd].
Proof. unfold ran. simpl. now rewrite runs_of_app. Qed.

Lemma runs_of_log e st :
  match e with EvRun _ => False | _ => True end ->
  runs_of (trace (log e st)) = runs_of (trace st).
Proof.
  intros He. unfold log. simpl. rewrite runs_of_app.
  destruct e; try contradiction; apply app_nil_r.
Qed.

(** One poll of the marker protocol runs exactly one capture of the pane
    with its history. *)
Lemma markers_poll_runs self command sm em interval w st :
  runs_of (trace (snd (_markers_poll self command sm em interval w st)))
  = runs_of (trace st) ++ [capture_cmd self true].
Proof.
  unfold _markers_poll, bind.
  pose proof (read_buffer_state self None true w st) as Hs.
  destruct (read_buffer self None true w st) as [[buf | e |] st1];
    simpl in Hs; subst st1; try apply runs_of_ran.
  destruct (between_markers buf sm em); simpl.
  - now rewrite runs_of_app.
  - rewrite !runs_of_app. simpl. now rewrite app_nil_r.
Qed.

End Exec.

(** ** The polling loop *)

Section Loop.
Context `{Host}.

Lemma monotonic_run w st :
  time_monotonic w st
  = (Ok (monotonic_at w (n_ticks st)),
     {| n_runs := n_runs st; n_ticks := S (n_ticks st);
        trace := trace st ++ [EvMonotonic (monotonic_at w (n_ticks st))] |}).
Proof. reflexivity. Qed.

Lemma while_before_step {A} fuel deadline (body : M (option A)) after w st :
  while_before (S fuel) deadline body after w st
  = let st1 := {| n_runs := n_runs st; n_ticks := S (n_ticks st);
                  trace := trace st ++ [EvMonotonic (monotonic_at w (n_ticks st))] |} in
    if time_lt (monotonic_at w (n_ticks st)) deadline then
      match body w st1 with
      | (Ok (Some a), st2) => (Ok a, st2)
      | (Ok None, st2) => while_before fuel deadline body after w st2
      | (Raise e, st2) => (Raise e, st2)
      | (Diverge, st2) => (Diverge, st2)
      end
    else after w st1.
Proof.
  simpl. unfold bind at 1. rewrite monotonic_run. cbv zeta.
  destruct (time_lt (monotonic_at w (n_ticks st)) deadline); [| reflexivity].
  unfold bind. destruct (body w _) as [[[a |] | e |] st2]; reflexivity.
Qed.

(** The loop runs the commands of its polls and nothing else. *)
Lemma while_before_runs {A} fuel deadline (body : M (option A)) e cap w :
  (forall st, runs_of (trace (snd (body w st))) = runs_of (trace st) ++ [cap]) ->
  forall st, exists n,
    runs_of (trace (snd (while_before fuel deadline body (raise e) w st)))
    = runs_of (trace st) ++ repeat cap n.
Proof.
  intros Hbody. induction fuel as [|fuel IH]; intros st.
  - exists 0%nat. simpl. now rewrite app_nil_r.
  - rewrite while_before_step. cbv zeta.
    set (st1 := {| n_runs := n_runs st; n_ticks := S (n_ticks st);
                   trace := trace st ++ [EvMonotonic (monotonic_at w (n_ticks st))] |}).
    assert (H1 : runs_of (trace st1) = runs_of (trace st))
      by (unfold st1; simpl; rewrite runs_of_app; apply app_nil_r).
    destruct (time_lt (monotonic_at w (n_ticks st)) deadline).
    + specialize (Hbody st1). rewrite H1 in Hbody.
      destruct (body w st1) as [[[a |] | e' |] st2]; simpl in Hbody.
      * exists 1%nat. exact Hbody.
      * destruct (IH st2) as [n Hn]. exists (S n). rewrite Hn, Hbody.
        now rewrite <- app_assoc.
      * exists 1%nat. exact Hbody.
      * exists 1%nat. exact Hbody.
    + exists 0%nat. unfold raise. cbn [snd repeat]. now rewrite H1, app_nil_r.
Qed.

(** When the [k] first polls run without seeing completion and the clock
    is not before the deadline at the test after them, the loop ends by
    raising, whatever budget above [k] it has.  [I i] describes the state in
    which the test before the [i]-th poll is made. *)
Lemma while_before_timeout (deadline : time) (body : M (option str)) e w
    (I : nat -> State -> Prop) (t0 k : nat) :
  (forall i st, I i st -> n_ticks st = (t0 + i)%nat) ->
  (forall i st, (i < k)%nat -> I i st ->
     exists st2,
       body w (snd (time_monotonic w st)) = (Ok None, st2) /\ I (S i) st2) ->
  time_lt (monotonic_at w (t0 + k)) deadline = false ->
  forall j i fuel st,
    (i + j = k)%nat -> (j < fuel)%nat -> I i st ->
    fst (while_before fuel deadline body (raise e) w st) = Raise e.
Proof.
  intros Hticks Hbody Hclock. induction j as [|j IH]; intros i fuel st Hij Hf Hi;
    (destruct fuel as [|fuel]; [lia |]); rewrite while_before_step; cbv zeta.
  - rewrite (Hticks i st Hi). replace i with k by lia. now rewrite Hclock.
  - destruct (time_lt (monotonic_at w (n_ticks st)) deadline); [| reflexivity].
    destruct (Hbody i st ltac:(lia) Hi) as (st2 & Hb & Hi2).
    rewrite monotonic_run in Hb. cbn [snd] in Hb. rewrite Hb.
    apply (IH (S i)); [lia | lia | exact Hi2].
Qed.

(** A [CommandTimeoutError] out of the loop is the one raised after it, and
    the clock reading that ended the loop was not before the deadline. *)
Lemma while_before_raise {A} (deadline : time) (body : M (option A)) e w :
  gateway_only body ->
  forall fuel st e',
    fst (while_before fuel deadline body (raise e) w st) = Raise e' ->
    exn_class e' = CommandTimeoutError ->
    e' = e
    /\ exists k,
         n_ticks (snd (while_before fuel deadline body (raise e) w st)) = S k
         /\ (n_ticks st <= k)%nat
         /\ time_lt (monotonic_at w k) deadline = false.
Proof.
  intros Hg. induction fuel as [|fuel IH]; intros st e' Hr Hc.
  - discriminate Hr.
  - rewrite while_before_step in *. cbv zeta in *.
    set (st1 := {| n_runs := n_runs st; n_ticks := S (n_ticks st); trace := _ |}) in *.
    destruct (time_lt (monotonic_at w (n_ticks st)) deadline) eqn:Hlt.
    + destruct (Hg w st1) as [Hticks Hres].
      destruct (body w st1) as [[[a |] | e0 |] st2]; simpl in Hticks, Hres;
        try discriminate Hr.
      * destruct (IH st2 e' Hr Hc) as [-> (k & Hk1 & Hk2 & Hk3)].
        split; [reflexivity |]. exists k. repeat split; try assumption.
        rewrite Hticks in Hk2. unfold st1 in Hk2. simpl in Hk2. lia.
      * simpl in Hr. injection Hr as ->. unfold from_gateway in Hres.
        rewrite Hc in Hres. contradiction.
    + simpl in Hr. injection Hr as <-. split; [reflexivity |].
      exists (n_ticks st). repeat split; [lia | assumption].
Qed.

End Loop.

(** ** The two protocols *)

Section Protocols.
Context `{Host}.

Lemma send_keys_accepted self text w st :
  accepted w (n_runs st) (send_cmd self text) ->
  send_keys self text true w st = (Ok tt, ran (send_cmd self text) st).
Proof.
  intros (out & err & Hr).
  unfold send_keys. erewrite bind_ok; [reflexivity |].
  apply run_tmux_ok with (err := err). exact Hr.
Qed.

Lemma send_keys_ok self text w st :
  gateway_succeeds w ->
  send_keys self text true w st = (Ok tt, ran (send_cmd self text) st).
Proof. intros Hg. apply send_keys_accepted. exact (Hg _ _). Qed.

Lemma send_keys_cases self text w st :
  (accepted w (n_runs st) (send_cmd self text)
   /\ send_keys self text true w st = (Ok tt, ran (send_cmd self text) st))
  \/ (~ accepted w (n_runs st) (send_cmd self text)
      /\ exists e,
           send_keys self text true w st = (Raise e, ran (send_cmd self text) st)
           /\ from_gateway e).
Proof.
  set (args := [u "send-keys"; u "-t"; _target self; text] ++ [u "Enter"]).
  pose proof (run_tmux_state args w st) as Hs.
  pose proof (run_tmux_raises args w st) as Hr.
  pose proof (run_tmux_accepted args w st) as Ha.
  change (u "tmux" :: args) with (send_cmd self text) in Hs, Ha.
  unfold send_keys, bind. fold args.
  destruct (_run_tmux args w st) as [[out | e |] st1]; simpl in Hs, Hr, Ha; subst st1.
  - left. split; [| reflexivity]. apply Ha. now exists out.
  - right. split.
    + intros Hacc. apply Ha in Hacc as [o Ho]. discriminate Ho.
    + now exists e.
  - contradiction.
Qed.

Lemma read_buffer_shows self lines history w st text :
  shows w (n_runs st) (capture_cmd self history) text ->
  read_buffer self lines history w st
  = (Ok match lines with
        | Some n => join [LF] (slice (Some (- n)%Z) None (splitlines text))
        | None => text
        end,
     ran (capture_cmd self history) st).
Proof.
  intros (raw & err & Hr & <-). now apply read_buffer_ok with (err := err).
Qed.

Lemma read_buffer_cases self lines history w st :
  (exists buf, read_buffer self lines history w st
               = (Ok buf, ran (capture_cmd self history) st))
  \/ exists e,
       read_buffer self lines history w st
       = (Raise e, ran (capture_cmd self history) st)
       /\ from_gateway e.
Proof.
  pose proof (read_buffer_state self lines history w st) as Hs.
  destruct (gateway_only_read_buffer self lines history w st) as [_ Hr].
  destruct (read_buffer self lines history w st) as [[buf | e |] st1] eqn:E;
    simpl in Hs, Hr; subst st1.
  - left. now exists buf.
  - right. now exists e.
  - contradiction.
Qed.

(** A poll of the marker protocol that does not find the markers goes to
    sleep and reports nothing; it has run one capture. *)
Lemma markers_poll_none self command sm em interval w st buf :
  shows w (n_runs st) (capture_cmd self true) buf ->
  between_markers buf sm em = None ->
  exists st2,
    _markers_poll self command sm em interval w st = (Ok None, st2)
    /\ n_runs st2 = S (n_runs st) /\ n_ticks st2 = n_ticks st.
Proof.
  intros Hs Hb. unfold _markers_poll.
  erewrite bind_ok by (apply read_buffer_shows; exact Hs).
  rewrite Hb. eexists. split; [reflexivity |]. split; reflexivity.
Qed.

(** A poll of the prompt protocol that finds the prompt neither on the last
    new line nor on the visible last line reports nothing; it has run two
    captures. *)
Lemma prompt_poll_none self pre interval w st buf text :
  shows w (n_runs st) (capture_cmd self true) buf ->
  shows w (S (n_runs st)) (capture_cmd self false) text ->
  prompt_detected self pre buf (last_line text) = false ->
  exists st2,
    _prompt_poll self pre interval w st = (Ok None, st2)
    /\ n_runs st2 = S (S (n_runs st)) /\ n_ticks st2 = n_ticks st.
Proof.
  intros Hb Hv Hd. unfold prompt_detected in Hd.
  apply orb_false_iff in Hd as [H1 H2]. unfold last_line in H2.
  unfold _prompt_poll. erewrite bind_ok by reflexivity.
  erewrite bind_ok by (apply read_buffer_shows; exact Hb).
  cbv zeta. rewrite H1.
  erewrite bind_ok by (apply read_buffer_shows; exact Hv).
  change (- (1))%Z with (-1)%Z. rewrite H2. eexists. split; [reflexivity |]. split; reflexivity.
Qed.

(** [_execute_with_markers] either stops at the first send that the gateway
    refuses, or has run its three sends and read the clock once when it
    enters the loop. *)
Lemma execute_with_markers_shape self command timeout interval fuel w st :
  let uid := hex_digits 12 (uuid4_int w / 16 ^ 20) in
  let sends := [send_cmd self (u "echo '" ++ start_marker_of uid ++ u "'");
                send_cmd self command;
                send_cmd self (u "echo '" ++ end_marker_of uid ++ u "'")] in
  let after := raise (Exception CommandTimeoutError
                        (MsgTimeout (u "Command did not complete within ")
                                    timeout command)) in
  let run := _execute_with_markers self command timeout interval fuel w st in
  (exists m e,
      (m < 3)%nat /\ fst run = Raise e /\ from_gateway e
      /\ (forall j, (j < m)%nat -> accepted w (j + n_runs st) (nth j sends []))
      /\ ~ accepted w (m + n_runs st) (nth m sends [])
      /\ runs_of (trace (snd run)) = runs_of (trace st) ++ firstn (S m) sends)
  \/ (exists st5,
        (forall j, (j < 3)%nat -> accepted w (j + n_runs st) (nth j sends []))
        /\ n_runs st5 = (3 + n_runs st)%nat
        /\ n_ticks st5 = S (n_ticks st)
        /\ runs_of (trace st5) = runs_of (trace st) ++ sends
        /\ run = while_before fuel
                   (time_add (monotonic_at w (n_ticks st)) timeout)
                   (_markers_poll self command (start_marker_of uid)
                      (end_marker_of uid) interval)
                   after w st5).
Proof.
  intros uid sends after run. subst run. unfold _execute_with_markers.
  erewrite bind_ok by reflexivity. rewrite uid_of_uuid. fold uid.
  set (st1 := log EvUuid4 st).
  assert (H1 : runs_of (trace st1) = runs_of (trace st))
    by (apply runs_of_log; exact I).
  destruct (send_keys_cases self (u "echo '" ++ start_marker_of uid ++ u "'") w st1)
    as [[A1 E1] | (A1 & e & E1 & He)].
  2:{ left. exists 0%nat, e. erewrite bind_raise by exact E1.
      split; [lia |]. split; [reflexivity |]. split; [exact He |].
      split; [intros j Hj; lia |]. split; [exact A1 |].
      simpl snd. now rewrite runs_of_ran, H1. }
  erewrite bind_ok by exact E1. erewrite bind_ok by reflexivity.
  set (st2 := log (EvSleep marker_pause) (ran _ st1)).
  assert (H2 : runs_of (trace st2) = runs_of (trace st) ++ firstn 1 sends).
  { unfold st2. rewrite runs_of_log by exact I. now rewrite runs_of_ran, H1. }
  destruct (send_keys_cases self command w st2) as [[A2 E2] | (A2 & e & E2 & He)].
  2:{ left. exists 1%nat, e. erewrite bind_raise by exact E2.
      split; [lia |]. split; [reflexivity |]. split; [exact He |].
      split; [| split; [exact A2 |]].
      - intros j Hj. replace j with 0%nat by lia. exact A1.
      - simpl snd. rewrite runs_of_ran, H2. now rewrite <- app_assoc. }
  erewrite bind_ok by exact E2.
  set (st3 := ran (send_cmd self command) st2).
  assert (H3 : runs_of (trace st3) = runs_of (trace st) ++ firstn 2 sends).
  { unfold st3. rewrite runs_of_ran, H2. now rewrite <- app_assoc. }
  destruct (send_keys_cases self (u "echo '" ++ end_marker_of uid ++ u "'") w st3)
    as [[A3 E3] | (A3 & e & E3 & He)].
  2:{ left. exists 2%nat, e. erewrite bind_raise by exact E3.
      split; [lia |]. split; [reflexivity |]. split; [exact He |].
      split; [| split; [exact A3 |]].
      - intros j Hj. destruct j as [|[|j]]; [exact A1 | exact A2 | lia].
      - simpl snd. rewrite runs_of_ran, H3. now rewrite <- app_assoc. }
  erewrite bind_ok by exact E3.
  set (st4 := ran _ st3).
  assert (H4 : runs_of (trace st4) = runs_of (trace st) ++ sends).
  { unfold st4. rewrite runs_of_ran, H3. now rewrite <- app_assoc. }
  right. erewrite bind_ok by apply monotonic_run.
  eexists. split; [| split; [| split; [| split; [| reflexivity]]]].
  - intros j Hj. destruct j as [|[|[|j]]]; [exact A1 | exact A2 | exact A3 | lia].
  - reflexivity.
  - reflexivity.
  - cbn [trace]. rewrite runs_of_app, H4. cbn [runs_of]. now rewrite app_nil_r.
Qed.

(** [_execute_with_prompt] either stops at the first capture or at the
    send, refused by the gateway, or enters the loop after one clock
    reading with the first capture as [pre_buffer]. *)
Lemma execute_with_prompt_shape self command timeout interval fuel w st :
  let after := raise (Exception CommandTimeoutError
                        (MsgTimeout (u "Prompt not detected within ")
                                    timeout command)) in
  let run := _execute_with_prompt self command timeout interval fuel w st in
  (exists e, fst run = Raise e /\ from_gateway e)
  \/ (exists pre st3,
        fst (read_buffer self None true w st) = Ok pre
        /\ n_ticks st3 = S (n_ticks st)
        /\ run = while_before fuel
                   (time_add (monotonic_at w (n_ticks st)) timeout)
                   (_prompt_poll self pre interval) after w st3).
Proof.
  intros after run. subst run. unfold _execute_with_prompt.
  destruct (read_buffer_cases self None true w st) as [(pre & E0) | (e & E0 & He)].
  2:{ left. exists e. erewrite bind_raise by exact E0. now split. }
  erewrite bind_ok by exact E0.
  destruct (send_keys_cases self command w (ran (capture_cmd self true) st))
    as [[A1 E1] | (A1 & e & E1 & He)].
  2:{ left. exists e. erewrite bind_raise by exact E1. now split. }
  erewrite bind_ok by exact E1. erewrite bind_ok by apply monotonic_run.
  right. exists pre. eexists. repeat split.
  - now rewrite E0.
  - reflexivity.
Qed.

(** When the first capture and the send are accepted, [_execute_with_prompt]
    enters its loop with the sanitized capture as [pre_buffer]. *)
Lemma execute_with_prompt_enter self command timeout interval fuel w st pre :
  shows w (n_runs st) (capture_cmd self true) pre ->
  accepted w (1 + n_runs st) (send_cmd self command) ->
  exists st3,
    n_runs st3 = (2 + n_runs st)%nat
    /\ n_ticks st3 = S (n_ticks st)
    /\ _execute_with_prompt self command timeout interval fuel w st
       = while_before fuel (time_add (monotonic_at w (n_ticks st)) timeout)
           (_prompt_poll self pre interval)
           (raise (Exception CommandTimeoutError
                     (MsgTimeout (u "Prompt not detected within ")
                                 timeout command)))
           w st3.
Proof.
  intros Hpre Hsend. unfold _execute_with_prompt.
  erewrite bind_ok by (apply read_buffer_shows; exact Hpre).
  erewrite bind_ok by (apply send_keys_accepted; exact Hsend).
  erewrite bind_ok by apply monotonic_run.
  eexists. split; [| split]. 3: reflexivity. all: reflexivity.
Qed.

End Protocols.

Section Claims.
Context `{Host}.

Lemma skipn_app_exact {A} (l x : list A) : skipn (length l) (l ++ x) = x.
Proof. induction l as [|a l IH]; [reflexivity | exact IH]. Qed.

(** The tmux commands of a marker run: the sends up to the first one the
    gateway refuses, or all three followed by captures only. *)
Lemma markers_issued self command timeout interval fuel w st :
  let uid := hex_digits 12 (uuid4_int w / 16 ^ 20) in
  let sends := [send_cmd self (u "echo '" ++ start_marker_of uid ++ u "'");
                send_cmd self command;
                send_cmd self (u "echo '" ++ end_marker_of uid ++ u "'")] in
  let run := _execute_with_markers self command timeout interval fuel in
  exists m n,
    issued run w st = firstn m sends ++ repeat (capture_cmd self true) n
    /\ (1 <= m <= 3)%nat
    /\ (forall j, (j < m - 1)%nat -> accepted w (j + n_runs st) (nth j sends []))
    /\ ((m = 3%nat /\ accepted w (2 + n_runs st) (nth 2 sends []))
        \/ (n = 0%nat
            /\ ~ accepted w (m - 1 + n_runs st) (nth (m - 1) sends [])
            /\ exists e, fst (run w st) = Raise e /\ from_gateway e)).
Proof.
  intros uid sends run. unfold issued.
  destruct (execute_with_markers_shape self command timeout interval fuel w st)
    as [(m & e & Hm & He & Hc & Hacc & Hrej & Hruns)
       | (st5 & Hacc & Hn & Ht & Hruns & Hrun)];
    fold uid in Hruns, Hacc; fold sends in Hruns, Hacc; fold run in Hruns.
  - fold uid in Hrej. fold sends in Hrej.
    exists (S m), 0%nat. fold run in He. rewrite Hruns, skipn_app_exact.
    simpl repeat. rewrite app_nil_r.
    replace (S m - 1)%nat with m by lia.
    split; [reflexivity |]. split; [lia |]. split; [exact Hacc |].
    right. split; [reflexivity |]. split; [exact Hrej |]. now exists e.
  - fold uid in Hrun. fold run in Hrun. rewrite Hrun.
    destruct (while_before_runs fuel
                (time_add (monotonic_at w (n_ticks st)) timeout)
                (_markers_poll self command (start_marker_of uid)
                   (end_marker_of uid) interval)
                (Exception CommandTimeoutError
                   (MsgTimeout (u "Command did not complete within ")
                               timeout command))
                (capture_cmd self true) w
                (fun s => markers_poll_runs self command _ _ interval w s) st5)
      as [n Hn'].
    exists 3%nat, n. rewrite Hn', Hruns, <- app_assoc, skipn_app_exact.
    split; [reflexivity |]. split; [lia |]. split.
    + intros j Hj. apply Hacc. lia.
    + left. split; [reflexivity |]. apply (Hacc 2%nat). lia.
Qed.

(** C9 (as amended).  A call of [execute_and_wait] with markers enabled
    sends the start-marker echo, the caller's command unchanged and the
    end-marker echo, in that order and each with Enter, up to the first send
    that the gateway refuses: one to three sends, all three when none is
    refused.  After three accepted sends it runs captures of the pane and
    nothing else; at a refused send it stops with the error of the gateway,
    having run no other command. *)
Theorem marker_protocol_sends self command timeout interval_arg fuel w st :
  let uid := hex_digits 12 (uuid4_int w / 16 ^ 20) in
  let sends := [send_cmd self (u "echo '" ++ start_marker_of uid ++ u "'");
                send_cmd self command;
                send_cmd self (u "echo '" ++ end_marker_of uid ++ u "'")] in
  let call := execute_and_wait self command timeout interval_arg true fuel in
  exists m n,
    issued call w st = firstn m sends ++ repeat (capture_cmd self true) n
    /\ (1 <= m <= 3)%nat
    /\ (forall j, (j < m - 1)%nat -> accepted w (j + n_runs st) (nth j sends []))
    /\ ((m = 3%nat /\ accepted w (2 + n_runs st) (nth 2 sends []))
        \/ (n = 0%nat
            /\ ~ accepted w (m - 1 + n_runs st) (nth (m - 1) sends [])
            /\ exists e, fst (call w st) = Raise e /\ from_gateway e)).
Proof.
  intros uid sends call. unfold call, execute_and_wait. apply markers_issued.
Qed.

(** C3 (as amended).  The token of a call is the first 12 digits of the
    32-digit lower-case hexadecimal form of one UUID; the first command of the
    call echoes [__TMUX_BRIDGE_START_<token>__], and the third command, when
    the call gets that far, echoes [__TMUX_BRIDGE_END_<token>__] with the same
    token. *)
Theorem marker_pair_format self command timeout interval_arg fuel w st :
  let tok := slice None (Some 12%Z) (uuid_hex (uuid4_int w)) in
  let cmds :=
    issued (execute_and_wait self command timeout interval_arg true fuel) w st in
  len tok = 12%Z
  /\ forallb is_lower_hex tok = true
  /\ hd_error cmds
     = Some (send_cmd self (u "echo '__TMUX_BRIDGE_START_" ++ tok ++ u "__'"))
  /\ (nth_error cmds 2 = None
      \/ nth_error cmds 2
         = Some (send_cmd self (u "echo '__TMUX_BRIDGE_END_" ++ tok ++ u "__'"))).
Proof.
  intros tok cmds. unfold tok. rewrite uid_of_uuid.
  set (uid := hex_digits 12 (uuid4_int w / 16 ^ 20)).
  assert (Hs : u "echo '" ++ start_marker_of uid ++ u "'"
               = u "echo '__TMUX_BRIDGE_START_" ++ uid ++ u "__'")
    by (unfold start_marker_of; rewrite <- !app_assoc; reflexivity).
  assert (He : u "echo '" ++ end_marker_of uid ++ u "'"
               = u "echo '__TMUX_BRIDGE_END_" ++ uid ++ u "__'")
    by (unfold end_marker_of; rewrite <- !app_assoc; reflexivity).
  split; [| split; [| split]].
  - unfold len, uid. now rewrite hex_digits_length.
  - apply hex_digits_hex.
  - unfold cmds, execute_and_wait.
    destruct (markers_issued self command
                match timeout with Some t => t | None => default_timeout self end
                match interval_arg with Some i => i | None => poll_interval self end
                fuel w st) as (m & n & Hi & Hm & _).
    rewrite Hi. fold uid. rewrite Hs.
    destruct m as [|m]; [lia | reflexivity].
  - unfold cmds, execute_and_wait.
    destruct (markers_issued self command
                match timeout with Some t => t | None => default_timeout self end
                match interval_arg with Some i => i | None => poll_interval self end
                fuel w st) as (m & n & Hi & Hm & _ & Hcase).
    rewrite Hi. fold uid. rewrite He.
    destruct m as [|[|[|[|m]]]]; try lia.
    + left. destruct Hcase as [[Hm3 _] | [-> _]]; [discriminate | reflexivity].
    + left. destruct Hcase as [[Hm3 _] | [-> _]]; [discriminate | reflexivity].
    + right. reflexivity.
Qed.

(** C4.  In either protocol a [CommandTimeoutError] carries the timeout in
    force and the command as given, and it is raised only after a clock
    reading, later than the one the deadline was computed from, that is not
    before the deadline.  Conversely, take a run in which the commands before
    the loop are accepted, each of the [k] first polls reads the pane without
    seeing the completion condition (the two markers in order; the prompt on
    the last new line or on the visible last line), and the clock is not
    before the deadline at the test after them: the call ends in that error,
    and so returns no output, for every loop budget above [k].  What the pane
    shows after the deadline does not matter. *)
Theorem execute_and_wait_timeout self command timeout_arg interval_arg
    (use_markers : bool) w st :
  let timeout :=
    match timeout_arg with Some t => t | None => default_timeout self end in
  let head :=
    if use_markers then u "Command did not complete within "
    else u "Prompt not detected within " in
  let uid := hex_digits 12 (uuid4_int w / 16 ^ 20) in
  let sends := [send_cmd self (u "echo '" ++ start_marker_of uid ++ u "'");
                send_cmd self command;
                send_cmd self (u "echo '" ++ end_marker_of uid ++ u "'")] in
  let deadline := time_add (monotonic_at w (n_ticks st)) timeout in
  let call := execute_and_wait self command timeout_arg interval_arg use_markers in
  (forall fuel e,
      fst (call fuel w st) = Raise e ->
      exn_class e = CommandTimeoutError ->
      exn_args e = MsgTimeout head timeout command
      /\ exists k,
           n_ticks (snd (call fuel w st)) = S k
           /\ (n_ticks st < k)%nat
           /\ time_lt (monotonic_at w k) deadline = false)
  /\ (forall k fuel,
        (k < fuel)%nat ->
        (if use_markers then
           (forall j, (j < 3)%nat -> accepted w (j + n_runs st) (nth j sends []))
           /\ (forall i, (i < k)%nat ->
                 exists buf,
                   shows w (3 + n_runs st + i) (capture_cmd self true) buf
                   /\ between_markers buf (start_marker_of uid) (end_marker_of uid)
                      = None)
         else
           exists pre,
             shows w (n_runs st) (capture_cmd self true) pre
             /\ accepted w (1 + n_runs st) (send_cmd self command)
             /\ (forall i, (i < k)%nat ->
                   exists buf text,
                     shows w (2 + n_runs st + 2 * i) (capture_cmd self true) buf
                     /\ shows w (3 + n_runs st + 2 * i) (capture_cmd self false) text
                     /\ prompt_detected self pre buf (last_line text) = false)) ->
        time_lt (monotonic_at w (S (n_ticks st) + k)) deadline = false ->
        fst (call fuel w st)
        = Raise (Exception CommandTimeoutError (MsgTimeout head timeout command))).
Proof.
  intros timeout head uid sends deadline call.
  set (interval := match interval_arg with Some i => i | None => poll_interval self end).
  split.
  - intros fuel e Hr Hc. unfold call, execute_and_wait in *.
    fold timeout in Hr |- *. fold interval in Hr |- *.
    destruct use_markers.
    + destruct (execute_with_markers_shape self command timeout interval fuel w st)
        as [(m & e0 & _ & He0 & Hc0 & _) | (st5 & _ & _ & Ht & _ & Hrun)].
      * rewrite He0 in Hr. injection Hr as ->. unfold from_gateway in Hc0.
        rewrite Hc in Hc0. contradiction.
      * fold uid deadline in Hrun. rewrite Hrun in Hr |- *.
        destruct (@while_before_raise _ _ _ _ _ _
                    (gateway_only_markers_poll self command (start_marker_of uid)
                       (end_marker_of uid) interval) fuel st5 e Hr Hc)
          as [-> (k & Hk1 & Hk2 & Hk3)].
        split; [reflexivity |]. exists k. repeat split; try assumption. lia.
    + destruct (execute_with_prompt_shape self command timeout interval fuel w st)
        as [(e0 & He0 & Hc0) | (pre & st3 & _ & Ht & Hrun)].
      * rewrite He0 in Hr. injection Hr as ->. unfold from_gateway in Hc0.
        rewrite Hc in Hc0. contradiction.
      * fold deadline in Hrun. rewrite Hrun in Hr |- *.
        destruct (@while_before_raise _ _ _ _ _ _
                    (gateway_only_prompt_poll self pre interval) fuel st3 e Hr Hc)
          as [-> (k & Hk1 & Hk2 & Hk3)].
        split; [reflexivity |]. exists k. repeat split; try assumption. lia.
  - intros k fuel Hk Hobs Hclock. unfold call, execute_and_wait.
    fold timeout interval. destruct use_markers.
    + destruct Hobs as [Hacc Hpolls].
      destruct (execute_with_markers_shape self command timeout interval fuel w st)
        as [(m & e0 & Hm & _ & _ & _ & Hrej & _) | (st5 & _ & Hn & Ht & _ & Hrun)].
      { exfalso. apply Hrej. apply Hacc. exact Hm. }
      fold uid deadline in Hrun. rewrite Hrun.
      apply (@while_before_timeout _ deadline _ _ w
               (fun i s => n_runs s = (3 + n_runs st + i)%nat
                           /\ n_ticks s = (S (n_ticks st) + i)%nat)
               (S (n_ticks st)) k) with (j := k) (i := 0%nat);
        cbv beta; try lia; try assumption.
      intros i s Hi [Hsn Hst].
      destruct (Hpolls i Hi) as (buf & Hshow & Hnone).
      destruct (@markers_poll_none _ self command (start_marker_of uid)
                  (end_marker_of uid) interval w (snd (time_monotonic w s)) buf)
        as (st2 & Hp & Hn2 & Ht2).
      { cbn [time_monotonic snd n_runs]. now rewrite Hsn. }
      { exact Hnone. }
      exists st2. split; [exact Hp |].
      cbn [time_monotonic snd n_runs n_ticks] in Hn2, Ht2. lia.
    + destruct Hobs as (pre & Hpre & Hsend & Hpolls).
      destruct (@execute_with_prompt_enter _ self command timeout interval fuel
                  w st pre Hpre Hsend) as (st3 & Hn & Ht & Hrun).
      fold deadline in Hrun. rewrite Hrun.
      apply (@while_before_timeout _ deadline _ _ w
               (fun i s => n_runs s = (2 + n_runs st + 2 * i)%nat
                           /\ n_ticks s = (S (n_ticks st) + i)%nat)
               (S (n_ticks st)) k) with (j := k) (i := 0%nat);
        cbv beta; try lia; try assumption.
      intros i s Hi [Hsn Hst].
      destruct (Hpolls i Hi) as (buf & text & Hshow & Hvis & Hnone).
      destruct (@prompt_poll_none _ self pre interval w
                  (snd (time_monotonic w s)) buf text)
        as (st2 & Hp & Hn2 & Ht2).
      { cbn [time_monotonic snd n_runs]. now rewrite Hsn. }
      { cbn [time_monotonic snd n_runs]. now rewrite Hsn. }
      { exact Hnone. }
      exists st2. split; [exact Hp |].
      cbn [time_monotonic snd n_runs n_ticks] in Hn2, Ht2. lia.
Qed.

End Claims.

Lemma w_silent_succeeds : gateway_succeeds w_silent.
Proof. intros k cmd. now exists [], []. Qed.

Lemma w_late_early (k : nat) (cmd : list str) :
  (k < 20)%nat -> shows w_late k cmd [].
Proof.
  intros Hk. exists [], []. split; [| reflexivity].
  unfold w_late, world_of. cbn [subprocess_run_at].
  destruct (Nat.ltb_spec k 20); [reflexivity | lia].
Defined.

Lemma execute_and_wait_timeout_witness :
  fst (execute_and_wait ctl (u "sleep 60") None None true 10 w_late st0)
  = Raise (Exception CommandTimeoutError
             (MsgTimeout (u "Command did not complete within ") 1000%Z
                         (u "sleep 60")))
  /\ fst (execute_and_wait ctl (u "sleep 60") None None false 10 w_late st0)
     = Raise (Exception CommandTimeoutError
                (MsgTimeout (u "Prompt not detected within ") 1000%Z
                            (u "sleep 60")))
  /\ (exists out,
        between_markers
          (strip_ansi match subprocess_run_at w_late 20 (capture_cmd ctl true) with
                      | CompletedProcess _ raw _ => raw
                      | _ => []
                      end)
          (start_marker_of (u "ab12cd34ef56")) (end_marker_of (u "ab12cd34ef56"))
        = Some out)
  /\ exists k,
       n_ticks (snd (execute_and_wait ctl (u "sleep 60") None None true 10
                       w_late st0)) = S k
       /\ (0 < k)%nat
       /\ (monotonic_at w_late k <? 0 + 1000)%Z = false.
Proof.
  assert (Hm : fst (execute_and_wait ctl (u "sleep 60") None None true 10 w_late st0)
               = Raise (Exception CommandTimeoutError
                          (MsgTimeout (u "Command did not complete within ") 1000%Z
                                      (u "sleep 60")))).
  { apply (proj2 (@execute_and_wait_timeout _ ctl (u "sleep 60") None None true
                    w_late st0) 9%nat 10%nat).
    - lia.
    - split.
      + intros j Hj.
        destruct (@w_late_early (j + 0)
                    (nth j [send_cmd ctl (u "echo '" ++ start_marker_of
                                            (hex_digits 12 (uuid4_int w_late / 16 ^ 20))
                                          ++ u "'");
                            send_cmd ctl (u "sleep 60");
                            send_cmd ctl (u "echo '" ++ end_marker_of
                                            (hex_digits 12 (uuid4_int w_late / 16 ^ 20))
                                          ++ u "'")] [])
                    ltac:(lia)) as (raw & err & Hr & _).
        now exists raw, err.
      + intros i Hi. exists []. split.
        * apply w_late_early. cbn [n_runs st0]. lia.
        * reflexivity.
    - reflexivity. }
  split; [exact Hm |]. split; [| split].
  - apply (proj2 (@execute_and_wait_timeout _ ctl (u "sleep 60") None None false
                    w_late st0) 9%nat 10%nat).
    + lia.
    + exists []. split; [apply w_late_early; cbn [n_runs st0]; lia |]. split.
      * destruct (@w_late_early 1 (send_cmd ctl (u "sleep 60")) ltac:(lia))
          as (raw & err & Hr & _).
        now exists raw, err.
      * intros i Hi. exists [], [].
        split; [apply w_late_early; cbn [n_runs st0]; lia |].
        split; [apply w_late_early; cbn [n_runs st0]; lia | reflexivity].
    + reflexivity.
  - eexists. vm_compute. reflexivity.
  - destruct (proj1 (@execute_and_wait_timeout _ ctl (u "sleep 60") None None true
                       w_late st0) 10%nat _ Hm eq_refl) as [_ Hk].
    exact Hk.
Defined.

Lemma marker_protocol_sends_witness :
  exists n,
    issued (execute_and_wait ctl (u "ls") None None true 10) w_dies st0
    = [send_cmd ctl (u "echo '" ++ start_marker_of (u "ab12cd34ef56") ++ u "'");
       send_cmd ctl (u "ls")]
      ++ repeat (capture_cmd ctl true) n.
Proof.
  destruct (@marker_protocol_sends _ ctl (u "ls") None None 10 w_dies st0)
    as (m & n & Hi & Hm & Hacc & Hcase).
  exists n. rewrite Hi.
  destruct m as [|[|[|[|m]]]]; try lia.
  - exfalso. destruct Hcase as [[E _] | (_ & Hrej & _)]; [discriminate E |].
    apply Hrej. now exists [], [].
  - reflexivity.
  - exfalso. destruct (Hacc 1%nat ltac:(lia)) as (out & err & E).
    vm_compute in E. discriminate E.
Defined.

(** C9 (as stated) fails: on a server that is gone after the first send, the
    call issues two key-sends, not three; the end-marker echo is never
    sent. *)
Lemma marker_protocol_two_sends :
  issued (execute_and_wait ctl (u "ls") None None true 10) w_dies st0
  = [send_cmd ctl (u "echo '__TMUX_BRIDGE_START_ab12cd34ef56__'");
     send_cmd ctl (u "ls")]
  /\ length (issued (execute_and_wait ctl (u "ls") None None true 10) w_dies st0)
     <> 3%nat.
Proof. split; [reflexivity | vm_compute; discriminate]. Qed.

(** C3 (as stated) fails: the markers start with [__TMUX_BRIDGE_], not with
    [__BRIDGE_]. *)
Lemma marker_pair_not_bridge_prefix :
  slice None (Some 12%Z) (uuid_hex (uuid4_int w_silent)) = u "ab12cd34ef56"
  /\ hd_error (issued (execute_and_wait ctl (u "ls") None None true 10) w_silent st0)
     <> Some (send_cmd ctl (u "echo '__BRIDGE_START_ab12cd34ef56__'"))
  /\ nth_error (issued (execute_and_wait ctl (u "ls") None None true 10) w_silent st0) 2
     <> Some (send_cmd ctl (u "echo '__BRIDGE_END_ab12cd34ef56__'"))
  /\ start_marker_of (u "ab12cd34ef56") <> u "__BRIDGE_START_ab12cd34ef56__"
  /\ end_marker_of (u "ab12cd34ef56") <> u "__BRIDGE_END_ab12cd34ef56__".
Proof.
  split; [reflexivity |]. repeat split; vm_compute; discriminate.
Qed.

(** ** Trimming *)

Lemma str_eqb_eq (a b : str) : str_eqb a b = true <-> a = b.
Proof.
  revert b; induction a as [|x a IH]; intros [|y b]; simpl;
    try (split; [discriminate | discriminate]); try tauto.
  rewrite andb_true_iff, N.eqb_eq, IH. split.
  - now intros [-> ->].
  - intros [= -> ->]. now split.
Qed.

Lemma dropwhile_suffix p (s : str) : exists a, s = a ++ dropwhile p s.
Proof.
  induction s as [|c s [a Ha]]; [now exists [] |]. simpl.
  destruct (p c).
  - exists (c :: a). simpl. now rewrite <- Ha.
  - now exists [].
Qed.

Lemma dropwhile_app_stop p (l : str) c r :
  p c = false -> dropwhile p (l ++ c :: r) = dropwhile p l ++ c :: r.
Proof.
  intros Hc. induction l as [|d l IH]; simpl.
  - now rewrite Hc.
  - destruct (p d); [exact IH | reflexivity].
Qed.

Lemma dropwhile_all p (l : str) : forallb p l = true -> dropwhile p l = [].
Proof.
  induction l as [|c l IH]; [reflexivity |]. simpl.
  destruct (p c); [exact IH | discriminate].
Qed.

Lemma rstrip_prefix (s : str) : exists b, s = rstrip s ++ b.
Proof.
  unfold rstrip. destruct (dropwhile_suffix isspace (rev s)) as [a Ha].
  exists (rev a). rewrite <- rev_app_distr, <- Ha. now rewrite rev_involutive.
Qed.

Lemma strip_inside (s : str) : exists a b, s = a ++ strip s ++ b.
Proof.
  unfold strip, lstrip. destruct (dropwhile_suffix isspace s) as [a Ha].
  destruct (rstrip_prefix (dropwhile isspace s)) as [b Hb].
  exists a, b. now rewrite <- Hb.
Qed.

Lemma rstrip_app_clean (pre l : str) :
  ends_clean l = true -> rstrip (pre ++ l) = pre ++ l.
Proof.
  unfold ends_clean, starts_clean, rstrip. intros Hl.
  rewrite rev_app_distr. destruct (rev l) as [|c r] eqn:E; [discriminate |].
  simpl. apply negb_true_iff in Hl. rewrite Hl.
  change (c :: r ++ rev pre) with ((c :: r) ++ rev pre).
  now rewrite <- E, <- rev_app_distr, rev_involutive.
Qed.

Lemma rstrip_cons_clean c (t : str) :
  isspace c = false -> rstrip (c :: t) = c :: rstrip t.
Proof.
  intros Hc. unfold rstrip. simpl rev.
  rewrite (dropwhile_app_stop isspace (rev t) c [] Hc).
  rewrite rev_app_distr. reflexivity.
Qed.

Lemma dropwhile_snoc_all p (l : str) c :
  dropwhile p l = [] -> p c = true -> dropwhile p (l ++ [c]) = [].
Proof.
  intros E Hc. induction l as [|x l IH]; simpl in *.
  - now rewrite Hc.
  - destruct (p x); [now apply IH | discriminate].
Qed.

Lemma dropwhile_snoc_some p (l : str) c d r :
  dropwhile p l = d :: r -> dropwhile p (l ++ [c]) = (d :: r) ++ [c].
Proof.
  intros E. induction l as [|x l IH]; simpl in *; [discriminate |].
  destruct (p x); [now apply IH |]. injection E as <- <-. reflexivity.
Qed.

Lemma rstrip_cons_space c (t : str) :
  isspace c = true ->
  rstrip (c :: t) = match rstrip t with [] => [] | r => c :: r end.
Proof.
  intros Hc. unfold rstrip. simpl rev.
  destruct (dropwhile isspace (rev t)) as [|d r] eqn:E.
  - now rewrite (dropwhile_snoc_all isspace (rev t) c E Hc).
  - rewrite (dropwhile_snoc_some isspace (rev t) c E), rev_app_distr.
    change (rev [c]) with [c].
    destruct (rev (d :: r)) as [|y ys] eqn:E2; [| reflexivity].
    apply (f_equal (@length char)) in E2. rewrite length_rev in E2. discriminate.
Qed.

(** Trimming on the left and on the right commute. *)
Lemma lstrip_rstrip (s : str) : lstrip (rstrip s) = rstrip (lstrip s).
Proof.
  unfold lstrip. induction s as [|c s IH]; [reflexivity |].
  destruct (isspace c) eqn:Hc.
  - rewrite (@rstrip_cons_space c s Hc).
    change (dropwhile isspace (c :: s))
      with (if isspace c then dropwhile isspace s else c :: s).
    rewrite Hc, <- IH.
    destruct (rstrip s) as [|d r]; [reflexivity |].
    change (dropwhile isspace (c :: d :: r))
      with (if isspace c then dropwhile isspace (d :: r) else c :: d :: r).
    now rewrite Hc.
  - rewrite (@rstrip_cons_clean c s Hc).
    change (dropwhile isspace (c :: s))
      with (if isspace c then dropwhile isspace s else c :: s).
    change (dropwhile isspace (c :: rstrip s))
      with (if isspace c then dropwhile isspace (rstrip s) else c :: rstrip s).
    rewrite Hc. symmetry. apply (@rstrip_cons_clean c s Hc).
Qed.

Lemma strip_clean (s : str) :
  starts_clean s = true -> ends_clean s = true -> strip s = s.
Proof.
  intros Hs He. unfold strip, lstrip. destruct s as [|c s]; [discriminate |].
  simpl in Hs. apply negb_true_iff in Hs. simpl. rewrite Hs.
  apply (rstrip_app_clean [] (c :: s) He).
Qed.

Lemma strip_drop_spaces (ws t : str) :
  forallb isspace ws = true -> strip (ws ++ t) = strip t.
Proof.
  intros Hw. unfold strip, lstrip. f_equal.
  induction ws as [|c ws IH]; [reflexivity |]. simpl in *.
  apply andb_true_iff in Hw as [Hc Hw]. rewrite Hc. now apply IH.
Qed.

Lemma prompt_char_not_space c : is_prompt_char c = true -> isspace c = false.
Proof.
  unfold is_prompt_char, mem, existsb.
  destruct (N.eqb_spec c 36) as [-> |]; [reflexivity |].
  destruct (N.eqb_spec c 35) as [-> |]; [reflexivity |].
  destruct (N.eqb_spec c 62) as [-> |]; [reflexivity | discriminate].
Qed.

(** A line that starts with a prompt character compares as its remainder,
    trimmed. *)
Lemma prompt_prefix_sub_strip c (t : str) :
  is_prompt_char c = true -> prompt_prefix_sub (strip (c :: t)) = strip t.
Proof.
  intros Hc. pose proof (prompt_char_not_space c Hc) as Hs.
  unfold strip at 1, lstrip. simpl dropwhile. rewrite Hs.
  rewrite (@rstrip_cons_clean c t Hs). simpl. rewrite Hc.
  apply (lstrip_rstrip t).
Qed.

(** What is compared for a line [p ++ t] with a prompt [p]. *)
Lemma prompt_line_key (p t : str) :
  is_prompt_prefix p = true ->
  (p = [] -> match strip t with c :: _ => is_prompt_char c = false | [] => True end) ->
  prompt_prefix_sub (strip (p ++ t)) = strip t.
Proof.
  intros Hp Ht. destruct p as [|c [|s [|x p]]]; simpl in Hp; try discriminate.
  - simpl. specialize (Ht eq_refl). unfold prompt_prefix_sub.
    destruct (strip t) as [|d r]; [reflexivity |]. now rewrite Ht.
  - now apply prompt_prefix_sub_strip.
  - apply andb_true_iff in Hp as [Hc Hs]. apply N.eqb_eq in Hs. subst s.
    simpl app. rewrite (@prompt_prefix_sub_strip c (SPACE :: t) Hc).
    apply (strip_drop_spaces [SPACE] t). reflexivity.
Qed.

(** ** Lines *)

Lemma splitlines_from_line (l : str) : forall cur s,
  one_line l = true ->
  splitlines_from cur (l ++ s) = splitlines_from (rev l ++ cur) s.
Proof.
  induction l as [|c l IH]; intros cur s Hl; [reflexivity |].
  simpl in Hl. apply andb_true_iff in Hl as [Hc Hl]. apply negb_true_iff in Hc.
  change (splitlines_from cur ((c :: l) ++ s))
    with (if is_linebreak c
          then rev cur ::
               (if N.eqb c CR then
                  match l ++ s with
                  | c' :: rest' =>
                      if N.eqb c' LF then splitlines_from [] rest'
                      else splitlines_from [] (l ++ s)
                  | [] => splitlines_from [] (l ++ s)
                  end
                else splitlines_from [] (l ++ s))
          else splitlines_from (c :: cur) (l ++ s)).
  rewrite Hc, IH by assumption. simpl rev. now rewrite <- app_assoc.
Qed.

Lemma splitlines_join (lines : list str) :
  forallb one_line lines = true -> last lines [] <> [] ->
  splitlines (join [LF] lines) = lines.
Proof.
  unfold splitlines. induction lines as [|l lines IH]; intros Hone Hlast.
  - now contradiction Hlast.
  - simpl in Hone. apply andb_true_iff in Hone as [Hl Hone].
    destruct lines as [|l2 rest].
    + simpl in Hlast. simpl join. rewrite <- (app_nil_r l) at 1.
      rewrite splitlines_from_line by assumption. rewrite app_nil_r.
      simpl. destruct (rev l) as [|c r] eqn:E.
      * apply (f_equal (@rev char)) in E. rewrite rev_involutive in E.
        now contradiction Hlast.
      * now rewrite <- E, rev_involutive.
    + change (join [LF] (l :: l2 :: rest))
        with (l ++ [LF] ++ join [LF] (l2 :: rest)).
      rewrite splitlines_from_line by assumption. rewrite app_nil_r.
      change (splitlines_from (rev l) ([LF] ++ join [LF] (l2 :: rest)))
        with (rev (rev l) :: splitlines_from [] (join [LF] (l2 :: rest))).
      rewrite rev_involutive, IH; [reflexivity | assumption | exact Hlast].
Qed.

Lemma one_line_app (a b : str) :
  one_line (a ++ b) = one_line a && one_line b.
Proof. apply forallb_app. Qed.

Lemma one_line_prompt (p : str) : is_prompt_prefix p = true -> one_line p = true.
Proof.
  destruct p as [|c [|s [|x p]]]; simpl; try discriminate; try reflexivity.
  - unfold is_prompt_char, mem, existsb.
    destruct (N.eqb_spec c 36) as [-> |]; [reflexivity |].
    destruct (N.eqb_spec c 35) as [-> |]; [reflexivity |].
    destruct (N.eqb_spec c 62) as [-> |]; [reflexivity | discriminate].
  - intros Hp. apply andb_true_iff in Hp as [Hc Hs]. apply N.eqb_eq in Hs. subst s.
    revert Hc. unfold is_prompt_char, mem, existsb.
    destruct (N.eqb_spec c 36) as [-> |]; [reflexivity |].
    destruct (N.eqb_spec c 35) as [-> |]; [reflexivity |].
    destruct (N.eqb_spec c 62) as [-> |]; [reflexivity | discriminate].
Qed.

(** ** Which lines the cleaning keeps *)

Lemma prompt_prefix_sub_suffix (s : str) : exists a, s = a ++ prompt_prefix_sub s.
Proof.
  destruct s as [|c rest]; [now exists [] |]. simpl.
  destruct (is_prompt_char c); [| now exists []].
  destruct (dropwhile_suffix isspace rest) as [a Ha].
  exists (c :: a). simpl. now rewrite <- Ha.
Qed.

Lemma contains_strip_back (l m : str) :
  contains (strip l) m = true -> contains l m = true.
Proof.
  rewrite !contains_spec. intros (p & q & Hpq).
  destruct (strip_inside l) as (a & b & Hl).
  exists (a ++ p), (q ++ b). rewrite Hl at 1. rewrite Hpq.
  now rewrite <- !app_assoc.
Qed.

Lemma echo_marker_contains (l : str) :
  startswith (prompt_prefix_sub (strip l)) (u "echo '__TMUX_BRIDGE_") = true ->
  contains l (u "__TMUX_BRIDGE_") = true.
Proof.
  intros Hs. apply startswith_spec in Hs as [q Hq].
  apply contains_strip_back. apply contains_spec.
  destruct (prompt_prefix_sub_suffix (strip l)) as [a Ha].
  exists (a ++ u "echo '"), q. rewrite Ha at 1. rewrite Hq.
  rewrite <- !app_assoc. reflexivity.
Qed.

(** Trimming keeps an occurrence of a text that starts and ends with
    characters other than whitespace. *)
Lemma contains_strip (l m : str) :
  starts_clean m = true -> ends_clean m = true ->
  contains l m = true -> contains (strip l) m = true.
Proof.
  intros Hs He. rewrite !contains_spec. intros (p & q & ->).
  destruct m as [|c m']; [discriminate |]. simpl in Hs.
  apply negb_true_iff in Hs.
  unfold strip, lstrip.
  change (p ++ (c :: m') ++ q) with (p ++ c :: (m' ++ q)).
  rewrite (dropwhile_app_stop isspace p c (m' ++ q) Hs).
  set (p1 := dropwhile isspace p).
  unfold ends_clean, starts_clean in He.
  destruct (rev (c :: m')) as [|d rm] eqn:E; [discriminate |].
  apply negb_true_iff in He.
  unfold rstrip.
  replace (rev (p1 ++ c :: m' ++ q)) with (rev q ++ d :: (rm ++ rev p1)).
  - rewrite (dropwhile_app_stop isspace (rev q) d (rm ++ rev p1) He).
    exists p1, (rev (dropwhile isspace (rev q))).
    rewrite rev_app_distr, (app_assoc p1 (c :: m')). f_equal.
    change (d :: rm ++ rev p1) with ((d :: rm) ++ rev p1).
    rewrite <- E, <- rev_app_distr, rev_involutive. reflexivity.
  - change (p1 ++ c :: m' ++ q) with (p1 ++ (c :: m') ++ q).
    rewrite !rev_app_distr, E, <- app_assoc. reflexivity.
Qed.

Lemma keep_line_marker (k line : str) :
  contains line (u "__TMUX_BRIDGE_") = true -> keep_line k line = false.
Proof.
  intros Hc. unfold keep_line.
  destruct (startswith _ (u "echo '__TMUX_BRIDGE_")); [reflexivity |].
  destruct (str_eqb _ k); [reflexivity |].
  rewrite (contains_strip line (u "__TMUX_BRIDGE_")); auto.
Qed.

Lemma keep_line_echo (k p y : str) :
  keep_line k (p ++ u "echo '__TMUX_BRIDGE_" ++ y) = false.
Proof.
  apply keep_line_marker. apply contains_spec.
  exists (p ++ u "echo '"), y. rewrite <- !app_assoc. reflexivity.
Qed.

Lemma keep_line_command (p command : str) :
  is_prompt_prefix p = true ->
  (p = [] -> starts_with_prompt (strip command) = false) ->
  keep_line (strip command) (p ++ command) = false.
Proof.
  intros Hp Hc. unfold keep_line. rewrite prompt_line_key; [| assumption |].
  - destruct (startswith _ _); [reflexivity |].
    now rewrite (proj2 (str_eqb_eq (strip command) (strip command)) eq_refl).
  - intros E. specialize (Hc E). unfold starts_with_prompt in Hc.
    now destruct (strip command).
Qed.

Lemma keep_line_genuine (command line : str) :
  genuine command line = true -> keep_line (strip command) line = true.
Proof.
  unfold genuine. rewrite !andb_true_iff, !negb_true_iff.
  intros [[_ Hm] Hk]. unfold keep_line.
  destruct (startswith _ (u "echo '__TMUX_BRIDGE_")) eqn:Hs.
  - apply echo_marker_contains in Hs. congruence.
  - rewrite Hk.
    destruct (contains (strip line) (u "__TMUX_BRIDGE_")) eqn:Hc; [| reflexivity].
    apply contains_strip_back in Hc. congruence.
Qed.

Lemma filter_all {A} (f : A -> bool) (l : list A) :
  forallb f l = true -> filter f l = l.
Proof.
  induction l as [|a l IH]; [reflexivity |]. simpl.
  intros Hf. apply andb_true_iff in Hf as [Ha Hl]. now rewrite Ha, IH.
Qed.

Lemma join_last (sep : str) (parts : list str) :
  parts <> [] -> exists pre, join sep parts = pre ++ last parts [].
Proof.
  induction parts as [|p parts IH]; [congruence |]. intros _.
  destruct parts as [|p2 rest]; [now exists [] |].
  destruct IH as [pre Hpre]; [discriminate |].
  exists (p ++ sep ++ pre).
  change (join sep (p :: p2 :: rest)) with (p ++ sep ++ join sep (p2 :: rest)).
  rewrite Hpre. now rewrite <- !app_assoc.
Qed.


Lemma join_bounds (sep : str) (parts : list str) :
  starts_clean (hd [] parts) = true -> ends_clean (last parts []) = true ->
  starts_clean (join sep parts) = true /\ ends_clean (join sep parts) = true.
Proof.
  intros Hs He. split.
  - destruct parts as [|p [|p2 rest]]; try exact Hs.
    change (join sep (p :: p2 :: rest)) with (p ++ sep ++ join sep (p2 :: rest)).
    simpl in Hs. destruct p; [discriminate | exact Hs].
  - destruct (join_last sep (parts := parts)) as [pre Hpre].
    { intros ->. discriminate. }
    rewrite Hpre. unfold ends_clean in *. rewrite rev_app_distr.
    destruct (rev (last parts [])); [discriminate | exact He].
Qed.

(** ** Blank lines around a text *)

Lemma dropwhile_head p (s : str) :
  match dropwhile p s with c :: _ => p c = false | [] => True end.
Proof.
  induction s as [|c s IH]; [exact I |]. simpl.
  destruct (p c) eqn:Hc; [exact IH | exact Hc].
Qed.

Lemma dropwhile_app_all p (l : str) c r :
  forallb p l = true -> p c = false -> dropwhile p (l ++ c :: r) = c :: r.
Proof.
  intros Hl Hc. induction l as [|d l IH]; simpl in *; [now rewrite Hc |].
  apply andb_true_iff in Hl as [Hd Hl]. rewrite Hd. now apply IH.
Qed.

Lemma dropwhile_split p (s : str) :
  exists a, s = a ++ dropwhile p s /\ forallb p a = true.
Proof.
  induction s as [|c s (a & Ha & Hp)]; [now exists [] |]. simpl.
  destruct (p c) eqn:Hc.
  - exists (c :: a). simpl. rewrite Hc, Hp. now rewrite <- Ha.
  - now exists [].
Qed.

Lemma forallb_rev {A} (f : A -> bool) (l : list A) :
  forallb f (rev l) = forallb f l.
Proof.
  induction l as [|a l IH]; [reflexivity |]. simpl.
  rewrite forallb_app, IH. simpl. rewrite andb_true_r. apply andb_comm.
Qed.

Lemma strip_trimmed (s : str) :
  strip s = [] \/ (starts_clean (strip s) = true /\ ends_clean (strip s) = true).
Proof.
  destruct (strip s) as [|c r] eqn:E; [now left |]. right. rewrite <- E. split.
  - unfold strip in *. rewrite <- lstrip_rstrip in *. unfold lstrip in *.
    pose proof (dropwhile_head isspace (rstrip s)) as Hh.
    rewrite E in Hh |- *. simpl. now rewrite Hh.
  - unfold strip, rstrip in *. unfold ends_clean. rewrite rev_involutive.
    pose proof (dropwhile_head isspace (rev (lstrip s))) as Hh.
    destruct (dropwhile isspace (rev (lstrip s))) as [|d t]; [discriminate E |].
    simpl. now rewrite Hh.
Qed.

(** Trimming removes whitespace and nothing else. *)
Lemma strip_split (s : str) :
  exists a b,
    s = a ++ strip s ++ b
    /\ forallb isspace a = true /\ forallb isspace b = true.
Proof.
  unfold strip, lstrip, rstrip.
  destruct (dropwhile_split isspace s) as (a & Ha & Hpa).
  destruct (dropwhile_split isspace (rev (dropwhile isspace s))) as (b & Hb & Hpb).
  exists a, (rev b). repeat split; [| exact Hpa | now rewrite forallb_rev].
  rewrite <- rev_app_distr, <- Hb, rev_involutive. exact Ha.
Qed.

(** A text between two runs of whitespace is what trimming leaves, when it
    is empty or begins and ends with something else than whitespace. *)
Lemma strip_spaces_around (ws1 t ws2 : str) :
  forallb isspace ws1 = true -> forallb isspace ws2 = true ->
  t = [] \/ (starts_clean t = true /\ ends_clean t = true) ->
  strip (ws1 ++ t ++ ws2) = t.
Proof.
  intros H1 H2 Ht. rewrite strip_drop_spaces by exact H1.
  destruct Ht as [-> | [Hs He]].
  - simpl. unfold strip, lstrip. now rewrite dropwhile_all.
  - unfold strip, lstrip.
    assert (Hl : dropwhile isspace (t ++ ws2) = t ++ ws2).
    { destruct t as [|c t']; [discriminate |]. simpl in Hs |- *.
      apply negb_true_iff in Hs. now rewrite Hs. }
    rewrite Hl. unfold rstrip. rewrite rev_app_distr.
    unfold ends_clean, starts_clean in He.
    destruct (rev t) as [|d r] eqn:E; [discriminate |].
    apply negb_true_iff in He.
    rewrite dropwhile_app_all; [| now rewrite forallb_rev | exact He].
    now rewrite <- E, rev_involutive.
Qed.

Lemma join_blank (ls : list str) :
  forallb blank ls = true -> forallb isspace (join [LF] ls) = true.
Proof.
  induction ls as [|l ls IH]; [reflexivity |]. intros Hb.
  simpl in Hb. apply andb_true_iff in Hb as [Hl Hls].
  destruct ls as [|l2 rest]; [exact Hl |].
  change (join [LF] (l :: l2 :: rest)) with (l ++ [LF] ++ join [LF] (l2 :: rest)).
  rewrite !forallb_app. unfold blank in Hl. rewrite Hl, (IH Hls). reflexivity.
Qed.

Lemma join_blank_before (lead rest : list str) :
  forallb blank lead = true ->
  exists ws,
    forallb isspace ws = true
    /\ join [LF] (lead ++ rest) = ws ++ join [LF] rest.
Proof.
  induction lead as [|l lead IH]; intros Hb; [now exists [] |].
  simpl in Hb. apply andb_true_iff in Hb as [Hl Hls].
  destruct (IH Hls) as (ws & Hws & Hj).
  destruct (lead ++ rest) as [|x xs] eqn:E.
  - apply app_eq_nil in E as [-> ->]. exists l. split; [exact Hl |].
    simpl. now rewrite app_nil_r.
  - exists (l ++ [LF] ++ ws). split.
    + rewrite !forallb_app. unfold blank in Hl. now rewrite Hl, Hws.
    + change ((l :: lead) ++ rest) with (l :: (lead ++ rest)). rewrite E.
      change (join [LF] (l :: x :: xs)) with (l ++ [LF] ++ join [LF] (x :: xs)).
      rewrite Hj. now rewrite <- !app_assoc.
Qed.

Lemma join_blank_after (core trail : list str) :
  forallb blank trail = true ->
  exists ws,
    forallb isspace ws = true
    /\ join [LF] (core ++ trail) = join [LF] core ++ ws.
Proof.
  intros Hb. induction core as [|c core (ws & Hws & Hj)].
  - exists (join [LF] trail). split; [now apply join_blank | reflexivity].
  - destruct core as [|c2 core'].
    + destruct trail as [|t trail'].
      * exists []. split; [reflexivity |]. simpl. now rewrite app_nil_r.
      * exists ([LF] ++ ws). split; [exact Hws |].
        change (([c] ++ t :: trail')) with (c :: t :: trail').
        change (join [LF] (c :: t :: trail'))
          with (c ++ [LF] ++ join [LF] ([] ++ t :: trail')).
        now rewrite Hj.
    + exists ws. split; [exact Hws |].
      change (join [LF] ((c :: c2 :: core') ++ trail))
        with (c ++ [LF] ++ join [LF] ((c2 :: core') ++ trail)).
      rewrite Hj.
      change (join [LF] (c :: c2 :: core'))
        with (c ++ [LF] ++ join [LF] (c2 :: core')).
      now rewrite <- !app_assoc.
Qed.

(** C2 (as amended).  A raw block made of an echoed marker-echo line for
    [__TMUX_BRIDGE_START_..], the echoed command, genuine output lines and an
    echoed marker-echo line for [__TMUX_BRIDGE_END_..], each echo with or
    without a prompt in front, is cleaned to the genuine lines, in order,
    joined by line feeds, with no blank lines before or after them: the
    blank genuine lines at either end are left out, and what remains is
    returned as it is when its first line does not begin and its last line
    does not end with whitespace.  Whatever the genuine lines, the result is
    their join with whitespace removed at both ends and nowhere else; and no
    line that holds [__TMUX_BRIDGE_] survives the cleaning of any raw text. *)
Theorem clean_marker_output_block
    (p1 p2 p3 x1 x3 command : str) (outs : list str) :
  is_prompt_prefix p1 = true -> is_prompt_prefix p2 = true ->
  is_prompt_prefix p3 = true ->
  one_line x1 = true -> one_line x3 = true -> one_line command = true ->
  (p2 = [] -> starts_with_prompt (strip command) = false) ->
  forallb (genuine command) outs = true ->
  let out :=
    _clean_marker_output
      (join [LF]
         ([p1 ++ u "echo '__TMUX_BRIDGE_START_" ++ x1 ++ u "__'"; p2 ++ command]
          ++ outs
          ++ [p3 ++ u "echo '__TMUX_BRIDGE_END_" ++ x3 ++ u "__'"]))
      command in
  (forall lead core trail,
      outs = lead ++ core ++ trail ->
      forallb blank lead = true -> forallb blank trail = true ->
      core = []
      \/ (starts_clean (hd [] core) = true /\ ends_clean (last core []) = true) ->
      out = join [LF] core)
  /\ (exists a b,
        join [LF] outs = a ++ out ++ b
        /\ forallb isspace a = true /\ forallb isspace b = true
        /\ (out = [] \/ (starts_clean out = true /\ ends_clean out = true)))
  /\ forall raw cmd line,
       In line (filter (keep_line (strip cmd)) (splitlines raw)) ->
       contains line (u "__TMUX_BRIDGE_") = false.
Proof.
  intros Hp1 Hp2 Hp3 Hx1 Hx3 Hcmd Hhead Hgen out.
  assert (Hout : out = strip (join [LF] outs)).
  { unfold out, _clean_marker_output.
    set (l1 := p1 ++ u "echo '__TMUX_BRIDGE_START_" ++ x1 ++ u "__'").
    set (l3 := p3 ++ u "echo '__TMUX_BRIDGE_END_" ++ x3 ++ u "__'").
    assert (Hk1 : keep_line (strip command) l1 = false)
      by apply (keep_line_echo (strip command) p1 (u "START_" ++ x1 ++ u "__'")).
    assert (Hk3 : keep_line (strip command) l3 = false)
      by apply (keep_line_echo (strip command) p3 (u "END_" ++ x3 ++ u "__'")).
    assert (Hk2 : keep_line (strip command) (p2 ++ command) = false)
      by now apply keep_line_command.
    assert (Hko : forallb (keep_line (strip command)) outs = true).
    { apply forallb_forall. intros l Hl. apply keep_line_genuine.
      now apply (proj1 (forallb_forall _ _) Hgen). }
    assert (Hoo : forallb one_line outs = true).
    { apply forallb_forall. intros l Hl.
      apply (proj1 (forallb_forall _ _) Hgen) in Hl. unfold genuine in Hl.
      now apply andb_true_iff in Hl as [Hl _]; apply andb_true_iff in Hl as [Hl _]. }
    rewrite splitlines_join.
    + rewrite !filter_app. simpl filter. rewrite Hk1, Hk2, Hk3.
      rewrite (filter_all _ _ Hko). simpl. now rewrite app_nil_r.
    + rewrite !forallb_app. simpl forallb. rewrite Hoo. unfold l1, l3.
      rewrite !one_line_app, Hx1, Hx3, Hcmd.
      now rewrite (one_line_prompt _ Hp1), (one_line_prompt _ Hp2),
        (one_line_prompt _ Hp3).
    + rewrite app_assoc, last_last. unfold l3. intros E.
      apply app_eq_nil in E as [_ E]. discriminate E. }
  clearbody out. subst out. split; [| split].
  - intros lead core trail -> Hlead Htrail Hcore.
    destruct (join_blank_before lead (core ++ trail) Hlead) as (ws1 & Hws1 & ->).
    destruct (join_blank_after core trail Htrail) as (ws2 & Hws2 & ->).
    apply strip_spaces_around; try assumption.
    destruct Hcore as [-> | [Hs He]]; [now left | right].
    now apply join_bounds.
  - destruct (strip_split (join [LF] outs)) as (a & b & Hab & Ha & Hb).
    exists a, b. repeat split; try assumption. apply strip_trimmed.
  - intros raw cmd line Hin. apply filter_In in Hin as [_ Hk].
    destruct (contains line (u "__TMUX_BRIDGE_")) eqn:Hc; [| reflexivity].
    rewrite (keep_line_marker (strip cmd) line Hc) in Hk. discriminate.
Qed.

Lemma clean_marker_output_block_witness :
  _clean_marker_output
    (join [LF]
       [u "$ echo '__TMUX_BRIDGE_START_ab12cd34ef56__'"; u "$ ls -1";
        []; u "notes.txt"; []; u "src"; u "  ";
        u "echo '__TMUX_BRIDGE_END_ab12cd34ef56__'"])
    (u "ls -1")
  = join [LF] [u "notes.txt"; []; u "src"].
Proof.
  apply (proj1 (@clean_marker_output_block (u "$ ") (u "$ ") []
                  (u "ab12cd34ef56") (u "ab12cd34ef56") (u "ls -1")
                  [[]; u "notes.txt"; []; u "src"; u "  "]
                  eq_refl eq_refl eq_refl eq_refl eq_refl eq_refl
                  ltac:(discriminate) eq_refl)
           [[]] [u "notes.txt"; []; u "src"] [u "  "]
           eq_refl eq_refl eq_refl (or_intror (conj eq_refl eq_refl))).
Defined.

(** C2 (as stated) fails.  A block written with the markers of the claim,
    [__BRIDGE_..], is not reduced to its genuine line: both echo lines stay.
    A line that holds [__BRIDGE_] is kept.  With the markers of the code, a
    genuine output line that reads like the command is dropped, the
    indentation of the first genuine line is lost, and the echo of a command
    that begins with [$] and has no prompt in front is kept. *)
Lemma clean_marker_output_not_exact :
  _clean_marker_output
    (join [LF] [u "$ echo '__BRIDGE_START_ab12__'"; u "$ echo hello"; u "hello";
                u "$ echo '__BRIDGE_END_ab12__'"])
    (u "echo hello")
  <> u "hello"
  /\ _clean_marker_output (u "tag __BRIDGE_ here") (u "ls") = u "tag __BRIDGE_ here"
  /\ _clean_marker_output
       (join [LF] [u "$ echo '__TMUX_BRIDGE_START_ab12__'"; u "$ cat f";
                   u "cat f"; u "data"; u "$ echo '__TMUX_BRIDGE_END_ab12__'"])
       (u "cat f")
     = u "data"
  /\ _clean_marker_output
       (join [LF] [u "$ echo '__TMUX_BRIDGE_START_ab12__'"; u "$ ls";
                   u "  a.txt"; u "b.txt"; u "$ echo '__TMUX_BRIDGE_END_ab12__'"])
       (u "ls")
     = join [LF] [u "a.txt"; u "b.txt"]
  /\ _clean_marker_output
       (join [LF] [u "echo '__TMUX_BRIDGE_START_ab12__'"; u "$HOME/run";
                   u "ok"; u "echo '__TMUX_BRIDGE_END_ab12__'"])
       (u "$HOME/run")
     = join [LF] [u "$HOME/run"; u "ok"].
Proof. split; [vm_compute; discriminate | repeat split]. Qed.

(** ** Line-limited reads *)

Section ReadLines.
Context `{Host}.

(** C10.  With a line count of 0 [read_buffer] keeps every line of the
    sanitized capture: the limit is not applied, and the result is the
    sanitized text itself when that text is lines joined by line feeds with
    no break after the last one; with a positive count [n] it returns the
    last [n] lines, so at most [n] of them. *)
Theorem read_buffer_zero_is_no_limit (self : TmuxController) (history : bool)
    (w : World) (st : State) (raw err : str) :
  subprocess_run_at w (n_runs st) (capture_cmd self history)
  = CompletedProcess 0 raw err ->
  let lines := splitlines (strip_ansi raw) in
  fst (read_buffer self (Some 0%Z) history w st) = Ok (join [LF] lines)
  /\ (forall ls,
        forallb one_line ls = true -> last ls [] <> [] ->
        strip_ansi raw = join [LF] ls ->
        fst (read_buffer self (Some 0%Z) history w st) = Ok (strip_ansi raw))
  /\ forall n, (0 < n)%Z ->
       exists kept,
         fst (read_buffer self (Some n) history w st) = Ok (join [LF] kept)
         /\ kept = skipn (length lines - Z.to_nat n) lines
         /\ (len kept <= n)%Z.
Proof.
  intros Hr lines. split; [| split].
  - rewrite (@read_buffer_ok _ self (Some 0%Z) history w st raw err Hr). simpl fst.
    now rewrite slice_last_all.
  - intros ls Hone Hlast Hraw.
    rewrite (@read_buffer_ok _ self (Some 0%Z) history w st raw err Hr). simpl fst.
    rewrite slice_last_all, Hraw. now rewrite splitlines_join.
  - intros n Hn. exists (skipn (length lines - Z.to_nat n) lines).
    rewrite (@read_buffer_ok _ self (Some n) history w st raw err Hr). simpl fst.
    rewrite slice_last_n by assumption. repeat split.
    unfold len. rewrite length_skipn. lia.
Qed.

End ReadLines.


Lemma read_buffer_zero_is_no_limit_witness :
  fst (read_buffer ctl (Some 0%Z) false w_two_lines st0)
  = Ok (u "a" ++ [LF] ++ u "b")
  /\ fst (read_buffer ctl (Some 1%Z) false w_two_lines st0) = Ok (u "b").
Proof.
  pose proof (@read_buffer_zero_is_no_limit _ ctl false w_two_lines st0
                (u "a" ++ [LF] ++ u "b" ++ [LF]) [] eq_refl)
    as (H0 & _ & Hn).
  split; [exact H0 |].
  destruct (Hn 1%Z ltac:(lia)) as (kept & Hk & -> & _). exact Hk.
Defined.

(** C8 at a line count of 0: the capture has two lines, the last 0 lines of
    it are no line at all, and [read_buffer] returns both. *)
Lemma read_buffer_zero_lines_returns_all :
  fst (read_buffer ctl (Some 0%Z) false w_two_lines st0)
  = Ok (u "a" ++ [LF] ++ u "b")
  /\ splitlines (strip_ansi (u "a" ++ [LF] ++ u "b" ++ [LF])) = [u "a"; u "b"]
  /\ join [LF] (skipn 2 [u "a"; u "b"]) = [].
Proof. repeat split. Qed.


(** The scenario of a pane that ran [echo hello] between the two echoes. *)
Example execute_and_wait_hello :
  fst (execute_and_wait ctl (u "echo hello") None None true 5 w_hello st0)
  = Ok (u "hello").
Proof. vm_compute. reflexivity. Qed.

(** * Further properties of the module *)

(** ** The sanitizer on the sequences it knows *)

Lemma ansi_sub_skip (l : str) : forall k s,
  length l = k -> ansi_sub k (l ++ s) = ansi_sub 0 s.
Proof.
  induction l as [|c l IH]; intros k s Hk; subst k; [reflexivity |].
  simpl. now apply IH.
Qed.

Lemma strip_ansi_app_plain (pre s : str) :
  ~ In ESC pre -> strip_ansi (pre ++ s) = pre ++ strip_ansi s.
Proof.
  unfold strip_ansi. induction pre as [|c pre IH]; intros Hno; [reflexivity |].
  change (ansi_sub 0 ((c :: pre) ++ s)) with
    (match ansi_match (c :: pre ++ s) with
     | Some (S k) => ansi_sub k (pre ++ s)
     | _ => c :: ansi_sub 0 (pre ++ s)
     end).
  rewrite ansi_match_plain by (intros ->; apply Hno; now left).
  simpl. f_equal. apply IH. intros Hin. apply Hno. now right.
Qed.

Lemma strip_ansi_matched (seq post : str) :
  seq <> [] -> ansi_match (seq ++ post) = Some (length seq) ->
  strip_ansi (seq ++ post) = strip_ansi post.
Proof.
  intros Hne Hm. destruct seq as [|c seq]; [congruence |]. unfold strip_ansi.
  change (ansi_sub 0 ((c :: seq) ++ post)) with
    (match ansi_match ((c :: seq) ++ post) with
     | Some (S k) => ansi_sub k (seq ++ post)
     | _ => c :: ansi_sub 0 (seq ++ post)
     end).
  rewrite Hm. simpl length. now apply ansi_sub_skip.
Qed.

Lemma strip_ansi_unmatched (c : char) (rest : str) :
  ansi_match (c :: rest) = None ->
  strip_ansi (c :: rest) = c :: strip_ansi rest.
Proof.
  intros Hm. unfold strip_ansi.
  change (ansi_sub 0 (c :: rest)) with
    (match ansi_match (c :: rest) with
     | Some (S k) => ansi_sub k rest
     | _ => c :: ansi_sub 0 rest
     end).
  now rewrite Hm.
Qed.

Lemma takewhile_app_stop p (l : str) c r :
  forallb p l = true -> p c = false -> takewhile p (l ++ c :: r) = l.
Proof.
  intros Hl Hc. induction l as [|d l IH]; simpl in *.
  - now rewrite Hc.
  - apply andb_true_iff in Hl as [Hd Hl]. rewrite Hd. f_equal. now apply IH.
Qed.


Lemma alpha_not_param (f : char) : is_alpha f = true -> is_csi_param f = false.
Proof.
  unfold is_alpha, is_csi_param, is_digit. intros Hf.
  apply orb_true_iff in Hf.
  destruct (N.eqb_spec f 59) as [-> |]; [destruct Hf; discriminate |].
  destruct (N.eqb_spec f 63) as [-> |]; [destruct Hf; discriminate |].
  rewrite !orb_false_r. apply andb_false_iff.
  destruct Hf as [Hf | Hf]; apply andb_true_iff in Hf as [H1 H2];
    apply N.leb_le in H1, H2; right; apply N.leb_gt; lia.
Qed.

(** X1.  A CSI sequence (ESC, [[], parameter characters out of [0-9;?], one
    letter) is removed whole, and the text around it is kept and joined:
    the text before it unchanged when it holds no ESC, the text after it
    sanitized in turn. *)
Theorem strip_ansi_removes_csi (pre params post : str) (f : char) :
  ~ In ESC pre -> forallb is_csi_param params = true -> is_alpha f = true ->
  strip_ansi (pre ++ [ESC; 91%N] ++ params ++ [f] ++ post)
  = pre ++ strip_ansi post.
Proof.
  intros Hpre Hparams Hf. rewrite strip_ansi_app_plain by assumption. f_equal.
  pose proof (alpha_not_param f Hf) as Hnp.
  replace ([ESC; 91%N] ++ params ++ [f] ++ post)
    with (([ESC; 91%N] ++ params ++ [f]) ++ post)
    by (now rewrite <- !app_assoc).
  apply strip_ansi_matched; [discriminate |].
  replace (length ([ESC; 91%N] ++ params ++ [f])) with (3 + length params)%nat
    by (simpl; rewrite length_app; simpl; lia).
  rewrite <- !app_assoc. simpl app. unfold ansi_match.
  change (N.eqb ESC ESC) with true. change (N.eqb 91 91) with true. cbv iota.
  rewrite (dropwhile_app_all is_csi_param params f post Hparams Hnp), Hf.
  now rewrite (takewhile_app_stop is_csi_param params f post Hparams Hnp).
Qed.

Lemma strip_ansi_removes_csi_witness :
  strip_ansi (u "ok " ++ [ESC; 91%N] ++ u "1;32" ++ u "m" ++ u "done")
  = u "ok " ++ strip_ansi (u "done").
Proof.
  apply (@strip_ansi_removes_csi (u "ok ") (u "1;32") (u "done") 109%N).
  - vm_compute. intros H; repeat (destruct H as [H | H]; [discriminate H |]); exact H.
  - reflexivity.
  - reflexivity.
Defined.

Lemma osc_tail_payload (payload rest : str) :
  forallb osc_payload_char payload = true ->
  osc_tail (payload ++ rest)
  = option_map (fun n => (length payload + n)%nat) (osc_tail rest).
Proof.
  intros Hp. induction payload as [|c payload IH].
  - simpl. destruct (osc_tail rest); reflexivity.
  - simpl in Hp. apply andb_true_iff in Hp as [Hc Hp].
    unfold osc_payload_char in Hc.
    apply andb_true_iff in Hc as [Hc Hlf]. apply andb_true_iff in Hc as [Hbel Hesc].
    apply negb_true_iff in Hbel, Hesc, Hlf.
    change (osc_tail ((c :: payload) ++ rest)) with
      (if N.eqb c BEL then Some 1%nat
       else if N.eqb c ESC
               && match payload ++ rest with c' :: _ => N.eqb c' 92 | [] => false end
       then Some 2%nat
       else if N.eqb c LF then None
       else option_map S (osc_tail (payload ++ rest))).
    rewrite Hbel, Hesc, Hlf, IH by assumption. simpl.
    destruct (osc_tail rest); reflexivity.
Qed.

Lemma osc_payload_no_esc (payload : str) :
  forallb osc_payload_char payload = true -> ~ In ESC payload.
Proof.
  intros Hp Hin. apply (proj1 (forallb_forall _ _) Hp) in Hin.
  discriminate Hin.
Qed.

(** X2.  An OSC sequence (ESC, []], a payload, then BEL or ESC-backslash)
    is removed whole, terminator included, and the text around it is kept
    and joined. *)
Theorem strip_ansi_removes_osc (pre payload term post : str) :
  ~ In ESC pre -> forallb osc_payload_char payload = true ->
  term = [BEL] \/ term = [ESC; 92%N] ->
  strip_ansi (pre ++ [ESC; 93%N] ++ payload ++ term ++ post)
  = pre ++ strip_ansi post.
Proof.
  intros Hpre Hp Hterm. rewrite strip_ansi_app_plain by assumption. f_equal.
  replace ([ESC; 93%N] ++ payload ++ term ++ post)
    with (([ESC; 93%N] ++ payload ++ term) ++ post)
    by (now rewrite <- !app_assoc).
  apply strip_ansi_matched; [discriminate |].
  replace (length ([ESC; 93%N] ++ payload ++ term))
    with (2 + (length payload + length term))%nat
    by (simpl; rewrite length_app; lia).
  rewrite <- !app_assoc. simpl app. unfold ansi_match.
  change (N.eqb ESC ESC) with true. change (N.eqb 93 91) with false.
  change (N.eqb 93 93) with true. cbv iota.
  rewrite osc_tail_payload by assumption.
  destruct Hterm as [-> | ->]; reflexivity.
Qed.

Lemma strip_ansi_removes_osc_witness :
  strip_ansi (u "a" ++ [ESC; 93%N] ++ u "0;window title" ++ [BEL] ++ u "b")
  = u "a" ++ strip_ansi (u "b")
  /\ strip_ansi (u "a" ++ [ESC; 93%N] ++ u "0;t" ++ [ESC; 92%N] ++ u "b")
     = u "a" ++ strip_ansi (u "b").
Proof.
  assert (Ha : ~ In ESC (u "a")).
  { vm_compute. intros H; repeat (destruct H as [H | H]; [discriminate H |]); exact H. }
  split.
  - apply (@strip_ansi_removes_osc (u "a") (u "0;window title") [BEL] (u "b") Ha eq_refl).
    now left.
  - apply (@strip_ansi_removes_osc (u "a") (u "0;t") [ESC; 92%N] (u "b") Ha eq_refl).
    now right.
Defined.

(** X3.  An OSC sequence whose payload runs into a line feed, or into the
    end of the text, before any terminator is not a match: nothing of it is
    removed, the ESC stays in the output. *)
Theorem strip_ansi_keeps_broken_osc (pre payload rest : str) :
  ~ In ESC pre -> forallb osc_payload_char payload = true ->
  rest = [] \/ (exists post, rest = LF :: post) ->
  strip_ansi (pre ++ [ESC; 93%N] ++ payload ++ rest)
  = pre ++ [ESC; 93%N] ++ payload ++ strip_ansi rest.
Proof.
  intros Hpre Hp Hrest. rewrite strip_ansi_app_plain by assumption. f_equal.
  assert (Ht : osc_tail rest = None)
    by (destruct Hrest as [-> | [post ->]]; reflexivity).
  simpl app. rewrite strip_ansi_unmatched.
  - f_equal.
    change (93%N :: payload ++ rest) with ((93%N :: payload) ++ rest).
    rewrite strip_ansi_app_plain; [reflexivity |].
    intros [Hin | Hin]; [discriminate Hin |].
    now apply (osc_payload_no_esc payload Hp).
  - unfold ansi_match.
    change (N.eqb ESC ESC) with true. change (N.eqb 93 91) with false.
    change (N.eqb 93 93) with true. cbv iota.
    rewrite osc_tail_payload by assumption. now rewrite Ht.
Qed.

Lemma strip_ansi_keeps_broken_osc_witness :
  strip_ansi (u "a" ++ [ESC; 93%N] ++ u "0;title" ++ LF :: BEL :: u "b")
  = u "a" ++ [ESC; 93%N] ++ u "0;title" ++ strip_ansi (LF :: BEL :: u "b").
Proof.
  apply (@strip_ansi_keeps_broken_osc (u "a") (u "0;title") (LF :: BEL :: u "b")).
  - vm_compute. intros H; repeat (destruct H as [H | H]; [discriminate H |]); exact H.
  - reflexivity.
  - right. now exists (BEL :: u "b").
Defined.

Lemma ansi_sub_length (s : str) : forall k,
  (length (ansi_sub k s) <= length s)%nat.
Proof.
  induction s as [|c s IH]; intros k; [simpl; lia |].
  destruct k as [|k].
  - change (ansi_sub 0 (c :: s)) with
      (match ansi_match (c :: s) with
       | Some (S k) => ansi_sub k s
       | _ => c :: ansi_sub 0 s
       end).
    destruct (ansi_match (c :: s)) as [[|k] |]; simpl;
      try (specialize (IH 0%nat); lia).
    specialize (IH k). lia.
  - simpl. specialize (IH k). lia.
Qed.

(** X4.  The sanitizer only removes: its result is never longer than its
    input, and it has the length of the input only if nothing was removed. *)
Theorem strip_ansi_never_longer (text : str) :
  (length (strip_ansi text) <= length text)%nat
  /\ (length (strip_ansi text) = length text -> strip_ansi text = text).
Proof.
  split; [apply ansi_sub_length |].
  unfold strip_ansi. induction text as [|c text IH]; [reflexivity |].
  change (ansi_sub 0 (c :: text)) with
    (match ansi_match (c :: text) with
     | Some (S k) => ansi_sub k text
     | _ => c :: ansi_sub 0 text
     end).
  destruct (ansi_match (c :: text)) as [[|k] |]; simpl; intros Hl;
    try (f_equal; apply IH; lia).
  pose proof (ansi_sub_length text k). lia.
Qed.

Lemma strip_ansi_never_longer_witness :
  strip_ansi (u "plain") = u "plain".
Proof.
  apply (proj2 (strip_ansi_never_longer (u "plain"))). reflexivity.
Defined.

(** ** Reading with a line count *)

Lemma slice_from {A} (k : Z) (l : list A) :
  (0 <= k)%Z -> slice (Some k) None l = skipn (Z.to_nat k) l.
Proof.
  intros Hk. unfold slice, slice_index. pose proof (len_nonneg l).
  destruct (Z.ltb_spec k 0); [lia |].
  destruct (Z.le_gt_cases k (len l)) as [Hle | Hgt].
  - replace (Z.max 0 (Z.min (len l) k)) with k by lia.
    apply firstn_all2. rewrite length_skipn. unfold len in *. lia.
  - replace (Z.max 0 (Z.min (len l) k)) with (len l) by lia.
    rewrite Z.sub_diag. simpl firstn.
    symmetry. apply skipn_all2. unfold len in *. lia.
Qed.

Section ReadNegative.
Context `{Host}.

(** X5.  A negative line count is not rejected: [read_buffer] with count
    [n < 0] drops the first [-n] lines of the sanitized capture and returns
    the rest, whatever the number of lines. *)
Theorem read_buffer_negative_count (self : TmuxController) (history : bool)
    (w : World) (st : State) (raw err : str) (n : Z) :
  subprocess_run_at w (n_runs st) (capture_cmd self history)
  = CompletedProcess 0 raw err ->
  (n < 0)%Z ->
  fst (read_buffer self (Some n) history w st)
  = Ok (join [LF] (skipn (Z.to_nat (- n)) (splitlines (strip_ansi raw)))).
Proof.
  intros Hr Hn.
  rewrite (@read_buffer_ok _ self (Some n) history w st raw err Hr). simpl fst.
  now rewrite slice_from by lia.
Qed.

End ReadNegative.

Lemma read_buffer_negative_count_witness :
  fst (read_buffer ctl (Some (-1)%Z) false w_two_lines st0) = Ok (u "b").
Proof.
  apply (@read_buffer_negative_count _ ctl false w_two_lines st0
           (u "a" ++ [LF] ++ u "b" ++ [LF]) [] (-1)%Z eq_refl).
  lia.
Defined.

(** ** What the cleaning guarantees for every input *)

Lemma contains_join_line (m : str) (ls : list str) :
  m <> [] -> ~ In LF m ->
  contains (join [LF] ls) m = true ->
  exists l, In l ls /\ contains l m = true.
Proof.
  intros Hne Hlf. induction ls as [|l ls IH]; intros Hc.
  - apply contains_spec in Hc as (p & q & Hpq). simpl in Hpq.
    symmetry in Hpq. apply app_eq_nil in Hpq as [_ Hpq].
    apply app_eq_nil in Hpq as [Hm _]. contradiction.
  - destruct ls as [|l2 rest].
    + exists l. split; [now left | exact Hc].
    + change (join [LF] (l :: l2 :: rest))
        with (l ++ LF :: join [LF] (l2 :: rest)) in Hc.
      apply contains_spec in Hc as (p & q & Hpq).
      apply app_eq_app in Hpq as [x [[Hl Hmq] | [Hp HJ]]].
      * apply app_eq_app in Hmq as [y [[Hm HJ] | [Hx Hq]]].
        -- destruct y as [|c y].
           ++ rewrite app_nil_r in Hm. subst x. exists l. split; [now left |].
              apply contains_spec. exists p, []. now rewrite app_nil_r.
           ++ injection HJ as <- _. exfalso. apply Hlf. rewrite Hm.
              apply in_or_app. right. now left.
        -- exists l. split; [now left |]. apply contains_spec.
           exists p, y. now rewrite Hl, Hx.
      * destruct x as [|c x].
        -- simpl in HJ. destruct m as [|c m]; [contradiction |].
           injection HJ as <- _. exfalso. apply Hlf. now left.
        -- injection HJ as _ HJ.
           destruct IH as (l' & Hin & Hl').
           { apply contains_spec. now exists x, q. }
           exists l'. split; [now right | exact Hl'].
Qed.

(** X6.  Whatever the raw text and the command, the cleaned output does not
    hold the marker prefix [__TMUX_BRIDGE_] anywhere. *)
Theorem clean_marker_output_no_marker (raw command : str) :
  contains (_clean_marker_output raw command) (u "__TMUX_BRIDGE_") = false.
Proof.
  destruct (contains (_clean_marker_output raw command) (u "__TMUX_BRIDGE_"))
    eqn:Hc; [| reflexivity].
  unfold _clean_marker_output in Hc. apply contains_strip_back in Hc.
  apply contains_join_line in Hc as (l & Hin & Hl).
  - apply filter_In in Hin as [_ Hk].
    rewrite (keep_line_marker (strip command) l Hl) in Hk. discriminate.
  - discriminate.
  - vm_compute. intros H; repeat (destruct H as [H | H]; [discriminate H |]); exact H.
Qed.



(** X7.  The cleaned output is trimmed for every input: it is empty or it
    begins and ends with a character that is not whitespace, so cleaning it
    once more as plain text changes nothing. *)
Theorem clean_marker_output_trimmed (raw command : str) :
  let out := _clean_marker_output raw command in
  (out = [] \/ (starts_clean out = true /\ ends_clean out = true))
  /\ strip out = out.
Proof.
  intros out. unfold out, _clean_marker_output.
  set (t := join [LF] (filter _ _)).
  pose proof (strip_trimmed t) as Ht. split; [exact Ht |].
  destruct Ht as [-> | [Hs He]]; [reflexivity | now apply strip_clean].
Qed.

(** ** Runs of [execute_and_wait] when the gateway works *)

Lemma slice_inner {A} (a z : A) (mid : list A) :
  slice (Some 1%Z) (Some (-1)%Z) (a :: mid ++ [z]) = mid.
Proof.
  unfold slice, slice_index, len. simpl length. rewrite length_app. simpl length.
  destruct (Z.ltb_spec 1 0); [lia |]. destruct (Z.ltb_spec (-1) 0); [| lia].
  replace (Z.to_nat (Z.max 0 (Z.min (Z.of_nat (S (length mid + 1))) 1))) with 1%nat by lia.
  replace (Z.to_nat _) with (length mid) by lia.
  simpl skipn. rewrite firstn_app, Nat.sub_diag. simpl firstn.
  rewrite app_nil_r. apply firstn_all.
Qed.

Lemma slice_after_prefix {A} (pre x : list A) :
  slice (Some (len pre)) None (pre ++ x) = x.
Proof.
  rewrite slice_from by apply len_nonneg. unfold len. rewrite Nat2Z.id.
  apply skipn_app_exact.
Qed.

Section Runs.
Context `{Host}.

Lemma markers_enter self command timeout interval fuel w st :
  gateway_succeeds w ->
  let uid := hex_digits 12 (uuid4_int w / 16 ^ 20) in
  let sends := [send_cmd self (u "echo '" ++ start_marker_of uid ++ u "'");
                send_cmd self command;
                send_cmd self (u "echo '" ++ end_marker_of uid ++ u "'")] in
  exists st5,
    n_runs st5 = (3 + n_runs st)%nat
    /\ n_ticks st5 = S (n_ticks st)
    /\ runs_of (trace st5) = runs_of (trace st) ++ sends
    /\ _execute_with_markers self command timeout interval fuel w st
       = while_before fuel (time_add (monotonic_at w (n_ticks st)) timeout)
           (_markers_poll self command (start_marker_of uid)
              (end_marker_of uid) interval)
           (raise (Exception CommandTimeoutError
                     (MsgTimeout (u "Command did not complete within ")
                                 timeout command)))
           w st5.
Proof.
  intros Hg uid sends. unfold _execute_with_markers.
  erewrite bind_ok by reflexivity. rewrite uid_of_uuid. fold uid.
  erewrite bind_ok by (apply send_keys_ok; exact Hg).
  erewrite bind_ok by reflexivity.
  erewrite bind_ok by (apply send_keys_ok; exact Hg).
  erewrite bind_ok by (apply send_keys_ok; exact Hg).
  erewrite bind_ok by apply monotonic_run.
  eexists. split; [| split; [| split; [| reflexivity]]].
  - reflexivity.
  - reflexivity.
  - cbn [trace ran log n_runs n_ticks]. rewrite !runs_of_app. cbn [runs_of].
    rewrite !app_nil_r, <- !app_assoc. reflexivity.
Qed.

Lemma prompt_enter self command timeout interval fuel w st :
  gateway_succeeds w ->
  exists pre st3,
    fst (read_buffer self None true w st) = Ok pre
    /\ n_runs st3 = (2 + n_runs st)%nat
    /\ n_ticks st3 = S (n_ticks st)
    /\ runs_of (trace st3)
       = runs_of (trace st) ++ [capture_cmd self true; send_cmd self command]
    /\ _execute_with_prompt self command timeout interval fuel w st
       = while_before fuel (time_add (monotonic_at w (n_ticks st)) timeout)
           (_prompt_poll self pre interval)
           (raise (Exception CommandTimeoutError
                     (MsgTimeout (u "Prompt not detected within ")
                                 timeout command)))
           w st3.
Proof.
  intros Hg. unfold _execute_with_prompt.
  destruct (Hg (n_runs st) (capture_cmd self true)) as (raw & err & Hr).
  pose proof (@read_buffer_ok _ self None true w st raw err Hr) as Hrb.
  erewrite bind_ok by exact Hrb.
  erewrite bind_ok by (apply send_keys_ok; exact Hg).
  erewrite bind_ok by apply monotonic_run.
  exists (strip_ansi raw). eexists.
  split; [now rewrite Hrb | split; [| split; [| split; [| reflexivity]]]].
  - reflexivity.
  - reflexivity.
  - cbn [trace ran log n_runs n_ticks]. rewrite !runs_of_app. cbn [runs_of].
    rewrite !app_nil_r, <- !app_assoc. reflexivity.
Qed.

Lemma issued_of {A} (c : M A) w st cmds :
  runs_of (trace (snd (c w st))) = runs_of (trace st) ++ cmds ->
  issued c w st = cmds.
Proof. intros Hr. unfold issued. rewrite Hr. apply skipn_app_exact. Qed.

End Runs.

Section RunsOfExecute.
Context `{Host}.

(** X8.  Marker protocol, gateway working: when the clock is before the
    deadline at the first test and the first capture shows both markers in
    order, the call returns the cleaned text between them at once, having
    run the three sends and that single capture. *)
Theorem execute_and_wait_first_poll self command timeout_arg interval_arg
    w st (raw err output : str) :
  let timeout :=
    match timeout_arg with Some t => t | None => default_timeout self end in
  let uid := hex_digits 12 (uuid4_int w / 16 ^ 20) in
  let sends := [send_cmd self (u "echo '" ++ start_marker_of uid ++ u "'");
                send_cmd self command;
                send_cmd self (u "echo '" ++ end_marker_of uid ++ u "'")] in
  let call := execute_and_wait self command timeout_arg interval_arg true in
  gateway_succeeds w ->
  time_lt (monotonic_at w (S (n_ticks st)))
          (time_add (monotonic_at w (n_ticks st)) timeout) = true ->
  subprocess_run_at w (3 + n_runs st) (capture_cmd self true)
  = CompletedProcess 0 raw err ->
  between_markers (strip_ansi raw) (start_marker_of uid) (end_marker_of uid)
  = Some output ->
  forall fuel, (0 < fuel)%nat ->
    fst (call fuel w st) = Ok (_clean_marker_output output command)
    /\ issued (call fuel) w st = sends ++ [capture_cmd self true].
Proof.
  intros timeout uid sends call Hg Hclock Hcap Hfound fuel Hfuel.
  destruct fuel as [|fuel]; [lia |].
  unfold call, execute_and_wait. fold timeout.
  set (interval := match interval_arg with Some i => i | None => poll_interval self end).
  destruct (markers_enter self command timeout interval (S fuel) st Hg)
    as (st5 & Hn5 & Ht5 & Hr5 & Hrun).
  fold uid in Hr5, Hrun. fold sends in Hr5.
  assert (Heq : exists stf,
             _execute_with_markers self command timeout interval (S fuel) w st
             = (Ok (_clean_marker_output output command), stf)
             /\ runs_of (trace stf)
                = runs_of (trace st) ++ sends ++ [capture_cmd self true]).
  { rewrite Hrun, while_before_step. cbv zeta. rewrite Ht5, Hclock.
    set (st6 := {| n_runs := n_runs st5; n_ticks := S (S (n_ticks st)); trace := _ |}).
    assert (Hcap6 : subprocess_run_at w (n_runs st6) (capture_cmd self true)
                    = CompletedProcess 0 raw err)
      by (unfold st6; cbn [n_runs]; rewrite Hn5; exact Hcap).
    unfold _markers_poll.
    erewrite bind_ok
      by exact (@read_buffer_ok _ self None true w st6 raw err Hcap6).
    rewrite Hfound. unfold ret. eexists. split; [reflexivity |].
    rewrite runs_of_ran. unfold st6. cbn [trace].
    rewrite runs_of_app, Hr5. cbn [runs_of].
    now rewrite app_nil_r, <- app_assoc. }
  destruct Heq as (stf & Heq & Hruns). split.
  - now rewrite Heq.
  - apply issued_of. now rewrite Heq.
Qed.

(** X9.  Either protocol, gateway working: when the clock is not before the
    deadline at the first test (a timeout of zero, say), the call raises
    [CommandTimeoutError] without one poll: the command has been sent, and
    the pane is not read afterwards, whatever it shows. *)
Theorem execute_and_wait_no_poll_after_deadline self command timeout_arg
    interval_arg (use_markers : bool) w st :
  let timeout :=
    match timeout_arg with Some t => t | None => default_timeout self end in
  let head :=
    if use_markers then u "Command did not complete within "
    else u "Prompt not detected within " in
  let uid := hex_digits 12 (uuid4_int w / 16 ^ 20) in
  let sends := [send_cmd self (u "echo '" ++ start_marker_of uid ++ u "'");
                send_cmd self command;
                send_cmd self (u "echo '" ++ end_marker_of uid ++ u "'")] in
  let call := execute_and_wait self command timeout_arg interval_arg use_markers in
  gateway_succeeds w ->
  time_lt (monotonic_at w (S (n_ticks st)))
          (time_add (monotonic_at w (n_ticks st)) timeout) = false ->
  forall fuel, (0 < fuel)%nat ->
    fst (call fuel w st)
    = Raise (Exception CommandTimeoutError (MsgTimeout head timeout command))
    /\ issued (call fuel) w st
       = if use_markers then sends
         else [capture_cmd self true; send_cmd self command].
Proof.
  intros timeout head uid sends call Hg Hclock fuel Hfuel.
  destruct fuel as [|fuel]; [lia |].
  unfold call, execute_and_wait. fold timeout.
  set (interval := match interval_arg with Some i => i | None => poll_interval self end).
  destruct use_markers.
  - destruct (markers_enter self command timeout interval (S fuel) st Hg)
      as (st5 & Hn5 & Ht5 & Hr5 & Hrun).
    fold uid in Hr5, Hrun. fold sends in Hr5.
    rewrite while_before_step in Hrun. cbv zeta in Hrun.
    rewrite Ht5, Hclock in Hrun. unfold raise in Hrun.
    split; [now rewrite Hrun |]. apply issued_of. rewrite Hrun. cbn [snd trace].
    rewrite runs_of_app, Hr5. cbn [runs_of]. now rewrite app_nil_r.
  - destruct (prompt_enter self command timeout interval (S fuel) st Hg)
      as (pre & st3 & _ & Hn3 & Ht3 & Hr3 & Hrun).
    rewrite while_before_step in Hrun. cbv zeta in Hrun.
    rewrite Ht3, Hclock in Hrun. unfold raise in Hrun.
    split; [now rewrite Hrun |]. apply issued_of. rewrite Hrun. cbn [snd trace].
    rewrite runs_of_app, Hr3. cbn [runs_of]. now rewrite app_nil_r.
Qed.

(** X10.  Prompt protocol, gateway working: when the capture taken at the
    first poll is the capture taken before the send followed by new lines,
    namely the echoed command line, output lines and a last line on which
    the prompt pattern is found, the call returns the output lines joined by
    line feeds: the first and the last new line are left out.  It has run
    the first capture, the send and one more capture. *)
Theorem execute_and_wait_prompt_output self command timeout_arg interval_arg
    w st (raw0 err0 raw1 err1 echo prompt_line : str) (outs : list str) :
  let timeout :=
    match timeout_arg with Some t => t | None => default_timeout self end in
  let call := execute_and_wait self command timeout_arg interval_arg false in
  gateway_succeeds w ->
  subprocess_run_at w (n_runs st) (capture_cmd self true)
  = CompletedProcess 0 raw0 err0 ->
  time_lt (monotonic_at w (S (n_ticks st)))
          (time_add (monotonic_at w (n_ticks st)) timeout) = true ->
  subprocess_run_at w (2 + n_runs st) (capture_cmd self true)
  = CompletedProcess 0 raw1 err1 ->
  strip_ansi raw1
  = strip_ansi raw0 ++ join [LF] (echo :: outs ++ [prompt_line]) ->
  forallb one_line (echo :: outs ++ [prompt_line]) = true ->
  prompt_line <> [] ->
  re_search (prompt_pattern self) prompt_line = true ->
  forall fuel, (0 < fuel)%nat ->
    fst (call fuel w st) = Ok (join [LF] outs)
    /\ issued (call fuel) w st
       = [capture_cmd self true; send_cmd self command; capture_cmd self true].
Proof.
  intros timeout call Hg Hcap0 Hclock Hcap1 Hnew Hone Hpl Hfound fuel Hfuel.
  destruct fuel as [|fuel]; [lia |].
  unfold call, execute_and_wait. fold timeout.
  set (interval := match interval_arg with Some i => i | None => poll_interval self end).
  destruct (prompt_enter self command timeout interval (S fuel) st Hg)
    as (pre & st3 & Hpre & Hn3 & Ht3 & Hr3 & Hrun).
  rewrite (@read_buffer_ok _ self None true w st raw0 err0 Hcap0) in Hpre.
  injection Hpre as <-.
  assert (Hlines : splitlines (join [LF] (echo :: outs ++ [prompt_line]))
                   = echo :: outs ++ [prompt_line]).
  { apply splitlines_join; [exact Hone |].
    change (echo :: outs ++ [prompt_line]) with ((echo :: outs) ++ [prompt_line]).
    now rewrite last_last. }
  assert (Hlast : last (echo :: outs ++ [prompt_line]) [] = prompt_line).
  { change (echo :: outs ++ [prompt_line]) with ((echo :: outs) ++ [prompt_line]).
    apply last_last. }
  assert (Heq : exists stf,
             _execute_with_prompt self command timeout interval (S fuel) w st
             = (Ok (join [LF] outs), stf)
             /\ runs_of (trace stf)
                = runs_of (trace st)
                  ++ [capture_cmd self true; send_cmd self command;
                      capture_cmd self true]).
  { rewrite Hrun, while_before_step. cbv zeta. rewrite Ht3, Hclock.
    set (st4 := {| n_runs := n_runs st3; n_ticks := S (S (n_ticks st)); trace := _ |}).
    unfold _prompt_poll. erewrite bind_ok by reflexivity.
    set (st5 := log (EvSleep interval) st4).
    assert (Hcap5 : subprocess_run_at w (n_runs st5) (capture_cmd self true)
                    = CompletedProcess 0 raw1 err1)
      by (unfold st5, st4; cbn [n_runs log]; rewrite Hn3; exact Hcap1).
    erewrite bind_ok
      by exact (@read_buffer_ok _ self None true w st5 raw1 err1 Hcap5).
    cbv zeta. rewrite Hnew, slice_after_prefix, Hlines, Hlast, Hfound.
    cbn [nonempty andb].
    assert (Hlen : (len (echo :: outs ++ [prompt_line]) >? 1)%Z = true).
    { apply Z.gtb_lt. unfold len. simpl length. rewrite length_app. simpl. lia. }
    rewrite Hlen, slice_inner. unfold ret. eexists. split; [reflexivity |].
    rewrite runs_of_ran. unfold st5. rewrite runs_of_log by exact I.
    unfold st4. cbn [trace]. rewrite runs_of_app, Hr3. cbn [runs_of].
    now rewrite app_nil_r, <- app_assoc. }
  destruct Heq as (stf & Heq & Hruns). split.
  - now rewrite Heq.
  - apply issued_of. now rewrite Heq.
Qed.

End RunsOfExecute.

Lemma w_hello_succeeds : gateway_succeeds w_hello.
Proof. intros k cmd. eexists; eexists; reflexivity. Qed.

Lemma w_prompt_succeeds : gateway_succeeds w_prompt.
Proof.
  intros k cmd. unfold w_prompt, world_of. cbn [subprocess_run_at].
  destruct (Nat.eqb k 0); eexists; eexists; reflexivity.
Qed.

Lemma execute_and_wait_first_poll_witness :
  fst (execute_and_wait ctl (u "echo hello") None None true 1 w_hello st0)
  = Ok (u "hello").
Proof.
  match eval vm_compute in
        (subprocess_run_at w_hello 3 (capture_cmd ctl true)) with
  | CompletedProcess _ ?raw ?err =>
      match eval vm_compute in
            (between_markers (strip_ansi raw)
               (start_marker_of (hex_digits 12 (uuid4_int w_hello / 16 ^ 20)))
               (end_marker_of (hex_digits 12 (uuid4_int w_hello / 16 ^ 20)))) with
      | Some ?out =>
          exact (proj1 (@execute_and_wait_first_poll _ ctl (u "echo hello")
                          None None w_hello st0 raw err out
                          w_hello_succeeds eq_refl eq_refl eq_refl
                          1%nat (Nat.lt_0_succ 0)))
      end
  end.
Defined.

Lemma execute_and_wait_no_poll_after_deadline_witness :
  fst (execute_and_wait ctl (u "echo hello") (Some 0%Z) None true 1 w_hello st0)
  = Raise (Exception CommandTimeoutError
             (MsgTimeout (u "Command did not complete within ") 0%Z
                         (u "echo hello"))).
Proof.
  exact (proj1 (@execute_and_wait_no_poll_after_deadline _ ctl (u "echo hello")
                  (Some 0%Z) None true w_hello st0
                  w_hello_succeeds eq_refl 1%nat (Nat.lt_0_succ 0))).
Defined.

Lemma execute_and_wait_prompt_output_witness :
  fst (execute_and_wait ctl (u "ls") None None false 1 w_prompt st0)
  = Ok (u "a.txt").
Proof.
  exact (proj1 (@execute_and_wait_prompt_output _ ctl (u "ls") None None
                  w_prompt st0 (u "$ ") [] (u "$ " ++ join [LF] [u "ls"; u "a.txt"; u "$ "])
                  [] (u "ls") (u "$ ") [u "a.txt"]
                  w_prompt_succeeds eq_refl eq_refl eq_refl eq_refl eq_refl
                  ltac:(discriminate) eq_refl 1%nat (Nat.lt_0_succ 0))).
Defined.

(** ** Construction and the session tests *)

Section Sessions.
Context `{Builtins}.

Lemma session_exists_run (self : TmuxController) w st :
  _session_exists self w st
  = (match escaped (subprocess_run_at w (n_runs st)
                      (has_session_cmd (_target self))) with
     | Some e => Raise e
     | None =>
         Ok match failure_kind
                   (subprocess_run_at w (n_runs st) (has_session_cmd (_target self)))
            with None => true | Some _ => false end
     end,
     ran (has_session_cmd (_target self)) st).
Proof.
  unfold _session_exists, try_except, bind, ret.
  pose proof (run_tmux_result [u "has-session"; u "-t"; _target self] w st) as Hr.
  pose proof (run_tmux_state [u "has-session"; u "-t"; _target self] w st) as Hs.
  change (u "tmux" :: [u "has-session"; u "-t"; _target self])
    with (has_session_cmd (_target self)) in *.
  unfold failure_kind, escaped.
  destruct (_run_tmux [u "has-session"; u "-t"; _target self] w st)
    as [[out | e |] st1]; simpl in Hs; subst st1;
    destruct (subprocess_run_at w (n_runs st) (has_session_cmd (_target self)))
      as [| |rc out' err|name text]; simpl fst in Hr; try contradiction.
  - destruct Hr as [-> _]. reflexivity.
  - destruct Hr as [-> _]. reflexivity.
  - destruct Hr as [-> _]. reflexivity.
  - destruct Hr as (Hrc & -> & _). simpl.
    destruct (Z.eqb_spec rc 0); [contradiction | reflexivity].
  - cbv beta iota in Hr. subst e. reflexivity.
Qed.

(** The listing and the error that follow a failed existence check. *)
Lemma post_init_missing (name : str) w st :
  (sessions <- list_sessions ;;
   @raise _ TmuxController
     (Exception SessionNotFoundError
        (Msg (u "tmux session '" ++ name
              ++ u "' does not exist. Available sessions: "
              ++ list_repr sessions)))) w st
  = (Raise match escaped (subprocess_run_at w (n_runs st) list_cmd) with
           | Some e => e
           | None =>
               Exception SessionNotFoundError
                 (Msg (u "tmux session '" ++ name
                       ++ u "' does not exist. Available sessions: "
                       ++ list_repr
                            (listed (subprocess_run_at w (n_runs st) list_cmd))))
           end,
     ran list_cmd st).
Proof.
  unfold bind. rewrite list_sessions_run.
  destruct (subprocess_run_at w (n_runs st) list_cmd); reflexivity.
Qed.

Lemma post_init_run (name pattern : str) (timeout interval : time) w st :
  __post_init__ name pattern timeout interval w st
  = match failure_kind (subprocess_run_at w (n_runs st) (has_session_cmd name)) with
    | None =>
        (Ok {| session_name := name; prompt_pattern := pattern;
               default_timeout := timeout; poll_interval := interval;
               _target := name |},
         ran (has_session_cmd name) st)
    | Some _ =>
        match escaped (subprocess_run_at w (n_runs st) (has_session_cmd name)) with
        | Some e => (Raise e, ran (has_session_cmd name) st)
        | None =>
            (Raise match escaped (subprocess_run_at w (S (n_runs st)) list_cmd) with
                   | Some e => e
                   | None =>
                       Exception SessionNotFoundError
                         (Msg (u "tmux session '" ++ name
                               ++ u "' does not exist. Available sessions: "
                               ++ list_repr
                                    (listed (subprocess_run_at w (S (n_runs st))
                                               list_cmd))))
                   end,
             ran list_cmd (ran (has_session_cmd name) st))
        end
    end.
Proof.
  unfold __post_init__.
  assert (Htarget : (if contains name (u ":") || contains name (u ".")
                     then name else name) = name)
    by (destruct (contains name (u ":") || contains name (u ".")); reflexivity).
  rewrite Htarget.
  set (self := {| session_name := name; prompt_pattern := pattern;
                  default_timeout := timeout; poll_interval := interval;
                  _target := name |}).
  pose proof (session_exists_run self w st) as He. cbn [_target self] in He.
  pose proof (post_init_missing name w (ran (has_session_cmd name) st)) as Hm.
  cbn [n_runs ran] in Hm.
  destruct (escaped (subprocess_run_at w (n_runs st) (has_session_cmd name)))
    as [e |] eqn:Eesc.
  - erewrite bind_raise by exact He.
    destruct (subprocess_run_at w (n_runs st) (has_session_cmd name));
      try discriminate Eesc. reflexivity.
  - erewrite bind_ok by exact He.
    destruct (failure_kind (subprocess_run_at w (n_runs st) (has_session_cmd name)));
      cbn [negb]; [exact Hm | reflexivity].
Qed.

(** X11.  Construction runs the existence check and succeeds exactly when
    that command exits with status 0; the target is then the session name as
    given.  A failure of the check that the gateway reports (a missing or a
    hung tmux, another exit status) is raised as [SessionNotFoundError] with
    the sessions that [list_sessions] returns next, so that no plain
    [TmuxError] comes out of the constructor; an exception that the gateway
    lets through, at the check or at the listing, comes out as it is. *)
Theorem post_init_outcome (name pattern : str) (timeout interval : time) w st :
  let make := __post_init__ name pattern timeout interval in
  let check := subprocess_run_at w (n_runs st) (has_session_cmd name) in
  let listing := subprocess_run_at w (S (n_runs st)) list_cmd in
  match failure_kind check with
  | None =>
      fst (make w st)
      = Ok {| session_name := name; prompt_pattern := pattern;
              default_timeout := timeout; poll_interval := interval;
              _target := name |}
      /\ issued make w st = [has_session_cmd name]
  | Some Uncaught =>
      (exists e, escaped check = Some e /\ fst (make w st) = Raise e)
      /\ issued make w st = [has_session_cmd name]
  | Some _ =>
      match escaped listing with
      | Some e => fst (make w st) = Raise e
      | None =>
          exists sessions,
            fst (list_sessions w (ran (has_session_cmd name) st)) = Ok sessions
            /\ fst (make w st)
               = Raise (Exception SessionNotFoundError
                          (Msg (u "tmux session '" ++ name
                                ++ u "' does not exist. Available sessions: "
                                ++ list_repr sessions)))
      end
      /\ issued make w st = [has_session_cmd name; list_cmd]
  end.
Proof.
  intros make check listing.
  pose proof (post_init_run name pattern timeout interval w st) as Hrun.
  pose proof (list_sessions_run w (ran (has_session_cmd name) st)) as Hl.
  cbn [n_runs ran] in Hl.
  fold make check listing in Hrun. fold listing in Hl.
  assert (Hissued1 : forall r, make w st = (r, ran (has_session_cmd name) st) ->
                     issued make w st = [has_session_cmd name]).
  { intros r E. apply issued_of. rewrite E. cbn [snd]. now rewrite runs_of_ran. }
  assert (Hissued2 : forall r,
             make w st = (r, ran list_cmd (ran (has_session_cmd name) st)) ->
             issued make w st = [has_session_cmd name; list_cmd]).
  { intros r E. apply issued_of. rewrite E. cbn [snd].
    rewrite !runs_of_ran, <- app_assoc. reflexivity. }
  assert (Hlisting :
            match escaped listing with
            | Some e =>
                Raise match escaped listing with
                      | Some e => e
                      | None =>
                          Exception SessionNotFoundError
                            (Msg (u "tmux session '" ++ name
                                  ++ u "' does not exist. Available sessions: "
                                  ++ list_repr (listed listing)))
                      end = Raise (A := TmuxController) e
            | None =>
                exists sessions,
                  fst (list_sessions w (ran (has_session_cmd name) st)) = Ok sessions
                  /\ Raise match escaped listing with
                           | Some e => e
                           | None =>
                               Exception SessionNotFoundError
                                 (Msg (u "tmux session '" ++ name
                                       ++ u "' does not exist. Available sessions: "
                                       ++ list_repr (listed listing)))
                           end
                     = Raise (A := TmuxController)
                         (Exception SessionNotFoundError
                            (Msg (u "tmux session '" ++ name
                                  ++ u "' does not exist. Available sessions: "
                                  ++ list_repr sessions)))
            end).
  { rewrite Hl. clearbody listing.
    destruct listing; cbn [escaped]; try reflexivity;
      (eexists; split; reflexivity). }
  clearbody listing.
  destruct check as [| |rc out err|cls text]; cbn [failure_kind escaped] in Hrun |- *.
  - rewrite Hrun. split; [exact Hlisting | now apply (Hissued2 _ Hrun)].
  - rewrite Hrun. split; [exact Hlisting | now apply (Hissued2 _ Hrun)].
  - destruct (rc =? 0)%Z.
    + rewrite Hrun. split; [reflexivity | now apply (Hissued1 _ Hrun)].
    + rewrite Hrun. split; [exact Hlisting | now apply (Hissued2 _ Hrun)].
  - rewrite Hrun. split; [| now apply (Hissued1 _ Hrun)].
    eexists. split; reflexivity.
Qed.



End Sessions.


(** ** The scripts *)

Section Scripts.
Context `{Builtins}.

Lemma send_keys_any_ok self text enter w st :
  gateway_succeeds w ->
  send_keys self text enter w st = (Ok tt, ran (send_argv self text enter) st).
Proof.
  intros Hg.
  destruct (Hg (n_runs st) (send_argv self text enter)) as (out & err & Hr).
  unfold send_keys. erewrite bind_ok; [reflexivity |].
  assert (Hc : u "tmux" :: (if enter
                then [u "send-keys"; u "-t"; _target self; text] ++ [u "Enter"]
                else [u "send-keys"; u "-t"; _target self; text])
               = send_argv self text enter)
    by (unfold send_argv; destruct enter; reflexivity).
  rewrite (@run_tmux_ok _ _ w st out err); rewrite Hc; [reflexivity | exact Hr].
Qed.

(** X16.  [send_keys.py] sends nothing it should not: without text and
    without a control key it stops with status 2 before any tmux command;
    with a control key that is not a letter or [[] once lower-cased, it stops
    with status 1 after the existence check, and a text given along with it
    is not sent. *)
Theorem send_keys_main_refusals (args : SendKeysArgs) w st :
  (sk_text args = None -> sk_ctrl args = None ->
   exists x, fst (send_keys_main args w st) = Ok x /\ exit_code x = 2%Z
             /\ issued (send_keys_main args) w st = [])
  /\ (forall k,
        sk_ctrl args = Some k -> _CTRL_MAP_get (str_lower k) = None ->
        failure_kind (subprocess_run_at w (n_runs st)
                        (has_session_cmd (sk_session args))) = None ->
        fst (send_keys_main args w st)
        = Ok {| exit_code := 1;
                printed := [Stderr (u "ERROR: Unknown ctrl key: " ++ str_repr k)] |}
        /\ issued (send_keys_main args) w st
           = [has_session_cmd (sk_session args)]).
Proof.
  split.
  - intros Ht Hc. unfold send_keys_main. rewrite Ht, Hc.
    eexists. split; [reflexivity |]. split; [reflexivity |].
    apply issued_of. unfold ret. cbn [snd]. now rewrite app_nil_r.
  - intros k Hk Hmap Hok.
    pose proof (post_init_run (sk_session args) (u "[\$#>] $") float_30
                  float_0_3 w st) as Hrun.
    rewrite Hok in Hrun.
    assert (Heq : send_keys_main args w st
                  = (Ok {| exit_code := 1;
                           printed := [Stderr (u "ERROR: Unknown ctrl key: "
                                               ++ str_repr k)] |},
                     ran (has_session_cmd (sk_session args)) st)).
    { unfold send_keys_main. rewrite Hk.
      assert (Hbody : forall t : option str,
        match t, Some k with
        | None, None =>
            ret {| exit_code := 2;
                   printed := [Usage (u "Provide either text or --ctrl KEY")] |}
        | _, _ =>
            try_except_as
              (ctrl <- TmuxController_of (sk_session args) None ;;
               early <-
                 (match Some k with
                  | Some k =>
                      match _CTRL_MAP_get (str_lower k) with
                      | None =>
                          ret (Some {| exit_code := 1;
                                       printed :=
                                         [Stderr (u "ERROR: Unknown ctrl key: "
                                                  ++ str_repr k)] |})
                      | Some tmux_key => (send_keys ctrl tmux_key false ;; ret None)
                      end
                  | None => ret None
                  end) ;;
               match early with
               | Some exit => ret exit
               | None =>
                   match t with
                   | Some text =>
                       (send_keys ctrl text (negb (sk_no_enter args)) ;;
                        ret {| exit_code := 0; printed := [] |})
                   | None => ret {| exit_code := 0; printed := [] |}
                   end
               end)
              TmuxError
              (fun e => ret {| exit_code := 1;
                               printed := [StderrExn (u "ERROR: ") e] |})
        end w st
        = (Ok {| exit_code := 1;
                 printed := [Stderr (u "ERROR: Unknown ctrl key: " ++ str_repr k)] |},
           ran (has_session_cmd (sk_session args)) st)).
      { intros t. rewrite Hmap. unfold try_except_as, TmuxController_of.
        destruct t; erewrite bind_ok by exact Hrun; reflexivity. }
      apply Hbody. }
    split; [now rewrite Heq |]. apply issued_of. rewrite Heq. cbn [snd].
    apply runs_of_ran.
Qed.

(** X17.  [send_keys.py] with a known control key, gateway working: the
    key goes out first, as [C-<letter>] or [Escape] and without Enter; the
    text, when there is one, goes out after it, with Enter unless
    [--no-enter] was given; the script exits with 0. *)
Theorem send_keys_main_order (args : SendKeysArgs) w st (k key : str) :
  gateway_succeeds w ->
  sk_ctrl args = Some k -> _CTRL_MAP_get (str_lower k) = Some key ->
  fst (send_keys_main args w st) = Ok {| exit_code := 0; printed := [] |}
  /\ issued (send_keys_main args) w st
     = [has_session_cmd (sk_session args);
        [u "tmux"; u "send-keys"; u "-t"; sk_session args; key]]
       ++ match sk_text args with
          | Some text =>
              [[u "tmux"; u "send-keys"; u "-t"; sk_session args; text]
               ++ (if sk_no_enter args then [] else [u "Enter"])]
          | None => []
          end
  /\ ((exists c, str_lower k = [c] /\ (97 <= c <= 122)%N /\ key = u "C-" ++ [c])
      \/ (str_lower k = u "[" /\ key = u "Escape")).
Proof.
  intros Hg Hk Hmap.
  pose proof (post_init_run (sk_session args) (u "[\$#>] $") float_30
                float_0_3 w st) as Hrun.
  assert (Hok : failure_kind (subprocess_run_at w (n_runs st)
                                (has_session_cmd (sk_session args))) = None).
  { destruct (Hg (n_runs st) (has_session_cmd (sk_session args))) as (o & e & ->).
    reflexivity. }
  rewrite Hok in Hrun.
  set (self := {| session_name := sk_session args; prompt_pattern := u "[\$#>] $";
                  default_timeout := float_30; poll_interval := float_0_3;
                  _target := sk_session args |}) in *.
  assert (Heq : exists stf,
             send_keys_main args w st = (Ok {| exit_code := 0; printed := [] |}, stf)
             /\ runs_of (trace stf)
                = runs_of (trace st)
                  ++ [has_session_cmd (sk_session args);
                      [u "tmux"; u "send-keys"; u "-t"; sk_session args; key]]
                  ++ match sk_text args with
                     | Some text =>
                         [[u "tmux"; u "send-keys"; u "-t"; sk_session args; text]
                          ++ (if sk_no_enter args then [] else [u "Enter"])]
                     | None => []
                     end).
  { unfold send_keys_main. rewrite Hk.
    destruct (sk_text args) as [text |]; rewrite Hmap;
      unfold try_except_as, TmuxController_of;
      erewrite bind_ok by exact Hrun;
      erewrite bind_ok
        by (erewrite bind_ok by (apply send_keys_any_ok; exact Hg); reflexivity).
    - cbv beta iota.
      erewrite bind_ok by (apply send_keys_any_ok; exact Hg).
      eexists. split; [reflexivity |].
      rewrite !runs_of_ran, <- !app_assoc. unfold send_argv. cbn [_target self].
      destruct (sk_no_enter args); reflexivity.
    - eexists. split; [reflexivity |].
      rewrite !runs_of_ran, <- !app_assoc. reflexivity. }
  destruct Heq as (stf & Heq & Hruns).
  split; [now rewrite Heq |]. split.
  - apply issued_of. now rewrite Heq.
  - unfold _CTRL_MAP_get in Hmap.
    destruct (str_lower k) as [|c [|d r]]; try discriminate.
    destruct ((97 <=? c) && (c <=? 122))%N eqn:Hc.
    + left. exists c. injection Hmap as <-.
      apply andb_true_iff in Hc as [H1 H2]. apply N.leb_le in H1, H2.
      repeat split; assumption.
    + destruct (N.eqb_spec c 91) as [-> |]; [| discriminate].
      right. injection Hmap as <-. now split.
Qed.

(** X18.  [read_buffer.py] never sends a key: it runs the existence check
    and then, at most, one capture (the session is there) or the listing
    (the check failed).  It exits with 0 printing what [read_buffer]
    returned; it exits with 1, the error under [ERROR:], on every
    [TmuxError], which covers the [SessionNotFoundError] of the constructor
    and the errors that the gateway reports at the capture; an exception
    that the gateway lets through leaves [main] uncaught. *)
Theorem read_buffer_main_outcome (args : ReadBufferArgs) w st :
  let run := read_buffer_main args in
  let self := {| session_name := rb_session args; prompt_pattern := u "[\$#>] $";
                 default_timeout := float_30; poll_interval := float_0_3;
                 _target := rb_session args |} in
  let check := subprocess_run_at w (n_runs st) (has_session_cmd (rb_session args)) in
  let after := ran (has_session_cmd (rb_session args)) st in
  match failure_kind check with
  | None =>
      issued run w st
      = [has_session_cmd (rb_session args);
         [u "tmux"; u "capture-pane"; u "-t"; rb_session args; u "-p"]
         ++ (if rb_history args then [u "-S"; u "-"] else [])]
      /\ match fst (read_buffer self (rb_lines args) (rb_history args) w after) with
         | Ok out =>
             fst (run w st) = Ok {| exit_code := 0; printed := [Stdout out] |}
         | Raise e =>
             fst (run w st)
             = if issubclass (exn_class e) TmuxError
               then Ok {| exit_code := 1; printed := [StderrExn (u "ERROR: ") e] |}
               else Raise e
         | Diverge => False
         end
  | Some Uncaught =>
      issued run w st = [has_session_cmd (rb_session args)]
      /\ exists e, escaped check = Some e /\ fst (run w st) = Raise e
  | Some _ =>
      issued run w st = [has_session_cmd (rb_session args); list_cmd]
      /\ match escaped (subprocess_run_at w (S (n_runs st)) list_cmd) with
         | Some e => fst (run w st) = Raise e
         | None =>
             exists e,
               exn_class e = SessionNotFoundError
               /\ fst (run w st)
                  = Ok {| exit_code := 1; printed := [StderrExn (u "ERROR: ") e] |}
         end
  end.
Proof.
  intros run self check after.
  pose proof (post_init_run (rb_session args) (u "[\$#>] $") float_30
                float_0_3 w st) as Hrun.
  fold self check after in Hrun.
  assert (Hbody :
    run w st
    = match __post_init__ (rb_session args) (u "[\$#>] $") float_30 float_0_3 w st with
      | (Ok ctrl, s1) =>
          match read_buffer ctrl (rb_lines args) (rb_history args) w s1 with
          | (Ok out, s2) => (Ok {| exit_code := 0; printed := [Stdout out] |}, s2)
          | (Raise e, s2) =>
              if issubclass (exn_class e) TmuxError
              then (Ok {| exit_code := 1; printed := [StderrExn (u "ERROR: ") e] |}, s2)
              else (Raise e, s2)
          | (Diverge, s2) => (Diverge, s2)
          end
      | (Raise e, s1) =>
          if issubclass (exn_class e) TmuxError
          then (Ok {| exit_code := 1; printed := [StderrExn (u "ERROR: ") e] |}, s1)
          else (Raise e, s1)
      | (Diverge, s1) => (Diverge, s1)
      end).
  { unfold run, read_buffer_main, try_except_as, TmuxController_of, bind, ret.
    destruct (__post_init__ _ _ _ _ w st) as [[ctrl | e |] s1]; try reflexivity.
    destruct (read_buffer ctrl _ _ w s1) as [[out | e |] s2]; reflexivity. }
  rewrite Hrun in Hbody.
  assert (Hmissing :
    failure_kind check <> None -> escaped check = None ->
    issued run w st = [has_session_cmd (rb_session args); list_cmd]
    /\ match escaped (subprocess_run_at w (S (n_runs st)) list_cmd) with
       | Some e => fst (run w st) = Raise e
       | None =>
           exists e,
             exn_class e = SessionNotFoundError
             /\ fst (run w st)
                = Ok {| exit_code := 1; printed := [StderrExn (u "ERROR: ") e] |}
       end).
  { intros Hk He. rewrite He in Hbody.
    destruct (failure_kind check); [| congruence].
    assert (Hs : snd (run w st) = ran list_cmd after).
    { rewrite Hbody.
      destruct (escaped (subprocess_run_at w (S (n_runs st)) list_cmd)) as [e |] eqn:E.
      - destruct (issubclass (exn_class e) TmuxError); reflexivity.
      - reflexivity. }
    split.
    - apply issued_of. rewrite Hs. unfold after.
      rewrite !runs_of_ran, <- app_assoc. reflexivity.
    - rewrite Hbody.
      destruct (subprocess_run_at w (S (n_runs st)) list_cmd); cbn [escaped];
        try (eexists; split; [| reflexivity]; reflexivity).
      reflexivity. }
  clearbody check.
  destruct check as [| |rc out err|cls text]; cbn [failure_kind escaped] in Hbody |- *;
    try (apply Hmissing; [discriminate | reflexivity]).
  - destruct (Z.eqb_spec rc 0) as [-> | Hrc].
    + pose proof (read_buffer_state self (rb_lines args) (rb_history args) w after) as Hs.
      destruct (gateway_only_read_buffer self (rb_lines args) (rb_history args) w after)
        as [_ Hr].
      destruct (read_buffer self (rb_lines args) (rb_history args) w after)
        as [[o | e |] s2]; cbn [fst snd] in Hs, Hr |- *; try contradiction; subst s2.
      * split; [| now rewrite Hbody]. apply issued_of. rewrite Hbody. cbn [snd].
        unfold after. rewrite !runs_of_ran, <- app_assoc. reflexivity.
      * split.
        -- apply issued_of. rewrite Hbody.
           destruct (issubclass (exn_class e) TmuxError); cbn [snd]; unfold after;
             rewrite !runs_of_ran, <- app_assoc; reflexivity.
        -- rewrite Hbody. destruct (issubclass (exn_class e) TmuxError); reflexivity.
    + apply Hmissing; cbn [failure_kind escaped].
      * destruct (Z.eqb_spec rc 0); [contradiction | discriminate].
      * reflexivity.
  - cbn [issubclass exn_class] in Hbody. split.
    + apply issued_of. rewrite Hbody. cbn [snd]. unfold after. now rewrite runs_of_ran.
    + eexists. split; [reflexivity |]. now rewrite Hbody.
Qed.

End Scripts.


Lemma send_keys_main_refusals_witness :
  fst (send_keys_main args_bad_key w_silent st0)
  = Ok {| exit_code := 1; printed := [Stderr (u "ERROR: Unknown ctrl key: '1'")] |}
  /\ exists x,
       fst (send_keys_main args_nothing w_silent st0) = Ok x
       /\ exit_code x = 2%Z.
Proof.
  split.
  - exact (proj1 (proj2 (@send_keys_main_refusals _ _ args_bad_key w_silent st0)
                   (u "1") eq_refl eq_refl eq_refl)).
  - destruct (proj1 (@send_keys_main_refusals _ _ args_nothing w_silent st0)
                eq_refl eq_refl) as (x & Hx & Hc & _).
    now exists x.
Defined.

Lemma send_keys_main_order_witness :
  issued (send_keys_main args_interrupt) w_silent st0
  = [has_session_cmd (u "main");
     [u "tmux"; u "send-keys"; u "-t"; u "main"; u "C-c"];
     [u "tmux"; u "send-keys"; u "-t"; u "main"; u "q"]].
Proof.
  exact (proj1 (proj2 (@send_keys_main_order _ _ args_interrupt w_silent st0
                         (u "C") (u "C-c") w_silent_succeeds eq_refl eq_refl))).
Defined.

Lemma post_init_outcome_witness :
  fst (__post_init__ (u "gone") (u "[\$#>] $") 30000%Z 300%Z w_missing st0)
  = Raise (Exception SessionNotFoundError
             (Msg (u "tmux session 'gone' does not exist. Available sessions: []")))
  /\ fst (__post_init__ (u "main") (u "[\$#>] $") 30000%Z 300%Z w_denied st0)
     = Raise (Exception (LibraryError (u "PermissionError"))
                (Msg (u "[Errno 13] Permission denied: 'tmux'")))
  /\ issued (__post_init__ (u "main") (u "[\$#>] $") 30000%Z 300%Z) w_denied st0
     = [has_session_cmd (u "main")].
Proof.
  pose proof (@post_init_outcome _ _ (u "gone") (u "[\$#>] $") 30000%Z 300%Z
                w_missing st0) as H1.
  pose proof (@post_init_outcome _ _ (u "main") (u "[\$#>] $") 30000%Z 300%Z
                w_denied st0) as H2.
  vm_compute in H1, H2.
  destruct H1 as [(sessions & Hs & Hr) _]. injection Hs as <-.
  destruct H2 as [(e & He & Hr2) Hi]. injection He as <-.
  split; [exact Hr | split; [exact Hr2 | exact Hi]].
Defined.

Lemma read_buffer_main_outcome_witness :
  fst (read_buffer_main args_tail w_two_lines st0)
  = Ok {| exit_code := 0; printed := [Stdout (u "b")] |}
  /\ (exists e,
        exn_class e = SessionNotFoundError
        /\ fst (read_buffer_main args_tail w_failing st0)
           = Ok {| exit_code := 1; printed := [StderrExn (u "ERROR: ") e] |})
  /\ fst (read_buffer_main args_tail w_denied st0)
     = Raise (Exception (LibraryError (u "PermissionError"))
                (Msg (u "[Errno 13] Permission denied: 'tmux'"))).
Proof.
  pose proof (@read_buffer_main_outcome _ _ args_tail w_two_lines st0) as H1.
  pose proof (@read_buffer_main_outcome _ _ args_tail w_failing st0) as H2.
  pose proof (@read_buffer_main_outcome _ _ args_tail w_denied st0) as H3.
  vm_compute in H1, H2, H3.
  destruct H1 as [_ H1]. destruct H2 as [_ H2].
  destruct H3 as [_ (e & He & H3)]. injection He as <-.
  split; [exact H1 | split; [exact H2 | exact H3]].
Defined.

(** ** The two markers of a call *)

Lemma marker_lengths (uid : str) :
  length (start_marker_of uid) = (22 + length uid)%nat
  /\ length (end_marker_of uid) = (20 + length uid)%nat.
Proof.
  unfold start_marker_of, end_marker_of. rewrite !length_app.
  change (length (u "__TMUX_BRIDGE_START_")) with 20%nat.
  change (length (u "__TMUX_BRIDGE_END_")) with 18%nat.
  change (length (u "__")) with 2%nat. lia.
Qed.

(** X19.  Whatever the token, the two markers built from it are different
    and neither occurs inside the other, so a search for one never stops on
    the other. *)
Theorem markers_do_not_overlap (uid : str) :
  start_marker_of uid <> end_marker_of uid
  /\ contains (start_marker_of uid) (end_marker_of uid) = false
  /\ contains (end_marker_of uid) (start_marker_of uid) = false.
Proof.
  destruct (marker_lengths uid) as [Hs He].
  split; [| split].
  - intros E. rewrite E in Hs. lia.
  - destruct (contains (start_marker_of uid) (end_marker_of uid)) eqn:Hc;
      [| reflexivity].
    apply contains_spec in Hc as (p & q & Heq).
    destruct p as [|a [|b [|c p]]].
    + unfold start_marker_of, end_marker_of in Heq. vm_compute in Heq.
      discriminate Heq.
    + unfold start_marker_of, end_marker_of in Heq. vm_compute in Heq.
      discriminate Heq.
    + unfold start_marker_of, end_marker_of in Heq. vm_compute in Heq.
      discriminate Heq.
    + apply (f_equal (@length char)) in Heq.
      rewrite !length_app, Hs, He in Heq. simpl in Heq. lia.
  - destruct (contains (end_marker_of uid) (start_marker_of uid)) eqn:Hc;
      [| reflexivity].
    apply contains_spec in Hc as (p & q & Heq).
    apply (f_equal (@length char)) in Heq.
    rewrite !length_app, Hs, He in Heq. lia.
Qed.

(** ** The names that the listing yields *)


Lemma one_line_rev (s : str) : one_line (rev s) = one_line s.
Proof. apply forallb_rev. Qed.

Lemma splitlines_from_end (cur : str) :
  one_line cur = true -> forallb one_line (splitlines_from cur []) = true.
Proof.
  intros Hcur.
  change (splitlines_from cur []) with (match cur with [] => [] | _ => [rev cur] end).
  destruct cur as [|c cur']; [reflexivity |].
  cbn [forallb]. now rewrite one_line_rev, Hcur.
Qed.

Lemma splitlines_from_one_line (n : nat) : forall s cur,
  (length s <= n)%nat -> one_line cur = true ->
  forallb one_line (splitlines_from cur s) = true.
Proof.
  induction n as [|n IH]; intros s cur Hn Hcur.
  - destruct s; [| simpl in Hn; lia]. now apply splitlines_from_end.
  - destruct s as [|c rest]; [now apply splitlines_from_end |].
    simpl in Hn.
    change (splitlines_from cur (c :: rest)) with
      (if is_linebreak c then
         rev cur ::
         (if N.eqb c CR then
            match rest with
            | c' :: rest' =>
                if N.eqb c' LF then splitlines_from [] rest'
                else splitlines_from [] rest
            | [] => splitlines_from [] rest
            end
          else splitlines_from [] rest)
       else splitlines_from (c :: cur) rest).
    destruct (is_linebreak c) eqn:Hc.
    + cbn [forallb]. rewrite one_line_rev, Hcur. cbn [andb].
      destruct (N.eqb c CR).
      * destruct rest as [|c' rest'].
        -- apply IH; [simpl; lia | reflexivity].
        -- destruct (N.eqb c' LF).
           ++ apply IH; [simpl in Hn; lia | reflexivity].
           ++ apply IH; [lia | reflexivity].
      * apply IH; [lia | reflexivity].
    + apply IH; [lia |].
      unfold one_line in *. cbn [forallb]. now rewrite Hc, Hcur.
Qed.

(** X20.  Every name that [list_sessions] returns is a single line with
    something other than whitespace on it: the list holds no blank entry
    and no entry with a line break. *)
Theorem list_sessions_names_wellformed `{Host} (w : World) (st : State)
    (names : list str) (name : str) :
  fst (list_sessions w st) = Ok names -> In name names ->
  one_line name = true /\ strip name <> [].
Proof.
  rewrite list_sessions_run. cbn [fst]. unfold listed.
  destruct (subprocess_run_at w (n_runs st) list_cmd) as [| |rc out err|cls text];
    try discriminate; try (intros [= <-]; contradiction).
  destruct (rc =? 0)%Z; intros [= <-]; [| contradiction].
  intros Hin. apply filter_In in Hin as [Hin Hne]. split.
  - pose proof (splitlines_from_one_line (n := length out) out [] (le_n _) eq_refl)
      as Hall.
    apply (proj1 (forallb_forall _ _) Hall). exact Hin.
  - intros E. rewrite E in Hne. discriminate.
Qed.

Lemma list_sessions_names_wellformed_witness :
  one_line (u "a") = true /\ strip (u "a") <> [].
Proof.
  apply (@list_sessions_names_wellformed _ w_two_lines st0 [u "a"; u "b"] (u "a")).
  - reflexivity.
  - now left.
Defined.

